(** * ScanTailor Advanced: the scheduling and composition layer of MainWindow

    A shallow embedding of the parts of [MainWindow.cpp] that build the
    per-page task chains, drive the interactive and the batch queue, feed the
    worker pool and react to a change of the selected stage.

    Conventions.
    - C++ [int] values (stage indices, the selection guard) are [Z].
    - A null [intrusive_ptr] / [unique_ptr] is [None].
    - A failed [assert], like the use of a null pointer, aborts the function:
      the functions that can do either return an [option], and [None] is the
      abort.
    - The loops are given fuel; a loop out of fuel also yields [None], and
      the properties that say a loop returns give the fuel that suffices.
    - Background tasks are heap objects shared by the queue, the pool and the
      completion callback; they live in a store and are named by their
      address, so that the cancellation flag written by a queue is the one
      read by [filterResult].
    - Calls that only touch widgets are either recorded in an event trace
      (when a property speaks about them) or left out, and so are the calls
      into the filters' settings ([loadDefaultSettings], [selected],
      [preUpdateUI]); the dereference of [filterAt(m_curFilter)] that comes
      with such a call is kept.  Signals raised by the thumbnail sequence
      are not followed, so [m_selectedPage] does not follow the selections
      the handlers make; the one signal followed is the selection change
      raised by [filterList->selectRow] inside [filterResult].
    - Classes whose sources are not at hand ([StageSequence],
      [ProcessingTaskQueue], [WorkerThreadPool], [ThumbnailSequence],
      [ProjectPages]) are modelled from the specification, and what the
      specification does not say about them is a field of [Collaborators].
    - The handlers that select a page and that open, save and close a
      project are in [ProjectLifecycle]: what the user and the file system
      answer is a field of [ProjectLifecycle.Answers], what the handlers do
      to them is logged in [ProjectLifecycle.actions], and [QFile] is a
      regular file whose [read] returns the next bytes, at most as many as
      asked for. *)

From Stdlib Require Import ZArith List Bool Lia PeanoNat Permutation.
Import ListNotations.

Local Open Scope Z_scope.

(* ------------------------------------------------------------------ *)
(** ** Page identities *)

Module PageId.

Inductive SubPage := SINGLE_PAGE | LEFT_PAGE | RIGHT_PAGE.

Definition SubPage_eqb (a b : SubPage) : bool :=
  match a, b with
  | SINGLE_PAGE, SINGLE_PAGE | LEFT_PAGE, LEFT_PAGE | RIGHT_PAGE, RIGHT_PAGE => true
  | _, _ => false
  end.

(** An [ImageId] names an image file; [None] is the null id of a default
    constructed [ImageId]. *)
Definition ImageId := option nat.

Definition ImageId_eqb (a b : ImageId) : bool :=
  match a, b with
  | None, None => true
  | Some x, Some y => Nat.eqb x y
  | _, _ => false
  end.

Record t := mk { imageId : ImageId; subPage : SubPage }.

(** [PageId()] *)
Definition null : t := mk None SINGLE_PAGE.

Definition isNull (p : t) : bool :=
  match imageId p with None => true | Some _ => false end.

Definition eqb (a b : t) : bool :=
  ImageId_eqb (imageId a) (imageId b) && SubPage_eqb (subPage a) (subPage b).

End PageId.

(** [PageInfo]: a page id plus image metadata; only the id matters here.
    [PageInfo()] holds the null id. *)
Module PageInfo.

Record t := mk { id : PageId.t }.

Definition null : t := mk PageId.null.

Definition isNull (p : t) : bool := PageId.isNull (id p).

End PageInfo.

(* ------------------------------------------------------------------ *)
(** ** The stage sequence *)

Inductive Stage :=
| FixOrientation | PageSplit | Deskew | SelectContent | PageLayout | Output.

Definition Stage_eqb (a b : Stage) : bool :=
  match a, b with
  | FixOrientation, FixOrientation | PageSplit, PageSplit | Deskew, Deskew
  | SelectContent, SelectContent | PageLayout, PageLayout | Output, Output => true
  | _, _ => false
  end.

Module StageSequence.

(** Modelled from the spec: the index accessors of [StageSequence]
    ([StageSequence.h] is not part of the sources at hand).  The spec fixes
    the order: "integer 0..5 fixed order: fix-orientation, page-split,
    deskew, select-content, page-layout, output". *)
Definition fixOrientationFilterIdx : Z := 0.
Definition pageSplitFilterIdx : Z := 1.
Definition deskewFilterIdx : Z := 2.
Definition selectContentFilterIdx : Z := 3.
Definition pageLayoutFilterIdx : Z := 4.
Definition outputFilterIdx : Z := 5.
Definition count : Z := 6.

Definition all : list Stage :=
  [FixOrientation; PageSplit; Deskew; SelectContent; PageLayout; Output].

(** [findFilter]: the index of a filter of the sequence. *)
Definition findFilter (s : Stage) : Z :=
  match s with
  | FixOrientation => fixOrientationFilterIdx
  | PageSplit => pageSplitFilterIdx
  | Deskew => deskewFilterIdx
  | SelectContent => selectContentFilterIdx
  | PageLayout => pageLayoutFilterIdx
  | Output => outputFilterIdx
  end.

(** [filterAt]: the filter stored at an index, if any. *)
Definition filterAt (idx : Z) : option Stage :=
  find (fun s => findFilter s =? idx) all.

(** The stages whose index is at most [idx], in pipeline order. *)
Definition upTo (idx : Z) : list Stage :=
  filter (fun s => findFilter s <=? idx) all.

End StageSequence.

(* ------------------------------------------------------------------ *)
(** ** Stage tasks

    One module per filter namespace.  [createTask] of a filter builds the
    filter's [Task] from its arguments; the thumbnail cache and the output
    file name generator handed to some of them play no role below and are
    left out.  A task keeps the downstream task it was given as [next]. *)

Module output.
Record Task := mkTask { page : PageId.t; batch : bool; debug : bool }.
Definition createTask (p : PageId.t) (b d : bool) : Task := mkTask p b d.

Inductive CacheDrivenTask := mkCacheDrivenTask.
Definition createCacheDrivenTask : CacheDrivenTask := mkCacheDrivenTask.
End output.

Module page_layout.
Record Task :=
  mkTask { page : PageId.t; next : option output.Task; batch : bool; debug : bool }.
Definition createTask p (n : option output.Task) (b d : bool) : Task := mkTask p n b d.

Record CacheDrivenTask := mkCacheDrivenTask { cd_next : option output.CacheDrivenTask }.
Definition createCacheDrivenTask n : CacheDrivenTask := mkCacheDrivenTask n.
End page_layout.

Module select_content.
Record Task :=
  mkTask { page : PageId.t; next : option page_layout.Task; batch : bool; debug : bool }.
Definition createTask p (n : option page_layout.Task) (b d : bool) : Task := mkTask p n b d.

Record CacheDrivenTask := mkCacheDrivenTask { cd_next : option page_layout.CacheDrivenTask }.
Definition createCacheDrivenTask n : CacheDrivenTask := mkCacheDrivenTask n.
End select_content.

Module deskew.
Record Task :=
  mkTask { page : PageId.t; next : option select_content.Task; batch : bool; debug : bool }.
Definition createTask p (n : option select_content.Task) (b d : bool) : Task := mkTask p n b d.

Record CacheDrivenTask := mkCacheDrivenTask { cd_next : option select_content.CacheDrivenTask }.
Definition createCacheDrivenTask n : CacheDrivenTask := mkCacheDrivenTask n.
End deskew.

Module page_split.
(** [page_split]'s [createTask] receives the whole [PageInfo]. *)
Record Task :=
  mkTask { page : PageInfo.t; next : option deskew.Task; batch : bool; debug : bool }.
Definition createTask p (n : option deskew.Task) (b d : bool) : Task := mkTask p n b d.

Record CacheDrivenTask := mkCacheDrivenTask { cd_next : option deskew.CacheDrivenTask }.
Definition createCacheDrivenTask n : CacheDrivenTask := mkCacheDrivenTask n.
End page_split.

Module fix_orientation.
(** [fix_orientation]'s [createTask] has no debug parameter. *)
Record Task :=
  mkTask { page : PageId.t; next : option page_split.Task; batch : bool }.
Definition createTask p (n : option page_split.Task) (b : bool) : Task := mkTask p n b.

Record CacheDrivenTask := mkCacheDrivenTask { cd_next : option page_split.CacheDrivenTask }.
Definition createCacheDrivenTask n : CacheDrivenTask := mkCacheDrivenTask n.
End fix_orientation.

(** A task of any stage: what the builders record, in construction order. *)
Inductive StageTask :=
| OutputT (t : output.Task)
| PageLayoutT (t : page_layout.Task)
| SelectContentT (t : select_content.Task)
| DeskewT (t : deskew.Task)
| PageSplitT (t : page_split.Task)
| FixOrientationT (t : fix_orientation.Task).

Definition stage_of (t : StageTask) : Stage :=
  match t with
  | OutputT _ => Output
  | PageLayoutT _ => PageLayout
  | SelectContentT _ => SelectContent
  | DeskewT _ => Deskew
  | PageSplitT _ => PageSplit
  | FixOrientationT _ => FixOrientation
  end.

(** The downstream task a stage task was constructed with. *)
Definition next_of (t : StageTask) : option StageTask :=
  match t with
  | OutputT _ => None
  | PageLayoutT t => option_map OutputT (page_layout.next t)
  | SelectContentT t => option_map PageLayoutT (select_content.next t)
  | DeskewT t => option_map SelectContentT (deskew.next t)
  | PageSplitT t => option_map DeskewT (page_split.next t)
  | FixOrientationT t => option_map PageSplitT (fix_orientation.next t)
  end.

(** The debug flag a stage's [createTask] was called with; [None] for the
    one stage whose [createTask] takes no such flag. *)
Definition debug_of (t : StageTask) : option bool :=
  match t with
  | OutputT t => Some (output.debug t)
  | PageLayoutT t => Some (page_layout.debug t)
  | SelectContentT t => Some (select_content.debug t)
  | DeskewT t => Some (deskew.debug t)
  | PageSplitT t => Some (page_split.debug t)
  | FixOrientationT _ => None
  end.

Definition batch_of (t : StageTask) : bool :=
  match t with
  | OutputT t => output.batch t
  | PageLayoutT t => page_layout.batch t
  | SelectContentT t => select_content.batch t
  | DeskewT t => deskew.batch t
  | PageSplitT t => page_split.batch t
  | FixOrientationT t => fix_orientation.batch t
  end.

(** The stages a chain runs through, head first. *)
Module Chain.

Definition of_output (_ : output.Task) : list Stage := [Output].

Definition opt {A} (f : A -> list Stage) (o : option A) : list Stage :=
  match o with Some t => f t | None => [] end.

Definition of_page_layout (t : page_layout.Task) :=
  PageLayout :: opt of_output (page_layout.next t).
Definition of_select_content (t : select_content.Task) :=
  SelectContent :: opt of_page_layout (select_content.next t).
Definition of_deskew (t : deskew.Task) :=
  Deskew :: opt of_select_content (deskew.next t).
Definition of_page_split (t : page_split.Task) :=
  PageSplit :: opt of_deskew (page_split.next t).
Definition of_fix_orientation (t : fix_orientation.Task) :=
  FixOrientation :: opt of_page_split (fix_orientation.next t).

Definition cd_of_output (_ : output.CacheDrivenTask) : list Stage := [Output].
Definition cd_of_page_layout (t : page_layout.CacheDrivenTask) :=
  PageLayout :: opt cd_of_output (page_layout.cd_next t).
Definition cd_of_select_content (t : select_content.CacheDrivenTask) :=
  SelectContent :: opt cd_of_page_layout (select_content.cd_next t).
Definition cd_of_deskew (t : deskew.CacheDrivenTask) :=
  Deskew :: opt cd_of_select_content (deskew.cd_next t).
Definition cd_of_page_split (t : page_split.CacheDrivenTask) :=
  PageSplit :: opt cd_of_deskew (page_split.cd_next t).
Definition cd_of_fix_orientation (t : fix_orientation.CacheDrivenTask) :=
  FixOrientation :: opt cd_of_page_split (fix_orientation.cd_next t).

End Chain.

(** The same for cache-driven tasks. *)
Inductive StageCacheDrivenTask :=
| OutputC (t : output.CacheDrivenTask)
| PageLayoutC (t : page_layout.CacheDrivenTask)
| SelectContentC (t : select_content.CacheDrivenTask)
| DeskewC (t : deskew.CacheDrivenTask)
| PageSplitC (t : page_split.CacheDrivenTask)
| FixOrientationC (t : fix_orientation.CacheDrivenTask).

Definition cd_stage_of (t : StageCacheDrivenTask) : Stage :=
  match t with
  | OutputC _ => Output
  | PageLayoutC _ => PageLayout
  | SelectContentC _ => SelectContent
  | DeskewC _ => Deskew
  | PageSplitC _ => PageSplit
  | FixOrientationC _ => FixOrientation
  end.

Definition cd_next_of (t : StageCacheDrivenTask) : option StageCacheDrivenTask :=
  match t with
  | OutputC _ => None
  | PageLayoutC t => option_map OutputC (page_layout.cd_next t)
  | SelectContentC t => option_map PageLayoutC (select_content.cd_next t)
  | DeskewC t => option_map SelectContentC (deskew.cd_next t)
  | PageSplitC t => option_map DeskewC (page_split.cd_next t)
  | FixOrientationC t => option_map PageSplitC (fix_orientation.cd_next t)
  end.

(** [linked next prev log]: every task of [log] was constructed with the
    task constructed just before it as its downstream task, the first one
    with [prev]. *)
Fixpoint linked {A} (next : A -> option A) (prev : option A) (log : list A) : Prop :=
  match log with
  | [] => True
  | t :: rest => next t = prev /\ linked next (Some t) rest
  end.

(* ------------------------------------------------------------------ *)
(** ** Background tasks *)

Module BackgroundTask.
Inductive TaskType := INTERACTIVE | BATCH.
End BackgroundTask.

(** [LoadFileTask]: the background task that loads the image and hands it
    to the head of the chain. *)
Record LoadFileTask := mkLoadFileTask {
  lf_type : BackgroundTask.TaskType;
  lf_page : PageInfo.t;
  lf_nextTask : fix_orientation.Task
}.

(* ------------------------------------------------------------------ *)
(** ** The composite task builders *)

Import StageSequence.

(** [MainWindow::createCompositeTask].  The local [debug] is shadowed where
    the source assigns to it; the second component lists the tasks in the
    order their [createTask] calls are made. *)
Definition createCompositeTask (page : PageInfo.t) (last_filter_idx : Z)
    (batch debug : bool) : list StageTask * option LoadFileTask :=
  let debug := if batch then false else debug in
  let '(output_task, debug, calls) :=
    if last_filter_idx >=? outputFilterIdx then
      let t := output.createTask (PageInfo.id page) batch debug in
      (Some t, false, [OutputT t])
    else (None, debug, []) in
  let '(page_layout_task, debug, calls) :=
    if last_filter_idx >=? pageLayoutFilterIdx then
      let t := page_layout.createTask (PageInfo.id page) output_task batch debug in
      (Some t, false, calls ++ [PageLayoutT t])
    else (None, debug, calls) in
  let '(select_content_task, debug, calls) :=
    if last_filter_idx >=? selectContentFilterIdx then
      let t := select_content.createTask (PageInfo.id page) page_layout_task batch debug in
      (Some t, false, calls ++ [SelectContentT t])
    else (None, debug, calls) in
  let '(deskew_task, debug, calls) :=
    if last_filter_idx >=? deskewFilterIdx then
      let t := deskew.createTask (PageInfo.id page) select_content_task batch debug in
      (Some t, false, calls ++ [DeskewT t])
    else (None, debug, calls) in
  let '(page_split_task, debug, calls) :=
    if last_filter_idx >=? pageSplitFilterIdx then
      let t := page_split.createTask page deskew_task batch debug in
      (Some t, false, calls ++ [PageSplitT t])
    else (None, debug, calls) in
  let '(fix_orientation_task, calls) :=
    if last_filter_idx >=? fixOrientationFilterIdx then
      let t := fix_orientation.createTask (PageInfo.id page) page_split_task batch in
      (Some t, calls ++ [FixOrientationT t])
    else (None, calls) in
  (* assert(fix_orientation_task); *)
  match fix_orientation_task with
  | None => (calls, None)
  | Some head =>
      (calls,
       Some (mkLoadFileTask
               (if batch then BackgroundTask.BATCH else BackgroundTask.INTERACTIVE)
               page head))
  end.

(** [MainWindow::createCompositeCacheDrivenTask]. *)
Definition createCompositeCacheDrivenTask (last_filter_idx : Z)
    : list StageCacheDrivenTask * option fix_orientation.CacheDrivenTask :=
  let '(output_task, calls) :=
    if last_filter_idx >=? outputFilterIdx then
      let t := output.createCacheDrivenTask in (Some t, [OutputC t])
    else (None, []) in
  let '(page_layout_task, calls) :=
    if last_filter_idx >=? pageLayoutFilterIdx then
      let t := page_layout.createCacheDrivenTask output_task in
      (Some t, calls ++ [PageLayoutC t])
    else (None, calls) in
  let '(select_content_task, calls) :=
    if last_filter_idx >=? selectContentFilterIdx then
      let t := select_content.createCacheDrivenTask page_layout_task in
      (Some t, calls ++ [SelectContentC t])
    else (None, calls) in
  let '(deskew_task, calls) :=
    if last_filter_idx >=? deskewFilterIdx then
      let t := deskew.createCacheDrivenTask select_content_task in
      (Some t, calls ++ [DeskewC t])
    else (None, calls) in
  let '(page_split_task, calls) :=
    if last_filter_idx >=? pageSplitFilterIdx then
      let t := page_split.createCacheDrivenTask deskew_task in
      (Some t, calls ++ [PageSplitC t])
    else (None, calls) in
  let '(fix_orientation_task, calls) :=
    if last_filter_idx >=? fixOrientationFilterIdx then
      let t := fix_orientation.createCacheDrivenTask page_split_task in
      (Some t, calls ++ [FixOrientationC t])
    else (None, calls) in
  (* assert(fix_orientation_task); *)
  (calls, fix_orientation_task).


(** The indices 0..S. *)
Definition indices_upto (S : Z) : list Z :=
  map Z.of_nat (seq 0 (Z.to_nat (S + 1))).

(** Whether a [createTask] call was handed a debug flag that is on. *)
Definition receives_debug (t : StageTask) : bool :=
  match debug_of t with Some true => true | _ => false end.

(* ------------------------------------------------------------------ *)
(** ** The store of background tasks

    A [BackgroundTaskPtr] is shared by a queue entry, the worker pool and
    the completion callback.  The object it points to carries the
    cancellation flag. *)

Definition BackgroundTaskPtr := nat.

Record TaskObject := mkTaskObject { payload : LoadFileTask; cancelled : bool }.

Definition Store := list TaskObject.

(** [make_intrusive<LoadFileTask>(...)]: a fresh object, not cancelled. *)
Definition alloc (st : Store) (t : LoadFileTask) : Store * BackgroundTaskPtr :=
  (st ++ [mkTaskObject t false], length st).

(** [task->isCancelled()] *)
Definition isCancelled (st : Store) (p : BackgroundTaskPtr) : bool :=
  match nth_error st p with
  | Some o => cancelled o
  | None => false
  end.

(** [task->cancel()] *)
Fixpoint cancel (p : BackgroundTaskPtr) (st : Store) {struct st} : Store :=
  match st, p with
  | [], _ => []
  | o :: rest, O => mkTaskObject (payload o) true :: rest
  | o :: rest, S p' => o :: cancel p' rest
  end.

(* ------------------------------------------------------------------ *)
(** ** ProcessingTaskQueue *)

Module ProcessingTaskQueue.

Inductive Status := Pending | Processing.

Record Entry := mkEntry {
  pageInfo : PageInfo.t;
  task : BackgroundTaskPtr;
  status : Status
}.

(** Modelled from the spec: [ProcessingTaskQueue] (its source is not among
    the files at hand), "ordered collection of pending/in-flight tasks keyed
    by page identity". *)
Definition t := list Entry.

Definition pages (q : t) : list PageId.t := map (fun e => PageInfo.id (pageInfo e)) q.

Definition hasPage (q : t) (p : PageId.t) : bool :=
  existsb (fun e => PageId.eqb (PageInfo.id (pageInfo e)) p) q.

Definition isPending (e : Entry) : bool :=
  match status e with Pending => true | Processing => false end.

(** The tasks still waiting to be taken, in queue order. *)
Definition pending (q : t) : list BackgroundTaskPtr := map task (filter isPending q).

(** Modelled from the spec: "[addProcessingTask(page, chainedTask)] registers
    a pending entry for a page; fails (no-op) if a pending/in-flight entry
    for that page already exists". *)
Definition addProcessingTask (page : PageInfo.t) (tsk : BackgroundTaskPtr) (q : t) : t :=
  if hasPage q (PageInfo.id page) then q else q ++ [mkEntry page tsk Pending].

(** Modelled from the spec: "[takeForProcessing()] pops and returns one
    Pending entry, transitioning it to Processing; returns empty if none
    pending".  The queue is ordered: the first pending entry is taken. *)
Fixpoint takeForProcessing (q : t) : option BackgroundTaskPtr * t :=
  match q with
  | [] => (None, [])
  | e :: rest =>
      if isPending e then (Some (task e), mkEntry (pageInfo e) (task e) Processing :: rest)
      else let (r, rest') := takeForProcessing rest in (r, e :: rest')
  end.

(** Modelled from the spec: "[processingFinished(task)] transitions a
    Processing entry to removed regardless of success/cancellation". *)
Definition processingFinished (tsk : BackgroundTaskPtr) (q : t) : t :=
  filter (fun e => negb (Nat.eqb (task e) tsk && negb (isPending e))) q.

(** Modelled from the spec: "[cancelAndClear()] marks every entry's
    cancellation flag and empties the queue". *)
Definition cancelAndClear (st : Store) (q : t) : Store * t :=
  (fold_left (fun st e => cancel (task e) st) q st, []).

(** Modelled from the spec: "[allProcessed()] reports whether the queue is
    empty". *)
Definition allProcessed (q : t) : bool :=
  match q with [] => true | _ :: _ => false end.

End ProcessingTaskQueue.

(* ------------------------------------------------------------------ *)
(** ** WorkerThreadPool *)

Module WorkerThreadPool.

(** Modelled from the spec: [WorkerThreadPool] (its source is not among the
    files at hand), a pool of [numThreads] workers and the tasks handed to
    it that have not completed yet. *)
Record t := mk { numThreads : nat; executing : list BackgroundTaskPtr }.

(** Modelled from the spec: "[submitTask(task)] enqueues a task for
    execution on one of N fixed worker threads". *)
Definition submitTask (tsk : BackgroundTaskPtr) (p : t) : t :=
  mk (numThreads p) (executing p ++ [tsk]).

(** Modelled from the spec: "[hasSpareCapacity()] reports whether fewer than
    N tasks are currently executing". *)
Definition hasSpareCapacity (p : t) : bool :=
  Nat.ltb (length (executing p)) (numThreads p).

End WorkerThreadPool.

(* ------------------------------------------------------------------ *)
(** ** ThumbnailSequence *)

Module ThumbnailSequence.

Inductive SelectionAction := KEEP_SELECTION | RESET_SELECTION.

Definition SelectionAction_eqb (a b : SelectionAction) : bool :=
  match a, b with
  | KEEP_SELECTION, KEEP_SELECTION | RESET_SELECTION, RESET_SELECTION => true
  | _, _ => false
  end.

(** Modelled from the spec: [ThumbnailSequence] (its source is not among the
    files at hand): the pages in "page-sequence order" and the "current
    selection leader" (the null page when nothing is selected). *)
Record t := mk { items : list PageInfo.t; m_selectionLeader : PageInfo.t }.

Definition selectionLeader (ts : t) : PageInfo.t := m_selectionLeader ts.

Definition firstPage (ts : t) : PageInfo.t := hd PageInfo.null (items ts).

Definition lastPage (ts : t) : PageInfo.t := last (items ts) PageInfo.null.

Definition toPageSequence (ts : t) : list PageInfo.t := items ts.

(** The page that follows [reference_page] in [l], the page [first] when
    [reference_page] is the last page of [l]; the null page when [l] does
    not hold [reference_page]. *)
Fixpoint successor (first : PageInfo.t) (l : list PageInfo.t) (reference_page : PageId.t)
    : PageInfo.t :=
  match l with
  | [] => PageInfo.null
  | x :: rest =>
      if PageId.eqb (PageInfo.id x) reference_page then hd first rest
      else successor first rest reference_page
  end.

(** Modelled from the spec: [nextPage(reference_page)] of
    [ThumbnailSequence], which is not among the sources at hand.  The spec
    describes it through the loop of [startBatchProcessing], the one place
    of [MainWindow.cpp] that is given here and walks the sequence with it:
    "pages are enqueued in page-sequence order starting at the current
    selection leader and wrapping", "drains a queue of N pages exactly once
    each", "page set {A,B,C}, selection leader = B ... expected processing
    order B, C, A".  That loop stops at the first null page, so [nextPage]
    gives the page that follows in page-sequence order, the first page
    after the last one, and the null page once the round is complete, that
    is when the page that follows is the selection leader (and for a page
    the sequence does not hold). *)
Definition nextPage (ts : t) (reference_page : PageId.t) : PageInfo.t :=
  let next := successor (firstPage ts) (items ts) reference_page in
  if PageId.eqb (PageInfo.id next) (PageInfo.id (m_selectionLeader ts))
  then PageInfo.null else next.

Definition lookup (ts : t) (p : PageId.t) : option PageInfo.t :=
  find (fun x => PageId.eqb (PageInfo.id x) p) (items ts).

(** Modelled from the spec: [setSelection(page_id)] of [ThumbnailSequence]
    makes the page with that id the "selection leader" and returns [true];
    it returns [false], and changes nothing, when the sequence holds no such
    page ([resetThumbSequence] branches on the answer). *)
Definition setSelection (p : PageId.t) (ts : t) : bool * t :=
  match lookup ts p with
  | Some x => (true, mk (items ts) x)
  | None => (false, ts)
  end.

(** Modelled from the spec: [reset(pages, selection_action)] of
    [ThumbnailSequence] replaces the pages; the selection leader survives
    only under [KEEP_SELECTION] and only if its page is still there. *)
Definition reset (pages : list PageInfo.t) (selection_action : SelectionAction) (ts : t) : t :=
  match selection_action with
  | RESET_SELECTION => mk pages PageInfo.null
  | KEEP_SELECTION =>
      match find (fun x => PageId.eqb (PageInfo.id x) (PageInfo.id (m_selectionLeader ts))) pages with
      | Some x => mk pages x
      | None => mk pages PageInfo.null
      end
  end.

End ThumbnailSequence.

(* ------------------------------------------------------------------ *)
(** ** ProjectPages *)

Inductive PageView := PAGE_VIEW | IMAGE_VIEW.

Module ProjectPages.

(** Modelled from the spec: [ProjectPages] (its source is not among the
    files at hand), reduced to the two page sequences it can be asked for:
    one entry per image, or one entry per logical page. *)
Record t := mk { imageViewPages : list PageInfo.t; pageViewPages : list PageInfo.t }.

Definition numImages (p : t) : nat := length (imageViewPages p).

Definition toPageSequence (p : t) (view : PageView) : list PageInfo.t :=
  match view with
  | IMAGE_VIEW => imageViewPages p
  | PAGE_VIEW => pageViewPages p
  end.

End ProjectPages.

(* ------------------------------------------------------------------ *)
(** ** MainWindow *)

Module MainWindow.

Import ProcessingTaskQueue.

(** [FilterResult]: [filter()] is the stage the result originates from, null
    when the image file could not be loaded. *)
Record FilterResult := mkFilterResult { filter : option Stage }.

Inductive MainAreaAction := UPDATE_MAIN_AREA | CLEAR_MAIN_AREA.

Inductive QueueKind := InteractiveQueue | BatchQueue.

Inductive PropagatorKind := ContentBox | PageOrientation.

(** What the window does to its collaborators, in the order it does it. *)
Inductive Event :=
| ProcessingFinished (q : QueueKind) (tsk : BackgroundTaskPtr)
| Propagate (p : PropagatorKind)
| SetThumbnailFactory (chain : option fix_orientation.CacheDrivenTask)
| ThumbSequenceReset (selection_action : ThumbnailSequence.SelectionAction)
| SetSelection (p : PageId.t) (found : bool)
| SelectRow (idx : Z)
| UpdateUI (r : FilterResult)
| SubmitTask (tsk : BackgroundTaskPtr)
| OutputNotPossible
| Alert.

Record t := mk {
  m_store : Store;
  m_pages : ProjectPages.t;
  m_workerThreadPool : WorkerThreadPool.t;
  m_interactiveQueue : ProcessingTaskQueue.t;
  m_batchQueue : option ProcessingTaskQueue.t;
  m_thumbSequence : ThumbnailSequence.t;
  (** whether [m_thumbnailCache] is non-null *)
  m_thumbnailCache : bool;
  (** whether the two propagators exist *)
  m_contentBoxPropagator : bool;
  m_pageOrientationPropagator : bool;
  (** [m_selectedPage.get(view)] *)
  m_selectedPage : PageView -> PageId.t;
  m_curFilter : Z;
  m_ignoreSelectionChanges : Z;
  m_debug : bool;
  (** [m_outFileNameGen.outDir().isEmpty()] *)
  outDirIsEmpty : bool;
  trace : list Event
}.

Definition set_store (v : Store) (s : t) : t :=
  mk v (m_pages s) (m_workerThreadPool s) (m_interactiveQueue s) (m_batchQueue s)
     (m_thumbSequence s) (m_thumbnailCache s) (m_contentBoxPropagator s)
     (m_pageOrientationPropagator s) (m_selectedPage s) (m_curFilter s)
     (m_ignoreSelectionChanges s) (m_debug s) (outDirIsEmpty s) (trace s).

Definition set_workerThreadPool (v : WorkerThreadPool.t) (s : t) : t :=
  mk (m_store s) (m_pages s) v (m_interactiveQueue s) (m_batchQueue s)
     (m_thumbSequence s) (m_thumbnailCache s) (m_contentBoxPropagator s)
     (m_pageOrientationPropagator s) (m_selectedPage s) (m_curFilter s)
     (m_ignoreSelectionChanges s) (m_debug s) (outDirIsEmpty s) (trace s).

Definition set_interactiveQueue (v : ProcessingTaskQueue.t) (s : t) : t :=
  mk (m_store s) (m_pages s) (m_workerThreadPool s) v (m_batchQueue s)
     (m_thumbSequence s) (m_thumbnailCache s) (m_contentBoxPropagator s)
     (m_pageOrientationPropagator s) (m_selectedPage s) (m_curFilter s)
     (m_ignoreSelectionChanges s) (m_debug s) (outDirIsEmpty s) (trace s).

Definition set_batchQueue (v : option ProcessingTaskQueue.t) (s : t) : t :=
  mk (m_store s) (m_pages s) (m_workerThreadPool s) (m_interactiveQueue s) v
     (m_thumbSequence s) (m_thumbnailCache s) (m_contentBoxPropagator s)
     (m_pageOrientationPropagator s) (m_selectedPage s) (m_curFilter s)
     (m_ignoreSelectionChanges s) (m_debug s) (outDirIsEmpty s) (trace s).

Definition set_thumbSequence (v : ThumbnailSequence.t) (s : t) : t :=
  mk (m_store s) (m_pages s) (m_workerThreadPool s) (m_interactiveQueue s) (m_batchQueue s)
     v (m_thumbnailCache s) (m_contentBoxPropagator s)
     (m_pageOrientationPropagator s) (m_selectedPage s) (m_curFilter s)
     (m_ignoreSelectionChanges s) (m_debug s) (outDirIsEmpty s) (trace s).

Definition set_curFilter (v : Z) (s : t) : t :=
  mk (m_store s) (m_pages s) (m_workerThreadPool s) (m_interactiveQueue s) (m_batchQueue s)
     (m_thumbSequence s) (m_thumbnailCache s) (m_contentBoxPropagator s)
     (m_pageOrientationPropagator s) (m_selectedPage s) v
     (m_ignoreSelectionChanges s) (m_debug s) (outDirIsEmpty s) (trace s).

Definition set_ignoreSelectionChanges (v : Z) (s : t) : t :=
  mk (m_store s) (m_pages s) (m_workerThreadPool s) (m_interactiveQueue s) (m_batchQueue s)
     (m_thumbSequence s) (m_thumbnailCache s) (m_contentBoxPropagator s)
     (m_pageOrientationPropagator s) (m_selectedPage s) (m_curFilter s)
     v (m_debug s) (outDirIsEmpty s) (trace s).

Definition emit (e : Event) (s : t) : t :=
  mk (m_store s) (m_pages s) (m_workerThreadPool s) (m_interactiveQueue s) (m_batchQueue s)
     (m_thumbSequence s) (m_thumbnailCache s) (m_contentBoxPropagator s)
     (m_pageOrientationPropagator s) (m_selectedPage s) (m_curFilter s)
     (m_ignoreSelectionChanges s) (m_debug s) (outDirIsEmpty s) (trace s ++ [e]).

(** What the window needs from code that is not among the files at hand:
    the view each filter works in, the page-layout filter's readiness
    check, the queue's notion of the page tied to the UI focus, and the
    default arguments declared in [MainWindow.h]. *)
Record Collaborators := mkCollaborators {
  getView : Z -> PageView;
  checkReadyForOutput : ProjectPages.t -> PageId.t -> bool;
  selectedPage : ProcessingTaskQueue.t -> PageInfo.t;
  default_selection_action : ThumbnailSequence.SelectionAction;
  default_main_area : MainAreaAction
}.

Notation "x <- c ;; k" := (match c with Some x => k | None => None end)
  (at level 61, c at next level, right associativity).

Section Window.

Variable env : Collaborators.

Definition isBatchProcessingInProgress (s : t) : bool :=
  match m_batchQueue s with Some _ => true | None => false end.

Definition isProjectLoaded (s : t) : bool := negb (outDirIsEmpty s).

Definition isBelowSelectContent (filter_idx : Z) : bool :=
  filter_idx >? selectContentFilterIdx.

Definition isBelowFixOrientation (filter_idx : Z) : bool :=
  filter_idx >? fixOrientationFilterIdx.

Definition isOutputFilter (filter_idx : Z) : bool :=
  filter_idx =? outputFilterIdx.

(** [MainWindow::getCurrentView]:
    [m_stages->filterAt(m_curFilter)->getView()]; there is no filter to ask
    when [m_curFilter] is not the index of one. *)
Definition getCurrentView (s : t) : option PageView :=
  _ <- filterAt (m_curFilter s) ;;
  Some (getView env (m_curFilter s)).

(** [m_interactiveQueue->cancelAndClear()] *)
Definition interactive_cancelAndClear (s : t) : t :=
  let (st, q) := cancelAndClear (m_store s) (m_interactiveQueue s) in
  set_interactiveQueue q (set_store st s).

(** [m_workerThreadPool->submitTask(task)] *)
Definition submitTask (tsk : BackgroundTaskPtr) (s : t) : t :=
  emit (SubmitTask tsk)
    (set_workerThreadPool (WorkerThreadPool.submitTask tsk (m_workerThreadPool s)) s).

(** [m_thumbSequence->setSelection(page_id)].  The sequence announces a
    new selection leader with the signal [newSelectionLeader], which the
    constructor connects to [currentPageChanged]; [ThumbnailSequence.cpp] is
    not at hand, and that signal is not followed here.  What is missing is
    the first statement of [currentPageChanged], which stores the selected
    page in [m_selectedPage]: in this model [m_selectedPage] keeps the value
    it has when a handler starts. *)
Definition setSelection (p : PageId.t) (s : t) : bool * t :=
  let (found, ts) := ThumbnailSequence.setSelection p (m_thumbSequence s) in
  (found, emit (SetSelection p found) (set_thumbSequence ts s)).

(** The selection chain at the end of [resetThumbSequence]:
    [if (setSelection(page)) ... else if (setSelection(LEFT_PAGE)) ... else
     setSelection(firstPage().id())]. *)
Definition selectRemembered (page : PageId.t) (s : t) : t :=
  let (ok, s) := setSelection page s in
  if ok then s else
  let (ok, s) := setSelection (PageId.mk (PageId.imageId page) PageId.LEFT_PAGE) s in
  if ok then s else
  let (ok, s) := setSelection (PageId.mk (PageId.imageId page) PageId.RIGHT_PAGE) s in
  if ok then s else
  let (ok, s) := setSelection (PageId.mk (PageId.imageId page) PageId.SINGLE_PAGE) s in
  if ok then s else
  (* Last resort. *)
  snd (setSelection (PageInfo.id (ThumbnailSequence.firstPage (m_thumbSequence s))) s).

(** The first half of [resetThumbSequence]: the new thumbnail factory and
    the reset of the sequence. *)
Definition resetSequence (selection_action : ThumbnailSequence.SelectionAction)
    (s : t) : option t :=
  s <- (if m_thumbnailCache s then
          task <- snd (createCompositeCacheDrivenTask (m_curFilter s)) ;;
          Some (emit (SetThumbnailFactory (Some task)) s)
        else Some s) ;;
  view <- getCurrentView s ;;
  let s :=
    emit (ThumbSequenceReset selection_action)
      (set_thumbSequence
         (ThumbnailSequence.reset (ProjectPages.toPageSequence (m_pages s) view)
            selection_action (m_thumbSequence s)) s) in
  if negb (m_thumbnailCache s) then
    (* Empty project. *)
    (* assert(m_pages->numImages() == 0); *)
    if Nat.eqb (ProjectPages.numImages (m_pages s)) 0
    then Some (emit (SetThumbnailFactory None) s) else None
  else Some s.

(** [MainWindow::resetThumbSequence] *)
Definition resetThumbSequence (selection_action : ThumbnailSequence.SelectionAction)
    (s : t) : option t :=
  s <- resetSequence selection_action s ;;
  if negb (ThumbnailSequence.SelectionAction_eqb selection_action ThumbnailSequence.KEEP_SELECTION)
  then
    view <- getCurrentView s ;;
    Some (selectRemembered (m_selectedPage s view) s)
  else Some s.

(** [MainWindow::loadPageInteractive] *)
Definition loadPageInteractive (page : PageInfo.t) (s : t) : option t :=
  (* assert(!isBatchProcessingInProgress()); *)
  if isBatchProcessingInProgress s then None else
  let s := interactive_cancelAndClear s in
  if isOutputFilter (m_curFilter s)
     && negb (checkReadyForOutput env (m_pages s) (PageInfo.id page))
  then Some (emit OutputNotPossible s)
  else
    s <- (if negb (isBatchProcessingInProgress s) then
            (* m_stages->filterAt(m_curFilter)->preUpdateUI(this, page); *)
            _ <- filterAt (m_curFilter s) ;; Some s
          else Some s) ;;
    (* assert(m_thumbnailCache); *)
    if negb (m_thumbnailCache s) then None else
    let s := interactive_cancelAndClear s in
    composite <- snd (createCompositeTask page (m_curFilter s) false (m_debug s)) ;;
    let (st, tsk) := alloc (m_store s) composite in
    let s := set_store st s in
    let s := set_interactiveQueue (addProcessingTask page tsk (m_interactiveQueue s)) s in
    let (taken, q) := takeForProcessing (m_interactiveQueue s) in
    let s := set_interactiveQueue q s in
    tsk <- taken ;;
    Some (submitTask tsk s).

(** [MainWindow::updateMainArea] *)
Definition updateMainArea (s : t) : option t :=
  if Nat.eqb (ProjectPages.numImages (m_pages s)) 0 then Some s
  else if isBatchProcessingInProgress s then Some s
  else
    let page := ThumbnailSequence.selectionLeader (m_thumbSequence s) in
    if PageInfo.isNull page then Some s
    else loadPageInteractive page s.

(** [MainWindow::goToPage] *)
Definition goToPage (page_id : PageId.t) (s : t) : option t :=
  updateMainArea (snd (setSelection page_id s)).

(** [MainWindow::goFirstPage] *)
Definition goFirstPage (s : t) : option t :=
  if isBatchProcessingInProgress s || negb (isProjectLoaded s) then Some s else
  let first_page := ThumbnailSequence.firstPage (m_thumbSequence s) in
  if negb (PageInfo.isNull first_page) then goToPage (PageInfo.id first_page) s
  else Some s.

(** [MainWindow::filterSelectionChanged]; [selected] lists the top rows of
    the ranges of the [QItemSelection]. *)
Definition filterSelectionChanged (selected : list Z) (s : t) : option t :=
  if negb (m_ignoreSelectionChanges s =? 0) then Some s else
  match selected with
  | [] => Some s
  | front_top :: _ =>
      let s := interactive_cancelAndClear s in
      let s :=
        match m_batchQueue s with
        | Some bq =>
            (* Should not happen, but just in case. *)
            let (st, q) := cancelAndClear (m_store s) bq in
            set_batchQueue (Some q) (set_store st s)
        | None => s
        end in
      let was_below_fix_orientation := isBelowFixOrientation (m_curFilter s) in
      let was_below_select_content := isBelowSelectContent (m_curFilter s) in
      let s := set_curFilter front_top s in
      let now_below_fix_orientation := isBelowFixOrientation (m_curFilter s) in
      let now_below_select_content := isBelowSelectContent (m_curFilter s) in
      (* m_stages->filterAt(m_curFilter)->selected(); updateSortOptions(); *)
      _ <- filterAt (m_curFilter s) ;;
      let s :=
        if negb was_below_select_content && now_below_select_content then
          if m_contentBoxPropagator s then emit (Propagate ContentBox) s else s
        else s in
      let s :=
        if negb was_below_fix_orientation && now_below_fix_orientation then
          if m_pageOrientationPropagator s then emit (Propagate PageOrientation) s else s
        else s in
      s <- resetThumbSequence ThumbnailSequence.KEEP_SELECTION s ;;
      updateMainArea s
  end.

(** [MainWindow::stopBatchProcessing] *)
Definition stopBatchProcessing (main_area : MainAreaAction) (s : t) : option t :=
  match m_batchQueue s with
  | None => Some s
  | Some bq =>
      let page := selectedPage env bq in
      let s := if negb (PageInfo.isNull page)
               then snd (setSelection (PageInfo.id page) s) else s in
      let (st, _) := cancelAndClear (m_store s) bq in
      let s := set_batchQueue None (set_store st s) in
      s <- (match main_area with
            | UPDATE_MAIN_AREA => updateMainArea s
            | CLEAR_MAIN_AREA => Some s
            end) ;;
      resetThumbSequence (default_selection_action env) s
  end.

(** The loop of [startBatchProcessing] that fills the batch queue:
    [for (; !page.isNull(); page = m_thumbSequence->nextPage(page.id()))],
    over whatever [nextPage] computes. *)
Fixpoint enqueueBatchWith (nextPage : PageId.t -> PageInfo.t) (fuel : nat)
    (cur_filter : Z) (debug : bool) (page : PageInfo.t) (st : Store)
    (q : ProcessingTaskQueue.t) : option (Store * ProcessingTaskQueue.t) :=
  match fuel with
  | O => None
  | S fuel' =>
      if PageInfo.isNull page then Some (st, q) else
      composite <- snd (createCompositeTask page cur_filter true debug) ;;
      let (st', tsk) := alloc st composite in
      enqueueBatchWith nextPage fuel' cur_filter debug
        (nextPage (PageInfo.id page)) st' (addProcessingTask page tsk q)
  end.

Definition enqueueBatch (fuel : nat) (ts : ThumbnailSequence.t) :=
  enqueueBatchWith (ThumbnailSequence.nextPage ts) fuel.

(** The loop of [startBatchProcessing] that feeds the pool:
    [do { submitTask(task); if (!hasSpareCapacity()) break; }
     while ((task = m_batchQueue->takeForProcessing()));] *)
Fixpoint submitLoop (fuel : nat) (tsk : BackgroundTaskPtr)
    (q : ProcessingTaskQueue.t) (s : t) : option (ProcessingTaskQueue.t * t) :=
  match fuel with
  | O => None
  | S fuel' =>
      let s := submitTask tsk s in
      if negb (WorkerThreadPool.hasSpareCapacity (m_workerThreadPool s)) then Some (q, s)
      else
        match takeForProcessing q with
        | (Some tsk', q') => submitLoop fuel' tsk' q' s
        | (None, q') => Some (q', s)
        end
  end.

(** The loop of [filterResult] that refills the pool:
    [do { task = takeForProcessing(); if (!task) break; submitTask(task); }
     while (hasSpareCapacity());] *)
Fixpoint refillLoop (fuel : nat) (q : ProcessingTaskQueue.t) (s : t)
    : option (ProcessingTaskQueue.t * t) :=
  match fuel with
  | O => None
  | S fuel' =>
      match takeForProcessing q with
      | (None, q') => Some (q', s)
      | (Some tsk, q') =>
          let s := submitTask tsk s in
          if WorkerThreadPool.hasSpareCapacity (m_workerThreadPool s)
          then refillLoop fuel' q' s
          else Some (q', s)
      end
  end.

(** [MainWindow::startBatchProcessing] *)
Definition startBatchProcessing (fuel : nat) (s : t) : option t :=
  if isBatchProcessingInProgress s || negb (isProjectLoaded s) then Some s else
  let s := interactive_cancelAndClear s in
  filled <- enqueueBatch fuel (m_thumbSequence s) (m_curFilter s) (m_debug s)
              (ThumbnailSequence.selectionLeader (m_thumbSequence s)) (m_store s) [] ;;
  let s := set_batchQueue (Some (snd filled)) (set_store (fst filled) s) in
  let (taken, q) := takeForProcessing (snd filled) in
  let s := set_batchQueue (Some q) s in
  s <- (match taken with
        | Some tsk =>
            looped <- submitLoop fuel tsk q s ;;
            Some (set_batchQueue (Some (fst looped)) (snd looped))
        | None => stopBatchProcessing (default_main_area env) s
        end) ;;
  (* page = m_batchQueue->selectedPage(); *)
  bq <- m_batchQueue s ;;
  let page := selectedPage env bq in
  let s := if negb (PageInfo.isNull page)
           then snd (setSelection (PageInfo.id page) s) else s in
  updateMainArea s.

(** [MainWindow::filterResult] *)
Definition filterResult (fuel : nat) (tsk : BackgroundTaskPtr) (result : FilterResult)
    (s : t) : option t :=
  (* Cancelled or not, we must mark it as finished. *)
  let s := emit (ProcessingFinished InteractiveQueue tsk)
             (set_interactiveQueue (processingFinished tsk (m_interactiveQueue s)) s) in
  let s :=
    match m_batchQueue s with
    | Some bq =>
        emit (ProcessingFinished BatchQueue tsk)
          (set_batchQueue (Some (processingFinished tsk bq)) s)
    | None => s
    end in
  if isCancelled (m_store s) tsk then Some s else
  s <- (if negb (isBatchProcessingInProgress s) then
          match filter result with
          | None => Some s  (* Error loading file. *)
          | Some f =>
              if match filterAt (m_curFilter s) with
                 | Some g => negb (Stage_eqb f g)
                 | None => true
                 end
              then
                (* Error from one of the previous filters. *)
                let idx := findFilter f in
                (* assert(idx >= 0); *)
                if idx <? 0 then None else
                let s := set_curFilter idx s in
                let s := set_ignoreSelectionChanges (m_ignoreSelectionChanges s + 1) s in
                let s := emit (SelectRow idx) s in
                s <- filterSelectionChanged [idx] s ;;
                Some (set_ignoreSelectionChanges (m_ignoreSelectionChanges s - 1) s)
              else Some s
          end
        else Some s) ;;
  let s := emit (UpdateUI result) s in
  match m_batchQueue s with
  | None => Some s
  | Some bq =>
      if allProcessed bq then
        s <- stopBatchProcessing (default_main_area env) s ;;
        let s := emit Alert s in
        view <- getCurrentView s ;;
        if PageId.eqb (m_selectedPage s view)
             (PageInfo.id (ThumbnailSequence.lastPage (m_thumbSequence s)))
        then goFirstPage s
        else Some s
      else
        looped <- refillLoop fuel bq s ;;
        let s := set_batchQueue (Some (fst looped)) (snd looped) in
        let page := selectedPage env (fst looped) in
        Some (if negb (PageInfo.isNull page)
              then snd (setSelection (PageInfo.id page) s) else s)
  end.

End Window.

End MainWindow.

(* ------------------------------------------------------------------ *)
(** ** Reference descriptions used by the properties *)

(** The candidates [resetThumbSequence] tries for a remembered page, in
    the order it tries them. *)
Definition fallback_candidates (page : PageId.t) : list PageId.t :=
  [ page;
    PageId.mk (PageId.imageId page) PageId.LEFT_PAGE;
    PageId.mk (PageId.imageId page) PageId.RIGHT_PAGE;
    PageId.mk (PageId.imageId page) PageId.SINGLE_PAGE ].

(** Trying candidates one after the other on a page sequence, stopping at
    the first one the sequence holds: the attempts made, and the page
    selected if any. *)
Fixpoint try_candidates (pages : list PageInfo.t) (candidates : list PageId.t)
    : list MainWindow.Event * option PageInfo.t :=
  match candidates with
  | [] => ([], None)
  | c :: rest =>
      match find (fun x => PageId.eqb (PageInfo.id x) c) pages with
      | Some x => ([MainWindow.SetSelection c true], Some x)
      | None =>
          let (attempts, r) := try_candidates pages rest in
          (MainWindow.SetSelection c false :: attempts, r)
      end
  end.

(** What a queue holds, apart from the status of its entries. *)
Definition contents (q : ProcessingTaskQueue.t) : list (PageInfo.t * BackgroundTaskPtr) :=
  map (fun e => (ProcessingTaskQueue.pageInfo e, ProcessingTaskQueue.task e)) q.

(** The entries [startBatchProcessing] makes for a run of pages, the first
    one with the task at address [first]. *)
Fixpoint batchEntries (first : BackgroundTaskPtr) (l : list PageInfo.t)
    : ProcessingTaskQueue.t :=
  match l with
  | [] => []
  | p :: rest =>
      ProcessingTaskQueue.mkEntry p first ProcessingTaskQueue.Pending
      :: batchEntries (S first) rest
  end.

(** No two entries of a queue are for the same page. *)
Definition single_flight (q : ProcessingTaskQueue.t) : Prop :=
  NoDup (ProcessingTaskQueue.pages q).

(** Handing a list of tasks to the pool, one after the other. *)
Definition submitAll (tasks : list BackgroundTaskPtr) (s : MainWindow.t) : MainWindow.t :=
  fold_left (fun s tsk => MainWindow.submitTask tsk s) tasks s.

(** The window keeps both of its queues single-flight. *)
Definition queues_single_flight (s : MainWindow.t) : Prop :=
  single_flight (MainWindow.m_interactiveQueue s) /\
  match MainWindow.m_batchQueue s with
  | Some bq => single_flight bq
  | None => True
  end.

(** The events of page loading, thumbnail bookkeeping and task submission,
    as opposed to those of the completion callback and of the propagators. *)
Definition routine (e : MainWindow.Event) : bool :=
  match e with
  | MainWindow.SetThumbnailFactory _ | MainWindow.ThumbSequenceReset _
  | MainWindow.SetSelection _ _ | MainWindow.SubmitTask _
  | MainWindow.OutputNotPossible => true
  | _ => false
  end.

Definition is_ProcessingFinished (e : MainWindow.Event) : bool :=
  match e with MainWindow.ProcessingFinished _ _ => true | _ => false end.

(** The events of a batch that goes on or ends: the routine ones, and the
    alert at its end. *)
Definition batch_event (e : MainWindow.Event) : bool :=
  routine e || match e with MainWindow.Alert => true | _ => false end.

Definition is_SelectRow (e : MainWindow.Event) : bool :=
  match e with MainWindow.SelectRow _ => true | _ => false end.

Definition not_SelectRow (e : MainWindow.Event) : bool := negb (is_SelectRow e).

(** [s'] is [s] after more events, all of them of class [P]. *)
Definition emits (P : MainWindow.Event -> bool) (s s' : MainWindow.t) : Prop :=
  exists l, MainWindow.trace s' = MainWindow.trace s ++ l /\ forallb P l = true.

(** A step that emits routine events only and keeps the queues
    single-flight. *)
Definition quiet_step (s s' : MainWindow.t) : Prop :=
  emits routine s s' /\ (queues_single_flight s -> queues_single_flight s').

Definition not_ProcessingFinished (e : MainWindow.Event) : bool :=
  negb (is_ProcessingFinished e).

(** A step that never reports a task as finished and keeps the queues
    single-flight. *)
Definition delivery_step (s s' : MainWindow.t) : Prop :=
  emits not_ProcessingFinished s s' /\ (queues_single_flight s -> queues_single_flight s').

(** The window right after the queue bookkeeping that opens
    [filterResult]: the task is reported as finished to the interactive
    queue, and to the batch queue when there is one. *)
Definition finished (tsk : BackgroundTaskPtr) (s : MainWindow.t) : MainWindow.t :=
  MainWindow.mk
    (MainWindow.m_store s) (MainWindow.m_pages s) (MainWindow.m_workerThreadPool s)
    (ProcessingTaskQueue.processingFinished tsk (MainWindow.m_interactiveQueue s))
    (option_map (ProcessingTaskQueue.processingFinished tsk) (MainWindow.m_batchQueue s))
    (MainWindow.m_thumbSequence s) (MainWindow.m_thumbnailCache s)
    (MainWindow.m_contentBoxPropagator s) (MainWindow.m_pageOrientationPropagator s)
    (MainWindow.m_selectedPage s) (MainWindow.m_curFilter s)
    (MainWindow.m_ignoreSelectionChanges s) (MainWindow.m_debug s)
    (MainWindow.outDirIsEmpty s)
    (MainWindow.trace s
       ++ MainWindow.ProcessingFinished MainWindow.InteractiveQueue tsk
          :: match MainWindow.m_batchQueue s with
             | Some _ => [MainWindow.ProcessingFinished MainWindow.BatchQueue tsk]
             | None => []
             end).

Definition is_SetSelection (e : MainWindow.Event) : bool :=
  match e with MainWindow.SetSelection _ _ => true | _ => false end.

Definition is_Propagate (e : MainWindow.Event) : bool :=
  match e with MainWindow.Propagate _ => true | _ => false end.

(** The reading of "a delivered result of another stage redirects the
    focus to that stage": whenever the completion callback delivers (the
    task is not cancelled) a result whose stage is not the selected one, the
    selected stage becomes the stage of the result and its row is
    selected. *)
Definition redirects_focus (env : MainWindow.Collaborators) (fuel : nat)
    (tsk : BackgroundTaskPtr) (result : MainWindow.FilterResult) (s : MainWindow.t) : Prop :=
  forall f s',
    isCancelled (MainWindow.m_store s) tsk = false ->
    MainWindow.filter result = Some f ->
    filterAt (MainWindow.m_curFilter s) <> Some f ->
    MainWindow.filterResult env fuel tsk result s = Some s' ->
    MainWindow.m_curFilter s' = findFilter f /\
    exists before after,
      MainWindow.trace s'
      = MainWindow.trace s ++ before ++ MainWindow.SelectRow (findFilter f) :: after.

(** The window can reset its thumbnail sequence and load a page without
    tripping a null pointer or an assertion: the index of the current stage
    is one of the stage sequence, and there is a thumbnail cache unless the
    project has no image. *)
Definition well_staged (s : MainWindow.t) : Prop :=
  fixOrientationFilterIdx <= MainWindow.m_curFilter s <= outputFilterIdx /\
  (MainWindow.m_thumbnailCache s = true \/
   ProjectPages.numImages (MainWindow.m_pages s) = 0%nat).

(** What the completion callback needs to run to its end for a task that
    is not cancelled.  During a batch: fuel for the loop that refills the
    pool, one round for each pending entry and one more, or, when the task
    was the last of the batch, a window that can reset its thumbnail
    sequence and load a page.  Outside a batch: nothing, unless the guard
    [m_ignoreSelectionChanges] stands at -1, so that the handler of the
    stage list is not suppressed when the callback selects a row; then a
    thumbnail cache, or a project without image. *)
Definition can_deliver (fuel : nat) (tsk : BackgroundTaskPtr) (s : MainWindow.t) : Prop :=
  match MainWindow.m_batchQueue s with
  | Some bq =>
      match ProcessingTaskQueue.processingFinished tsk bq with
      | [] => well_staged s
      | q => (length (ProcessingTaskQueue.pending q) < fuel)%nat
      end
  | None =>
      MainWindow.m_ignoreSelectionChanges s = -1 ->
      MainWindow.m_thumbnailCache s = true \/
      ProjectPages.numImages (MainWindow.m_pages s) = 0%nat
  end.

(** The window's page sequence is well formed: no null page, no page
    twice. *)
Definition well_formed_sequence (ts : ThumbnailSequence.t) : Prop :=
  NoDup (map PageInfo.id (ThumbnailSequence.items ts)) /\
  Forall (fun p => PageInfo.isNull p = false) (ThumbnailSequence.items ts).

(** [walks nextPage page run]: the loop
    [for (; !page.isNull(); page = nextPage(page.id()))] started on [page]
    visits the pages of [run], in that order, and then meets the null
    page. *)
Fixpoint walks (nextPage : PageId.t -> PageInfo.t) (page : PageInfo.t)
    (run : list PageInfo.t) : Prop :=
  match run with
  | [] => PageInfo.isNull page = true
  | x :: rest =>
      page = x /\ PageInfo.isNull x = false /\ walks nextPage (nextPage (PageInfo.id x)) rest
  end.

(** The batch wraps around: started with the selection leader [L] in a
    sequence [before ++ L :: after], [startBatchProcessing] returns with a
    batch queue that holds [L], the pages after it, and then the pages
    before it, that is every page of the sequence once; the first tasks
    of the queue are handed to the pool, in the order of the queue, and the
    others wait in the queue. *)
Definition batch_wraps_around (env : MainWindow.Collaborators) (fuel : nat)
    (s : MainWindow.t) : Prop :=
  forall before L after,
    ThumbnailSequence.items (MainWindow.m_thumbSequence s) = before ++ L :: after ->
    ThumbnailSequence.selectionLeader (MainWindow.m_thumbSequence s) = L ->
    exists s' bq submitted,
      MainWindow.startBatchProcessing env fuel s = Some s' /\
      MainWindow.m_batchQueue s' = Some bq /\
      map ProcessingTaskQueue.pageInfo bq = L :: after ++ before /\
      Permutation (map ProcessingTaskQueue.pageInfo bq)
        (ThumbnailSequence.items (MainWindow.m_thumbSequence s)) /\
      NoDup (map PageInfo.id (map ProcessingTaskQueue.pageInfo bq)) /\
      map ProcessingTaskQueue.task bq = submitted ++ ProcessingTaskQueue.pending bq /\
      submitted <> [] /\
      WorkerThreadPool.executing (MainWindow.m_workerThreadPool s')
      = WorkerThreadPool.executing (MainWindow.m_workerThreadPool s) ++ submitted.

(** The handlers through which the window's queues change. *)
Inductive step (env : MainWindow.Collaborators) (s : MainWindow.t) : MainWindow.t -> Prop :=
| step_filterSelectionChanged selected s' :
    MainWindow.filterSelectionChanged env selected s = Some s' -> step env s s'
| step_startBatchProcessing fuel s' :
    MainWindow.startBatchProcessing env fuel s = Some s' -> step env s s'
| step_stopBatchProcessing main_area s' :
    MainWindow.stopBatchProcessing env main_area s = Some s' -> step env s s'
| step_filterResult fuel tsk result s' :
    MainWindow.filterResult env fuel tsk result s = Some s' -> step env s s'
| step_updateMainArea s' :
    MainWindow.updateMainArea env s = Some s' -> step env s s'
| step_goToPage page_id s' :
    MainWindow.goToPage env page_id s = Some s' -> step env s s'
| step_goFirstPage s' :
    MainWindow.goFirstPage env s = Some s' -> step env s s'.

(** The windows that can arise: the constructor leaves an empty interactive
    queue and no batch queue; the handlers do the rest. *)
Inductive reachable (env : MainWindow.Collaborators) : MainWindow.t -> Prop :=
| reachable_initial s :
    MainWindow.m_interactiveQueue s = [] ->
    MainWindow.m_batchQueue s = None ->
    reachable env s
| reachable_step s s' :
    reachable env s -> step env s s' -> reachable env s'.

(** The reading of "submitting a second task for a page before the first
    completes is a no-op the second time": asking twice in a row for the
    same page leaves, the second time, the interactive queue, the pool and
    the cancellation flags as they were. *)
Definition second_request_is_noop (env : MainWindow.Collaborators) (s : MainWindow.t) : Prop :=
  forall page s1 s2,
    MainWindow.loadPageInteractive env page s = Some s1 ->
    MainWindow.loadPageInteractive env page s1 = Some s2 ->
    MainWindow.m_interactiveQueue s2 = MainWindow.m_interactiveQueue s1 /\
    MainWindow.m_workerThreadPool s2 = MainWindow.m_workerThreadPool s1 /\
    forall tsk, isCancelled (MainWindow.m_store s2) tsk = isCancelled (MainWindow.m_store s1) tsk.

(** C1 as it is stated: every reachable window keeps its queues
    single-flight, and a second request is a no-op. *)
Definition single_flight_by_noop (env : MainWindow.Collaborators) : Prop :=
  forall s, reachable env s -> queues_single_flight s /\ second_request_is_noop env s.

(** What the code does for a request: it cancels whatever the interactive
    queue held, empties the queue, and, unless the output stage is not ready,
    registers the new task, takes it and hands it to the pool. *)
Definition request_replaces (env : MainWindow.Collaborators) (s : MainWindow.t) : Prop :=
  forall page s',
    MainWindow.loadPageInteractive env page s = Some s' ->
    (forall e, In e (MainWindow.m_interactiveQueue s) ->
       (ProcessingTaskQueue.task e < length (MainWindow.m_store s))%nat ->
       isCancelled (MainWindow.m_store s') (ProcessingTaskQueue.task e) = true) /\
    (MainWindow.m_interactiveQueue s' = [] /\
     MainWindow.m_workerThreadPool s' = MainWindow.m_workerThreadPool s
     \/
     MainWindow.m_interactiveQueue s'
     = [ProcessingTaskQueue.mkEntry page (length (MainWindow.m_store s))
          ProcessingTaskQueue.Processing] /\
     isCancelled (MainWindow.m_store s') (length (MainWindow.m_store s)) = false /\
     WorkerThreadPool.executing (MainWindow.m_workerThreadPool s')
     = WorkerThreadPool.executing (MainWindow.m_workerThreadPool s)
         ++ [length (MainWindow.m_store s)]).

(** "Submitting twice before completion is a no-op the second time", read
    on the queue itself. *)
Definition second_add_is_noop : Prop :=
  forall q page t1 t2,
    ProcessingTaskQueue.addProcessingTask page t2
      (ProcessingTaskQueue.addProcessingTask page t1 q)
    = ProcessingTaskQueue.addProcessingTask page t1 q.

(** A batch run starts with an empty interactive queue. *)
Definition batch_starts_cleared (env : MainWindow.Collaborators) (s : MainWindow.t) : Prop :=
  forall fuel s',
    MainWindow.m_batchQueue s = None ->
    MainWindow.isProjectLoaded s = true ->
    MainWindow.startBatchProcessing env fuel s = Some s' ->
    MainWindow.m_interactiveQueue s' = [] /\
    forall e, In e (MainWindow.m_interactiveQueue s) ->
      (ProcessingTaskQueue.task e < length (MainWindow.m_store s))%nat ->
      isCancelled (MainWindow.m_store s') (ProcessingTaskQueue.task e) = true.

(* ------------------------------------------------------------------ *)
(** ** Concrete data for the examples *)

Module Example.

Import MainWindow.

Definition single (n : nat) : PageInfo.t :=
  PageInfo.mk (PageId.mk (Some n) PageId.SINGLE_PAGE).
Definition left (n : nat) : PageInfo.t :=
  PageInfo.mk (PageId.mk (Some n) PageId.LEFT_PAGE).
Definition right (n : nat) : PageInfo.t :=
  PageInfo.mk (PageId.mk (Some n) PageId.RIGHT_PAGE).

Definition A := single 1.
Definition B := single 2.
Definition C := single 3.

(** Fix-orientation works on whole images, the other stages on pages; the
    output is always ready; the queue ties the focus to its first entry. *)
Definition env : Collaborators :=
  mkCollaborators
    (fun idx => if idx =? fixOrientationFilterIdx then IMAGE_VIEW else PAGE_VIEW)
    (fun _ _ => true)
    (fun q => match q with [] => PageInfo.null | e :: _ => ProcessingTaskQueue.pageInfo e end)
    ThumbnailSequence.RESET_SELECTION
    UPDATE_MAIN_AREA.

(** A loaded project of three unsplit pages, the second one selected, the
    deskew stage active, nothing in flight, two worker threads. *)
Definition window : MainWindow.t :=
  MainWindow.mk
    [] (ProjectPages.mk [A; B; C] [A; B; C])
    (WorkerThreadPool.mk 2 []) [] None
    (ThumbnailSequence.mk [A; B; C] B)
    true true true
    (fun _ => PageInfo.id B)
    deskewFilterIdx 0 false false [].

(** The same project after the second image was split in two: the
    remembered page [B] is no longer a page of the page view. *)
Definition split_window : MainWindow.t :=
  MainWindow.mk
    [] (ProjectPages.mk [A; B; C] [A; left 2; right 2; C])
    (WorkerThreadPool.mk 2 []) [] None
    (ThumbnailSequence.mk [A; B; C] B)
    true true true
    (fun _ => PageInfo.id B)
    deskewFilterIdx 0 false false [].

(** [window] after the selected page has been sent for processing. *)
Definition interactive_window : MainWindow.t :=
  match updateMainArea env window with
  | Some s => s
  | None => window
  end.

(** [window] after batch processing has been started. *)
Definition batch_window : MainWindow.t :=
  match startBatchProcessing env 4 window with
  | Some s => s
  | None => window
  end.

(** A result reported by the page-split stage. *)
Definition page_split_result : FilterResult := mkFilterResult (Some PageSplit).

End Example.

(* ------------------------------------------------------------------ *)
(** ** More of the builders' results *)

(** The page a stage task was created for. *)
Definition page_of (t : StageTask) : PageId.t :=
  match t with
  | OutputT t => output.page t
  | PageLayoutT t => page_layout.page t
  | SelectContentT t => select_content.page t
  | DeskewT t => deskew.page t
  | PageSplitT t => PageInfo.id (page_split.page t)
  | FixOrientationT t => fix_orientation.page t
  end.

(** The stages of the chain a composite task runs, when there is one. *)
Definition composite_chain (c : option LoadFileTask) : option (list Stage) :=
  option_map (fun c => Chain.of_fix_orientation (lf_nextTask c)) c.

Definition cache_driven_chain (c : option fix_orientation.CacheDrivenTask)
    : option (list Stage) :=
  option_map Chain.cd_of_fix_orientation c.

(* ------------------------------------------------------------------ *)
(** ** Erasing output files, choosing a selection after a removal *)

Definition mem (p : PageId.t) (pages : list PageId.t) : bool :=
  existsb (PageId.eqb p) pages.

(** The [switch] of [MainWindow::eraseOutputFiles]: the sub-page variants
    whose output is erased along with a page's. *)
Definition erase_variations (sub : PageId.SubPage) : list PageId.SubPage :=
  match sub with
  | PageId.SINGLE_PAGE => [PageId.SINGLE_PAGE; PageId.LEFT_PAGE; PageId.RIGHT_PAGE]
  | PageId.LEFT_PAGE => [PageId.SINGLE_PAGE; PageId.LEFT_PAGE]
  | PageId.RIGHT_PAGE => [PageId.SINGLE_PAGE; PageId.RIGHT_PAGE]
  end.

(** [MainWindow::eraseOutputFiles]: the page ids whose output file path is
    handed to [QFile::remove], in the order of the calls.  The set of pages
    is given as the list of its elements. *)
Definition eraseOutputFiles (pages : list PageId.t) : list PageId.t :=
  flat_map
    (fun page_id =>
       map (fun subpage => PageId.mk (PageId.imageId page_id) subpage)
         (erase_variations (PageId.subPage page_id)))
    pages.

(** The loop of [MainWindow::removeFromProject] over [itemsInOrder]: the
    page it hands to [setSelection] (and puts into [new_selection]), if
    any. *)
Fixpoint selectionLoop (select_first_non_deleted : bool) (last_non_deleted : PageId.t)
    (itemsInOrder : list PageInfo.t) (pages : list PageId.t) : option PageId.t :=
  match itemsInOrder with
  | [] => None
  | page :: rest =>
      let id := PageInfo.id page in
      let was_deleted := mem id pages in
      if negb was_deleted then
        if select_first_non_deleted then Some id
        else selectionLoop select_first_non_deleted id rest pages
      else if negb select_first_non_deleted && negb (PageId.isNull last_non_deleted)
      then Some last_non_deleted
      else selectionLoop select_first_non_deleted last_non_deleted rest pages
  end.

(** The selection [removeFromProject] makes before it removes the pages:
    nothing on an empty sequence; otherwise the loop, told whether the first
    page goes. *)
Definition selectionBeforeRemoval (itemsInOrder : list PageInfo.t)
    (pages : list PageId.t) : option PageId.t :=
  match itemsInOrder with
  | [] => None
  | first :: _ =>
      selectionLoop (mem (PageInfo.id first) pages) PageId.null itemsInOrder pages
  end.

(* ------------------------------------------------------------------ *)
(** ** Comparing files *)

(** A file as [MainWindow::compareFiles] sees it through [QFile]: whether it
    opens for reading, whether the device is sequential, and its bytes.  A
    read of up to [n] bytes gives the next [n] bytes, or what is left. *)
Record QFile := mkQFile {
  canOpen : bool;
  isSequential : bool;
  bytes : list Byte.byte
}.

Definition chunk_size : nat := 4096.

(** The [while (true)] loop of [compareFiles]. *)
Fixpoint compareChunks (fuel : nat) (rest1 rest2 : list Byte.byte) : option bool :=
  match fuel with
  | O => None
  | S fuel' =>
      let chunk1 := firstn chunk_size rest1 in
      let chunk2 := firstn chunk_size rest2 in
      if negb (Nat.eqb (length chunk1) (length chunk2)) then Some false
      else if Nat.eqb (length chunk1) 0 then Some true
      else compareChunks fuel' (skipn chunk_size rest1) (skipn chunk_size rest2)
  end.

(** [MainWindow::compareFiles] *)
Definition compareFiles (fuel : nat) (file1 file2 : QFile) : option bool :=
  if negb (canOpen file1) then Some false else
  if negb (canOpen file2) then Some false else
  if negb (isSequential file1) && negb (isSequential file2)
     && negb (Nat.eqb (length (bytes file1)) (length (bytes file2)))
  then Some false
  else compareChunks fuel (bytes file1) (bytes file2).

(* ------------------------------------------------------------------ *)
(** ** What the handlers preserve *)

(** [s'] differs from [s] in the thumbnail sequence and the trace only. *)
Definition selection_step (s s' : MainWindow.t) : Prop :=
  exists ts tr,
    s' = MainWindow.mk
           (MainWindow.m_store s) (MainWindow.m_pages s) (MainWindow.m_workerThreadPool s)
           (MainWindow.m_interactiveQueue s) (MainWindow.m_batchQueue s) ts
           (MainWindow.m_thumbnailCache s) (MainWindow.m_contentBoxPropagator s)
           (MainWindow.m_pageOrientationPropagator s) (MainWindow.m_selectedPage s)
           (MainWindow.m_curFilter s) (MainWindow.m_ignoreSelectionChanges s)
           (MainWindow.m_debug s) (MainWindow.outDirIsEmpty s) tr.

(** Every task that is cancelled in [s] is cancelled in [s']. *)
Definition keeps_cancelled (s s' : MainWindow.t) : Prop :=
  forall p : BackgroundTaskPtr,
    isCancelled (MainWindow.m_store s) p = true ->
    isCancelled (MainWindow.m_store s') p = true.

(** The interactive queue holds at most one entry, and none while a batch
    is in progress. *)
Definition one_request_at_a_time (s : MainWindow.t) : Prop :=
  (length (MainWindow.m_interactiveQueue s) <= 1)%nat /\
  (MainWindow.isBatchProcessingInProgress s = true -> MainWindow.m_interactiveQueue s = []).

Definition orderly_step (s s' : MainWindow.t) : Prop :=
  keeps_cancelled s s' /\ (one_request_at_a_time s -> one_request_at_a_time s').

(** [s'] differs from [s] in the task store, the pool, the interactive
    queue and the trace only. *)
Definition request_step (s s' : MainWindow.t) : Prop :=
  exists st pool iq tr,
    s' = MainWindow.mk
           st (MainWindow.m_pages s) pool iq (MainWindow.m_batchQueue s)
           (MainWindow.m_thumbSequence s)
           (MainWindow.m_thumbnailCache s) (MainWindow.m_contentBoxPropagator s)
           (MainWindow.m_pageOrientationPropagator s) (MainWindow.m_selectedPage s)
           (MainWindow.m_curFilter s) (MainWindow.m_ignoreSelectionChanges s)
           (MainWindow.m_debug s) (MainWindow.outDirIsEmpty s) tr.

(** [s'] is a window on the same project as [s]: the pages, the thumbnail
    cache, the propagators, the selection guard, the debug flag and the
    output directory are those of [s].  The remembered selection
    [m_selectedPage] is not in the list: [currentPageChanged] writes it, and
    the thumbnail sequence calls that handler whenever its selection leader
    changes. *)
Definition same_project (s s' : MainWindow.t) : Prop :=
  MainWindow.m_pages s' = MainWindow.m_pages s /\
  MainWindow.m_thumbnailCache s' = MainWindow.m_thumbnailCache s /\
  MainWindow.m_contentBoxPropagator s' = MainWindow.m_contentBoxPropagator s /\
  MainWindow.m_pageOrientationPropagator s' = MainWindow.m_pageOrientationPropagator s /\
  MainWindow.m_ignoreSelectionChanges s' = MainWindow.m_ignoreSelectionChanges s /\
  MainWindow.m_debug s' = MainWindow.m_debug s /\
  MainWindow.outDirIsEmpty s' = MainWindow.outDirIsEmpty s.

(** The task object at address [p] is a composite task of type [ty] built
    for [page]. *)
Definition task_for (st : Store) (ty : BackgroundTask.TaskType) (page : PageInfo.t)
    (p : BackgroundTaskPtr) : Prop :=
  exists o, nth_error st p = Some o /\ lf_page (payload o) = page /\ lf_type (payload o) = ty.

(** Every entry of the queue holds a task of type [ty] built for the
    entry's own page. *)
Definition queue_matches (st : Store) (ty : BackgroundTask.TaskType)
    (q : ProcessingTaskQueue.t) : Prop :=
  forall e, In e q ->
    task_for st ty (ProcessingTaskQueue.pageInfo e) (ProcessingTaskQueue.task e).

Definition entries_match_tasks (s : MainWindow.t) : Prop :=
  queue_matches (MainWindow.m_store s) BackgroundTask.INTERACTIVE
    (MainWindow.m_interactiveQueue s) /\
  match MainWindow.m_batchQueue s with
  | Some bq => queue_matches (MainWindow.m_store s) BackgroundTask.BATCH bq
  | None => True
  end.

(** Every task object of [st] is still there in [st'], at the same
    address and with the same task. *)
Definition keeps_tasks (st st' : Store) : Prop :=
  forall p o, nth_error st p = Some o ->
    exists o', nth_error st' p = Some o' /\ payload o' = payload o.

Definition matching_step (s s' : MainWindow.t) : Prop :=
  keeps_tasks (MainWindow.m_store s) (MainWindow.m_store s') /\
  (entries_match_tasks s -> entries_match_tasks s').

(** Any number of handler runs, one after the other. *)
Inductive steps (env : MainWindow.Collaborators) (s : MainWindow.t) : MainWindow.t -> Prop :=
| steps_refl : steps env s s
| steps_step s' s'' : steps env s s' -> step env s' s'' -> steps env s s''.

(* ------------------------------------------------------------------ *)
(** ** More concrete data *)

Module Scenario.

Import MainWindow.

(** [Example.interactive_window] after the user has moved on to page C
    while page B was still being processed. *)
Definition moved_on_window : MainWindow.t :=
  match goToPage Example.env (PageInfo.id Example.C) Example.interactive_window with
  | Some s => s
  | None => Example.interactive_window
  end.

(** [Example.batch_window] after the batch has been stopped. *)
Definition stopped_window : MainWindow.t :=
  match stopBatchProcessing Example.env UPDATE_MAIN_AREA Example.batch_window with
  | Some s => s
  | None => Example.batch_window
  end.

(** A project of one page, on the deskew stage, with that page selected. *)
Definition one_page_window : MainWindow.t :=
  MainWindow.mk
    [] (ProjectPages.mk [Example.A] [Example.A])
    (WorkerThreadPool.mk 2 []) [] None
    (ThumbnailSequence.mk [Example.A] Example.A)
    true true true
    (fun _ => PageInfo.id Example.A)
    deskewFilterIdx 0 false false [].

(** [one_page_window] after batch processing has been started: a batch of
    one entry. *)
Definition one_page_batch_window : MainWindow.t :=
  match startBatchProcessing Example.env 4 one_page_window with
  | Some s => s
  | None => one_page_window
  end.

End Scenario.

(* ------------------------------------------------------------------ *)
(** ** Selecting a page, opening, saving and closing a project *)

From Stdlib Require String Ascii.

Module ProjectLifecycle.

Import ProcessingTaskQueue MainWindow.
Import String.

(** [QString], with the two operations the handlers use. *)
Definition QString := String.string.

Definition isEmpty (s : QString) : bool :=
  match s with String.EmptyString => true | String.String _ _ => false end.

(** Case folding, on the letters A to Z. *)
Definition toLower (c : Ascii.ascii) : Ascii.ascii :=
  let n := Ascii.nat_of_ascii c in
  if Nat.leb 65 n && Nat.leb n 90 then Ascii.ascii_of_nat (n + 32) else c.

Fixpoint chars_eqb (a b : list Ascii.ascii) : bool :=
  match a, b with
  | [], [] => true
  | x :: a', y :: b' => Ascii.eqb x y && chars_eqb a' b'
  | _, _ => false
  end.

(** [s.endsWith(suffix, Qt::CaseInsensitive)] *)
Definition endsWith (s suffix : QString) : bool :=
  let l := String.list_ascii_of_string s in
  let m := String.list_ascii_of_string suffix in
  Nat.leb (List.length m) (List.length l)
  && chars_eqb (map toLower (skipn (List.length l - List.length m) l)) (map toLower m).

Definition suffix : QString := ".ScanTailor"%string.

(** The flags of [ThumbnailSequence::SelectionFlags] that
    [currentPageChanged] tests, one boolean per flag. *)
Record SelectionFlags := mkSelectionFlags {
  SELECTED_BY_USER : bool;
  REDUNDANT_SELECTION : bool;
  AVOID_SCROLLING_TO : bool
}.

(** [ProjectReader], as far as [switchToNewProject] asks it:
    [selectedPage()]. *)
Record ProjectReader := mkProjectReader {
  reader_selectedPage : PageView -> PageId.t
}.

Inductive SavePromptResult := SAVE | DONT_SAVE | CANCEL.

(** What the handlers do to the user and to the file system, in the order
    they do it. *)
Inductive Action :=
| PromptProjectSave
| GetSaveFileName
| WriteProject (path : QString) (ok : bool)
| Warning
| RemoveFile (path : QString)
| OverwritingRename (from to : QString) (ok : bool)
| CompareFiles (path1 path2 : QString) (same : bool).

(** The window together with the project file's name and the log of
    actions. *)
Record t := mk {
  window : MainWindow.t;
  m_projectFile : QString;
  actions : list Action
}.

Definition log (a : Action) (s : t) : t :=
  mk (window s) (m_projectFile s) (actions s ++ [a]).

Definition set_window (w : MainWindow.t) (s : t) : t :=
  mk w (m_projectFile s) (actions s).

Definition set_projectFile (f : QString) (s : t) : t :=
  mk (window s) f (actions s).

Definition set_pages (v : ProjectPages.t) (s : MainWindow.t) : MainWindow.t :=
  MainWindow.mk (m_store s) v (m_workerThreadPool s) (m_interactiveQueue s) (m_batchQueue s)
     (m_thumbSequence s) (m_thumbnailCache s) (m_contentBoxPropagator s)
     (m_pageOrientationPropagator s) (m_selectedPage s) (m_curFilter s)
     (m_ignoreSelectionChanges s) (m_debug s) (outDirIsEmpty s) (trace s).

Definition set_thumbnailCache (v : bool) (s : MainWindow.t) : MainWindow.t :=
  MainWindow.mk (m_store s) (m_pages s) (m_workerThreadPool s) (m_interactiveQueue s)
     (m_batchQueue s) (m_thumbSequence s) v (m_contentBoxPropagator s)
     (m_pageOrientationPropagator s) (m_selectedPage s) (m_curFilter s)
     (m_ignoreSelectionChanges s) (m_debug s) (outDirIsEmpty s) (trace s).

Definition set_contentBoxPropagator (v : bool) (s : MainWindow.t) : MainWindow.t :=
  MainWindow.mk (m_store s) (m_pages s) (m_workerThreadPool s) (m_interactiveQueue s)
     (m_batchQueue s) (m_thumbSequence s) (m_thumbnailCache s) v
     (m_pageOrientationPropagator s) (m_selectedPage s) (m_curFilter s)
     (m_ignoreSelectionChanges s) (m_debug s) (outDirIsEmpty s) (trace s).

Definition set_pageOrientationPropagator (v : bool) (s : MainWindow.t) : MainWindow.t :=
  MainWindow.mk (m_store s) (m_pages s) (m_workerThreadPool s) (m_interactiveQueue s)
     (m_batchQueue s) (m_thumbSequence s) (m_thumbnailCache s) (m_contentBoxPropagator s)
     v (m_selectedPage s) (m_curFilter s)
     (m_ignoreSelectionChanges s) (m_debug s) (outDirIsEmpty s) (trace s).

Definition set_selectedPage (v : PageView -> PageId.t) (s : MainWindow.t) : MainWindow.t :=
  MainWindow.mk (m_store s) (m_pages s) (m_workerThreadPool s) (m_interactiveQueue s)
     (m_batchQueue s) (m_thumbSequence s) (m_thumbnailCache s) (m_contentBoxPropagator s)
     (m_pageOrientationPropagator s) v (m_curFilter s)
     (m_ignoreSelectionChanges s) (m_debug s) (outDirIsEmpty s) (trace s).

Definition set_outDirIsEmpty (v : bool) (s : MainWindow.t) : MainWindow.t :=
  MainWindow.mk (m_store s) (m_pages s) (m_workerThreadPool s) (m_interactiveQueue s)
     (m_batchQueue s) (m_thumbSequence s) (m_thumbnailCache s) (m_contentBoxPropagator s)
     (m_pageOrientationPropagator s) (m_selectedPage s) (m_curFilter s)
     (m_ignoreSelectionChanges s) (m_debug s) v (trace s).

(** What these handlers need from code that is not among the files at
    hand: [SelectedPage::set], the path of the backup file (a [QFileInfo]
    computation), and, from [MainWindow.h], the default arguments of
    [switchToNewProject]; [empty_pages] is [make_intrusive<ProjectPages>()]. *)
Record Surroundings := mkSurroundings {
  selectedPage_set : (PageView -> PageId.t) -> PageId.t -> PageView -> PageView -> PageId.t;
  backup_file_path : QString -> QString;
  default_project_file_path : QString;
  default_project_reader : option ProjectReader;
  empty_pages : ProjectPages.t
}.

(** What the user and the file system answer during one call of a handler:
    the button pressed in the save prompt, the name given in the file
    dialog (empty when the dialog is cancelled), whether
    [ProjectWriter::write] succeeds for a path, the files as [compareFiles]
    finds them, and whether [Utils::overwritingRename] succeeds. *)
Record Answers := mkAnswers {
  promptProjectSave : SavePromptResult;
  getSaveFileName : QString;
  write : QString -> bool;
  file : QString -> QFile;
  overwritingRename : bool
}.

Section Window.

Variable env : Collaborators.
Variable sur : Surroundings.

(** [MainWindow::currentPageChanged]; the scrolling of the thumbnail view
    and the auto-save timer are left out. *)
Definition currentPageChanged (page_info : PageInfo.t) (flags : SelectionFlags)
    (s : MainWindow.t) : option MainWindow.t :=
  view <- getCurrentView env s ;;
  let s := set_selectedPage
             (selectedPage_set sur (m_selectedPage s) (PageInfo.id page_info) view) s in
  if SELECTED_BY_USER flags then
    if isBatchProcessingInProgress s then
      stopBatchProcessing env (default_main_area env) s
    else if negb (REDUNDANT_SELECTION flags) then
      (* Start loading / processing the newly selected page. *)
      updateMainArea env s
    else Some s
  else Some s.

(** [MainWindow::switchToNewProject].  The row of the filter list is
    selected before the new selection model is connected to
    [filterSelectionChanged], so the handler does not run. *)
Definition switchToNewProject (pages : ProjectPages.t) (out_dir : QString)
    (project_file_path : QString) (project_reader : option ProjectReader)
    (s : t) : option t :=
  w <- stopBatchProcessing env CLEAR_MAIN_AREA (window s) ;;
  let w := interactive_cancelAndClear w in
  let w := set_pages pages w in
  let s := set_projectFile project_file_path s in
  let w := match project_reader with
           | Some r => set_selectedPage (reader_selectedPage r) w
           | None => w
           end in
  let w := set_outDirIsEmpty (isEmpty out_dir) w in
  let w := set_ignoreSelectionChanges (m_ignoreSelectionChanges w + 1) w in
  let w := emit (SelectRow 0) w in
  let w := set_curFilter 0 w in
  let w := set_ignoreSelectionChanges (m_ignoreSelectionChanges w - 1) w in
  _ <- snd (createCompositeCacheDrivenTask selectContentFilterIdx) ;;
  let w := set_contentBoxPropagator true w in
  _ <- snd (createCompositeCacheDrivenTask fixOrientationFilterIdx) ;;
  let w := set_pageOrientationPropagator true w in
  (* Thumbnails are stored relative to the output directory,
     so recreate the thumbnail cache.  [Utils::createThumbnailCache] gives a
     cache, never a null pointer. *)
  let w := set_thumbnailCache (negb (isEmpty out_dir)) w in
  w <- resetThumbSequence env (default_selection_action env) w ;;
  w <- updateMainArea env w ;;
  Some (set_window w s).

(** [MainWindow::closeProjectWithoutSaving] *)
Definition closeProjectWithoutSaving (s : t) : option t :=
  let pages := empty_pages sur in
  switchToNewProject pages String.EmptyString (default_project_file_path sur)
    (default_project_reader sur) s.

Section Handler.

Variable ans : Answers.

(** [MainWindow::saveProjectWithFeedback] *)
Definition saveProjectWithFeedback (project_file : QString) (s : t) : bool * t :=
  if negb (write ans project_file) then
    (false, log Warning (log (WriteProject project_file false) s))
  else (true, log (WriteProject project_file true) s).

(** [MainWindow::saveProjectAsTriggered]; the settings and the list of
    recent projects are left out. *)
Definition saveProjectAsTriggered (s : t) : t :=
  let s := log GetSaveFileName s in
  let project_file := getSaveFileName ans in
  if isEmpty project_file then s else
  let project_file :=
    if negb (endsWith project_file suffix) then String.append project_file suffix
    else project_file in
  let (ok, s) := saveProjectWithFeedback project_file s in
  if ok then set_projectFile project_file s else s.

(** [MainWindow::saveProjectTriggered] *)
Definition saveProjectTriggered (s : t) : t :=
  if isEmpty (m_projectFile s) then saveProjectAsTriggered s
  else snd (saveProjectWithFeedback (m_projectFile s) s).

(** The [switch (promptProjectSave())] that [closeProjectInteractive] runs
    when there is no backup file to compare with. *)
Definition promptAndClose (s : t) : option (bool * t) :=
  let s := log PromptProjectSave s in
  match promptProjectSave ans with
  | SAVE =>
      let s := saveProjectTriggered s in
      (* fall through *)
      s <- closeProjectWithoutSaving s ;;
      Some (true, s)
  | DONT_SAVE =>
      s <- closeProjectWithoutSaving s ;;
      Some (true, s)
  | CANCEL => Some (false, s)
  end.

(** [MainWindow::closeProjectInteractive] *)
Definition closeProjectInteractive (fuel : nat) (s : t) : option (bool * t) :=
  if negb (isProjectLoaded (window s)) then Some (true, s) else
  if isEmpty (m_projectFile s) then promptAndClose s else
  let backup := backup_file_path sur (m_projectFile s) in
  if negb (write ans backup) then
    (* Backup file could not be written??? *)
    let s := log (WriteProject backup false) s in
    let s := log (RemoveFile backup) s in
    promptAndClose s
  else
    let s := log (WriteProject backup true) s in
    same <- compareFiles fuel (file ans (m_projectFile s)) (file ans backup) ;;
    let s := log (CompareFiles (m_projectFile s) backup same) s in
    if same then
      (* The project hasn't really changed. *)
      let s := log (RemoveFile backup) s in
      s <- closeProjectWithoutSaving s ;;
      Some (true, s)
    else
      let s := log PromptProjectSave s in
      match promptProjectSave ans with
      | SAVE =>
          if negb (overwritingRename ans) then
            Some (false, log Warning (log (OverwritingRename backup (m_projectFile s) false) s))
          else
            let s := log (OverwritingRename backup (m_projectFile s) true) s in
            (* fall through *)
            let s := log (RemoveFile backup) s in
            s <- closeProjectWithoutSaving s ;;
            Some (true, s)
      | DONT_SAVE =>
          let s := log (RemoveFile backup) s in
          s <- closeProjectWithoutSaving s ;;
          Some (true, s)
      | CANCEL => Some (false, s)
      end.

End Handler.

End Window.

End ProjectLifecycle.

(* ------------------------------------------------------------------ *)
(** ** Concrete data for the project handlers *)

Module ProjectScenario.

Import MainWindow ProjectLifecycle.
Import String.

(** The remembered page is the page itself in the page view and the
    unsplit page of its image in the image view; the backup file gets the
    prefix [Backup.]; the defaults are the empty ones. *)
Definition sur : Surroundings :=
  mkSurroundings
    (fun _ page _ view =>
       match view with
       | PAGE_VIEW => page
       | IMAGE_VIEW => PageId.mk (PageId.imageId page) PageId.SINGLE_PAGE
       end)
    (fun f => append "Backup."%string f)
    EmptyString None (ProjectPages.mk [] []).

(** The example project, saved as [book.ScanTailor], with page B being
    processed. *)
Definition named_project : ProjectLifecycle.t :=
  ProjectLifecycle.mk Example.interactive_window "book.ScanTailor"%string [].

(** The example project before it has been saved. *)
Definition unnamed_project : ProjectLifecycle.t :=
  ProjectLifecycle.mk Example.window EmptyString [].

(** A click of the user on a thumbnail. *)
Definition click : SelectionFlags := mkSelectionFlags true false false.

(** The user presses Cancel in the save prompt. *)
Definition cancel : Answers :=
  mkAnswers CANCEL EmptyString (fun _ => true) (fun _ => mkQFile true false []) true.

(** The user presses Save and then cancels the file dialog. *)
Definition save_then_cancel : Answers :=
  mkAnswers SAVE EmptyString (fun _ => true) (fun _ => mkQFile true false []) true.

(** The project file and its backup are one byte long each, and differ. *)
Definition edited_in_place : Answers :=
  mkAnswers SAVE EmptyString (fun _ => true)
    (fun path => if String.eqb path "book.ScanTailor"%string
                 then mkQFile true false [Byte.x61]
                 else mkQFile true false [Byte.x62])
    true.

End ProjectScenario.

(* ================================================================== *)
(** * Properties *)

(** Reduces the projections of a window that is given field by field. *)
Ltac project :=
  cbn [MainWindow.m_store MainWindow.m_pages MainWindow.m_workerThreadPool
       MainWindow.m_interactiveQueue MainWindow.m_batchQueue
       MainWindow.m_thumbSequence MainWindow.m_thumbnailCache
       MainWindow.m_contentBoxPropagator MainWindow.m_pageOrientationPropagator
       MainWindow.m_selectedPage MainWindow.m_curFilter
       MainWindow.m_ignoreSelectionChanges MainWindow.m_debug
       MainWindow.outDirIsEmpty MainWindow.trace option_map negb
       MainWindow.filter app
       MainWindow.set_store MainWindow.set_workerThreadPool
       MainWindow.set_interactiveQueue MainWindow.set_batchQueue
       MainWindow.set_thumbSequence MainWindow.set_curFilter
       MainWindow.set_ignoreSelectionChanges MainWindow.emit].

Ltac project_in H :=
  cbn [MainWindow.m_store MainWindow.m_pages MainWindow.m_workerThreadPool
       MainWindow.m_interactiveQueue MainWindow.m_batchQueue
       MainWindow.m_thumbSequence MainWindow.m_thumbnailCache
       MainWindow.m_contentBoxPropagator MainWindow.m_pageOrientationPropagator
       MainWindow.m_selectedPage MainWindow.m_curFilter
       MainWindow.m_ignoreSelectionChanges MainWindow.m_debug
       MainWindow.outDirIsEmpty MainWindow.trace option_map negb
       MainWindow.filter app
       MainWindow.set_store MainWindow.set_workerThreadPool
       MainWindow.set_interactiveQueue MainWindow.set_batchQueue
       MainWindow.set_thumbSequence MainWindow.set_curFilter
       MainWindow.set_ignoreSelectionChanges MainWindow.emit] in H.

(* ------------------------------------------------------------------ *)
(** ** Equality tests *)

Lemma SubPage_eqb_eq a b : PageId.SubPage_eqb a b = true <-> a = b.
Proof. destruct a, b; simpl; split; congruence. Qed.

Lemma ImageId_eqb_eq a b : PageId.ImageId_eqb a b = true <-> a = b.
Proof.
  destruct a as [x|], b as [y|]; simpl; split; try congruence.
  - intros H. apply Nat.eqb_eq in H. congruence.
  - intros H. injection H as ->. apply Nat.eqb_refl.
Qed.

Lemma PageId_eqb_eq a b : PageId.eqb a b = true <-> a = b.
Proof.
  destruct a as [ia sa], b as [ib sb]. unfold PageId.eqb. simpl.
  rewrite andb_true_iff, ImageId_eqb_eq, SubPage_eqb_eq.
  split; [intros [-> ->]; reflexivity | intros H; injection H; auto].
Qed.

Lemma PageId_eqb_refl a : PageId.eqb a a = true.
Proof. apply PageId_eqb_eq. reflexivity. Qed.

Lemma PageId_eqb_neq a b : PageId.eqb a b = false <-> a <> b.
Proof.
  split.
  - intros H E. apply PageId_eqb_eq in E. congruence.
  - intros H. destruct (PageId.eqb a b) eqn:E; [apply PageId_eqb_eq in E; contradiction | reflexivity].
Qed.

Lemma Stage_eqb_eq a b : Stage_eqb a b = true <-> a = b.
Proof. destruct a, b; simpl; split; congruence. Qed.

(* ------------------------------------------------------------------ *)
(** ** The composite task builders *)

Lemma valid_index_cases (S : Z) :
  0 <= S <= 5 -> S = 0 \/ S = 1 \/ S = 2 \/ S = 3 \/ S = 4 \/ S = 5.
Proof. lia. Qed.

Ltac each_valid_index H :=
  apply valid_index_cases in H;
  destruct H as [-> | [-> | [-> | [-> | [-> | ->]]]]].

(** The stage sequence holds a filter at the six stage indices and at no
    other. *)
Lemma filterAt_valid (idx : Z) :
  fixOrientationFilterIdx <= idx <= outputFilterIdx -> exists f, filterAt idx = Some f.
Proof.
  unfold fixOrientationFilterIdx, outputFilterIdx. intros H.
  each_valid_index H; eexists; reflexivity.
Qed.

Lemma filterAt_bounds (idx : Z) (f : Stage) :
  filterAt idx = Some f -> fixOrientationFilterIdx <= idx <= outputFilterIdx.
Proof.
  unfold filterAt. intros H. apply find_some in H. destruct H as [_ H].
  apply Z.eqb_eq in H. subst idx. destruct f; cbv; split; discriminate.
Qed.

Lemma filterAt_none (idx : Z) :
  filterAt idx = None <-> ~ fixOrientationFilterIdx <= idx <= outputFilterIdx.
Proof.
  split.
  - intros H K. destruct (filterAt_valid idx K) as [f E]. congruence.
  - intros H. destruct (filterAt idx) as [f|] eqn:E; [|reflexivity].
    apply filterAt_bounds in E. contradiction.
Qed.

Ltac unfold_indices :=
  unfold fixOrientationFilterIdx, pageSplitFilterIdx, deskewFilterIdx,
    selectContentFilterIdx, pageLayoutFilterIdx, outputFilterIdx in *.

(** Splits on the six index comparisons a builder makes. *)
Ltac split_on_comparisons S :=
  destruct (S >=? outputFilterIdx) eqn:?;
  destruct (S >=? pageLayoutFilterIdx) eqn:?;
  destruct (S >=? selectContentFilterIdx) eqn:?;
  destruct (S >=? deskewFilterIdx) eqn:?;
  destruct (S >=? pageSplitFilterIdx) eqn:?;
  destruct (S >=? fixOrientationFilterIdx) eqn:?.

Lemma createCompositeTask_total page (S : Z) batch debug :
  fixOrientationFilterIdx <= S ->
  exists head, snd (createCompositeTask page S batch debug) = Some head.
Proof.
  intros H. unfold createCompositeTask.
  assert (E : (S >=? fixOrientationFilterIdx) = true) by (apply Z.geb_le; exact H).
  split_on_comparisons S; try discriminate; simpl; eexists; reflexivity.
Qed.

Lemma createCompositeCacheDrivenTask_total (S : Z) :
  fixOrientationFilterIdx <= S ->
  exists head, snd (createCompositeCacheDrivenTask S) = Some head.
Proof.
  intros H. unfold createCompositeCacheDrivenTask.
  assert (E : (S >=? fixOrientationFilterIdx) = true) by (apply Z.geb_le; exact H).
  split_on_comparisons S; try discriminate; simpl; eexists; reflexivity.
Qed.

Lemma createCompositeTask_fails_below_zero page (S : Z) batch debug :
  S < fixOrientationFilterIdx ->
  snd (createCompositeTask page S batch debug) = None.
Proof.
  intros H. unfold createCompositeTask.
  assert (E : (S >=? fixOrientationFilterIdx) = false).
  { destruct (S >=? fixOrientationFilterIdx) eqn:E; [apply Z.geb_le in E; lia | reflexivity]. }
  split_on_comparisons S; try discriminate; reflexivity.
Qed.

(** C2.  For a target stage index S in 0..5 both builders make their
    [createTask] calls from stage S down to stage 0, every call receives the
    task built by the call before it as its downstream task (the first call
    receives none), the last task built is the head of the chain, and the
    chain runs through exactly the stages 0..S, the fix-orientation stage
    first. *)
Theorem builders_chain_backward (page : PageInfo.t) (S : Z) (batch debug : bool) :
  0 <= S <= 5 ->
  (exists composite,
      snd (createCompositeTask page S batch debug) = Some composite /\
      let calls := fst (createCompositeTask page S batch debug) in
      let chain := Chain.of_fix_orientation (lf_nextTask composite) in
      map findFilter (map stage_of calls) = rev (indices_upto S) /\
      linked next_of None calls /\
      last calls (FixOrientationT (lf_nextTask composite))
        = FixOrientationT (lf_nextTask composite) /\
      In (FixOrientationT (lf_nextTask composite)) calls /\
      chain = upTo S /\
      map findFilter chain = indices_upto S /\
      hd_error chain = Some FixOrientation /\
      (forall st, In st chain <-> findFilter st <= S))
  /\
  (exists head,
      snd (createCompositeCacheDrivenTask S) = Some head /\
      let calls := fst (createCompositeCacheDrivenTask S) in
      let chain := Chain.cd_of_fix_orientation head in
      map findFilter (map cd_stage_of calls) = rev (indices_upto S) /\
      linked cd_next_of None calls /\
      last calls (FixOrientationC head) = FixOrientationC head /\
      In (FixOrientationC head) calls /\
      chain = upTo S /\
      map findFilter chain = indices_upto S /\
      hd_error chain = Some FixOrientation /\
      (forall st, In st chain <-> findFilter st <= S)).
Proof.
  intros H.
  each_valid_index H.
  all: split; eexists; (split; [reflexivity|]); cbv zeta.
  all: repeat match goal with |- _ /\ _ => split end; try reflexivity.
  all: try (simpl; tauto).
  all: intros [ | | | | | ]; simpl; unfold_indices; split; intros K; try lia.
  all: repeat match goal with
              | K : _ \/ _ |- _ => destruct K as [K | K]
              | K : False |- _ => destruct K
              end; try discriminate; tauto.
Qed.

Lemma builders_chain_backward_witness :
  0 <= 2 <= 5 /\
  Chain.of_fix_orientation
    (fix_orientation.createTask PageId.null
       (Some (page_split.createTask PageInfo.null
                (Some (deskew.createTask PageId.null None false true)) false false))
       false)
  = [FixOrientation; PageSplit; Deskew].
Proof.
  split; [lia|].
  destruct (builders_chain_backward PageInfo.null 2 false true ltac:(lia))
    as [[composite [E K]] _].
  injection E as <-. apply K.
Defined.

(** C10.  Every stage index of the valid range 0..5 is at least the
    fix-orientation index, so both builders pass their final assertion and
    return a chain whose head is the fix-orientation task, the last task
    they build. *)
Theorem builders_total_on_valid_indices (page : PageInfo.t) (S : Z) (batch debug : bool) :
  0 <= S <= 5 ->
  fixOrientationFilterIdx <= S /\
  (exists composite,
      snd (createCompositeTask page S batch debug) = Some composite /\
      exists earlier,
        fst (createCompositeTask page S batch debug)
        = earlier ++ [FixOrientationT (lf_nextTask composite)]) /\
  (exists head,
      snd (createCompositeCacheDrivenTask S) = Some head /\
      exists earlier,
        fst (createCompositeCacheDrivenTask S) = earlier ++ [FixOrientationC head]).
Proof.
  intros H. split; [unfold_indices; lia|].
  each_valid_index H.
  all: split; eexists; (split; [reflexivity|]).
  all: simpl.
  all: match goal with
       | |- exists e, ?l = _ => exists (removelast l); reflexivity
       end.
Qed.

Lemma builders_total_on_valid_indices_witness :
  0 <= 3 <= 5 /\
  exists head, snd (createCompositeCacheDrivenTask 3) = Some head.
Proof.
  split; [lia|].
  destruct (builders_total_on_valid_indices PageInfo.null 3 false false ltac:(lia))
    as [_ [_ [head [E _]]]].
  exists head. exact E.
Defined.

(** C4.  Whatever the request, a stage task built with the debug flag on is
    the first task built, it is the task of the most downstream stage of the
    request, the request was not a batch one and asked for debugging; hence
    at most one [createTask] call sees the flag on, and none does in a batch
    request. *)
Theorem debug_flag_consumed_once (page : PageInfo.t) (S : Z) (batch debug : bool) :
  let calls := fst (createCompositeTask page S batch debug) in
  (forall t, In t calls -> debug_of t = Some true ->
     hd_error calls = Some t /\
     (forall u, In u calls -> findFilter (stage_of u) <= findFilter (stage_of t)) /\
     batch = false /\ debug = true) /\
  (length (List.filter receives_debug calls) <= 1)%nat /\
  (batch = true -> forall t, In t calls -> debug_of t <> Some true).
Proof.
  unfold createCompositeTask.
  split_on_comparisons S; destruct batch, debug; cbv zeta; simpl.
  all: repeat match goal with |- _ /\ _ => split end; try lia; try discriminate.
  all: intros; unfold_indices;
       repeat match goal with
              | K : _ \/ _ |- _ => destruct K as [K | K]
              | K : False |- _ => destruct K
              | K : _ = ?t |- _ => is_var t; subst t
              end; simpl in *; try discriminate; try congruence.
  all: repeat match goal with |- _ /\ _ => split end; try reflexivity.
  all: intros;
       repeat match goal with
              | K : _ \/ _ |- _ => destruct K as [K | K]
              | K : False |- _ => destruct K
              | K : _ = ?t |- _ => is_var t; subst t
              end; simpl; unfold_indices; lia.
Qed.

(** The scenario of a non-batch request for the output stage with the debug
    flag on: the output stage alone is built with the flag on. *)
Lemma debug_flag_output_scenario (page : PageInfo.t) :
  map debug_of (fst (createCompositeTask page outputFilterIdx false true))
  = [Some true; Some false; Some false; Some false; Some false; None].
Proof. reflexivity. Qed.

(** A request for the fix-orientation stage alone never hands the flag to
    anyone: that stage's [createTask] has no debug parameter. *)
Lemma debug_flag_fix_orientation_only (page : PageInfo.t) (batch debug : bool) :
  map debug_of (fst (createCompositeTask page fixOrientationFilterIdx batch debug))
  = [None].
Proof. reflexivity. Qed.

(* ------------------------------------------------------------------ *)
(** ** Selection after a reset of the thumbnail sequence *)

Section ResetThumbSequence.

Import MainWindow.

Variable env : Collaborators.

Lemma setSelection_found (p : PageId.t) (s : MainWindow.t) (x : PageInfo.t) :
  find (fun y => PageId.eqb (PageInfo.id y) p) (ThumbnailSequence.items (m_thumbSequence s)) = Some x ->
  setSelection p s
  = (true, emit (SetSelection p true)
             (set_thumbSequence (ThumbnailSequence.mk (ThumbnailSequence.items (m_thumbSequence s)) x) s)).
Proof.
  intros H. unfold setSelection, ThumbnailSequence.setSelection, ThumbnailSequence.lookup.
  rewrite H. reflexivity.
Qed.

Lemma setSelection_missing (p : PageId.t) (s : MainWindow.t) :
  find (fun y => PageId.eqb (PageInfo.id y) p) (ThumbnailSequence.items (m_thumbSequence s)) = None ->
  setSelection p s = (false, emit (SetSelection p false) s).
Proof.
  intros H. unfold setSelection, ThumbnailSequence.setSelection, ThumbnailSequence.lookup.
  rewrite H. destruct s as [? ? ? ? ? [? ?] ? ? ? ? ? ? ? ? ?]. reflexivity.
Qed.

Lemma find_head_id (pages : list PageInfo.t) :
  match find (fun y => PageId.eqb (PageInfo.id y) (PageInfo.id (hd PageInfo.null pages))) pages with
  | Some x => x = hd PageInfo.null pages
  | None => pages = []
  end.
Proof.
  destruct pages as [|x rest]; simpl; [reflexivity|].
  rewrite PageId_eqb_refl. reflexivity.
Qed.

Lemma selectRemembered_spec (page : PageId.t) (s : MainWindow.t) (pages : list PageInfo.t) :
  m_thumbSequence s = ThumbnailSequence.mk pages PageInfo.null ->
  let tried := try_candidates pages (fallback_candidates page) in
  let s' := selectRemembered page s in
  ThumbnailSequence.items (m_thumbSequence s') = pages /\
  match snd tried with
  | Some x =>
      trace s' = trace s ++ fst tried /\
      ThumbnailSequence.selectionLeader (m_thumbSequence s') = x
  | None =>
      exists found,
        trace s' = trace s ++ fst tried
                     ++ [SetSelection (PageInfo.id (hd PageInfo.null pages)) found] /\
        ThumbnailSequence.selectionLeader (m_thumbSequence s') = hd PageInfo.null pages
  end.
Proof.
  intros Hts. cbv zeta.
  unfold selectRemembered, fallback_candidates, try_candidates.
  (* first candidate *)
  destruct (find (fun y => PageId.eqb (PageInfo.id y) page) pages) as [x|] eqn:F1.
  { rewrite (setSelection_found _ _ x) by (rewrite Hts; exact F1).
    simpl. rewrite Hts. auto. }
  rewrite setSelection_missing by (rewrite Hts; exact F1).
  set (s2 := emit (SetSelection page false) s) in *.
  assert (Hts2 : m_thumbSequence s2 = ThumbnailSequence.mk pages PageInfo.null) by exact Hts.
  (* second candidate *)
  destruct (find (fun y => PageId.eqb (PageInfo.id y) (PageId.mk (PageId.imageId page) PageId.LEFT_PAGE)) pages)
    as [x|] eqn:F2.
  { rewrite (setSelection_found _ _ x) by (rewrite Hts2; exact F2).
    simpl. rewrite Hts. simpl. rewrite <- !app_assoc. auto. }
  rewrite setSelection_missing by (rewrite Hts2; exact F2).
  set (s3 := emit (SetSelection (PageId.mk (PageId.imageId page) PageId.LEFT_PAGE) false) s2) in *.
  assert (Hts3 : m_thumbSequence s3 = ThumbnailSequence.mk pages PageInfo.null) by exact Hts.
  (* third candidate *)
  destruct (find (fun y => PageId.eqb (PageInfo.id y) (PageId.mk (PageId.imageId page) PageId.RIGHT_PAGE)) pages)
    as [x|] eqn:F3.
  { rewrite (setSelection_found _ _ x) by (rewrite Hts3; exact F3).
    simpl. rewrite Hts. simpl. rewrite <- !app_assoc. auto. }
  rewrite setSelection_missing by (rewrite Hts3; exact F3).
  set (s4 := emit (SetSelection (PageId.mk (PageId.imageId page) PageId.RIGHT_PAGE) false) s3) in *.
  assert (Hts4 : m_thumbSequence s4 = ThumbnailSequence.mk pages PageInfo.null) by exact Hts.
  (* fourth candidate *)
  destruct (find (fun y => PageId.eqb (PageInfo.id y) (PageId.mk (PageId.imageId page) PageId.SINGLE_PAGE)) pages)
    as [x|] eqn:F4.
  { rewrite (setSelection_found _ _ x) by (rewrite Hts4; exact F4).
    simpl. rewrite Hts. simpl. rewrite <- !app_assoc. auto. }
  rewrite setSelection_missing by (rewrite Hts4; exact F4).
  set (s5 := emit (SetSelection (PageId.mk (PageId.imageId page) PageId.SINGLE_PAGE) false) s4) in *.
  assert (Hts5 : m_thumbSequence s5 = ThumbnailSequence.mk pages PageInfo.null) by exact Hts.
  (* last resort *)
  rewrite Hts5. unfold ThumbnailSequence.firstPage. simpl ThumbnailSequence.items.
  pose proof (find_head_id pages) as Hh.
  destruct (find (fun y => PageId.eqb (PageInfo.id y) (PageInfo.id (hd PageInfo.null pages))) pages)
    as [x|] eqn:F5.
  - rewrite (setSelection_found _ _ x) by (rewrite Hts5; exact F5).
    simpl. rewrite Hts. simpl. split; [reflexivity|].
    exists true. rewrite <- !app_assoc. simpl. auto.
  - rewrite setSelection_missing by (rewrite Hts5; exact F5).
    simpl. rewrite Hts. simpl. split; [reflexivity|].
    exists false. rewrite <- !app_assoc. simpl. rewrite Hh. auto.
Qed.

(** What the first half of [resetThumbSequence] leaves behind. *)
Lemma resetSequence_spec (selection_action : ThumbnailSequence.SelectionAction)
    (s s1 : MainWindow.t) :
  resetSequence env selection_action s = Some s1 ->
  exists before,
    (m_thumbnailCache s = true /\
     before = [SetThumbnailFactory (snd (createCompositeCacheDrivenTask (m_curFilter s)));
               ThumbSequenceReset selection_action]
     \/
     m_thumbnailCache s = false /\
     before = [ThumbSequenceReset selection_action; SetThumbnailFactory None]) /\
    filterAt (m_curFilter s) <> None /\
    s1 = mk (m_store s) (m_pages s) (m_workerThreadPool s) (m_interactiveQueue s)
            (m_batchQueue s)
            (ThumbnailSequence.reset
               (ProjectPages.toPageSequence (m_pages s) (getView env (m_curFilter s)))
               selection_action (m_thumbSequence s))
            (m_thumbnailCache s) (m_contentBoxPropagator s)
            (m_pageOrientationPropagator s) (m_selectedPage s) (m_curFilter s)
            (m_ignoreSelectionChanges s) (m_debug s) (outDirIsEmpty s)
            (trace s ++ before).
Proof.
  destruct s as [st pg pool iq bq ts cache cbp pop sel cf ign dbg out tr].
  unfold resetSequence, getCurrentView. project. intros H.
  destruct cache.
  - destruct (snd (createCompositeCacheDrivenTask cf)) as [task|]; [|discriminate].
    project_in H. destruct (filterAt cf) as [f|]; [|discriminate].
    project_in H. injection H as <-.
    eexists. split; [left; split; reflexivity|]. split; [discriminate|].
    unfold emit, set_thumbSequence; cbn. rewrite <- app_assoc. reflexivity.
  - project_in H. destruct (filterAt cf) as [f|]; [|discriminate]. project_in H.
    destruct (Nat.eqb (ProjectPages.numImages pg) 0); [|discriminate].
    injection H as <-.
    eexists. split; [right; split; reflexivity|]. split; [discriminate|].
    unfold emit, set_thumbSequence; cbn. rewrite <- app_assoc. reflexivity.
Qed.

(** Once the sequence has been reset the current stage is known to exist, so
    the view asked for the remembered selection is there. *)
Lemma resetThumbSequence_unfold action s :
  resetThumbSequence env action s =
  match resetSequence env action s with
  | Some s1 =>
      if negb (ThumbnailSequence.SelectionAction_eqb action ThumbnailSequence.KEEP_SELECTION)
      then Some (selectRemembered (m_selectedPage s1 (getView env (m_curFilter s1))) s1)
      else Some s1
  | None => None
  end.
Proof.
  unfold resetThumbSequence.
  destruct (resetSequence env action s) as [s1|] eqn:R; [|reflexivity].
  apply resetSequence_spec in R. destruct R as [before [_ [Hf ->]]].
  unfold getCurrentView. project.
  destruct (filterAt (m_curFilter s)) as [f|]; [|contradiction].
  reflexivity.
Qed.

(** C9.  A reset of the thumbnail sequence that does not keep the selection
    tries, in this order, the remembered page, the left page, the right page
    and the single page of the remembered image, stops at the first one the
    new sequence holds and selects it; when the sequence holds none of the
    four it selects the first page of the sequence. *)
Theorem resetThumbSequence_fallback_order
    (selection_action : ThumbnailSequence.SelectionAction) (s s' : MainWindow.t) :
  selection_action <> ThumbnailSequence.KEEP_SELECTION ->
  resetThumbSequence env selection_action s = Some s' ->
  let pages := ProjectPages.toPageSequence (m_pages s) (getView env (m_curFilter s)) in
  let remembered := m_selectedPage s (getView env (m_curFilter s)) in
  let tried := try_candidates pages (fallback_candidates remembered) in
  exists before,
    forallb (fun e => negb (is_SetSelection e)) before = true /\
    ThumbnailSequence.items (m_thumbSequence s') = pages /\
    match snd tried with
    | Some x =>
        trace s' = trace s ++ before ++ fst tried /\
        ThumbnailSequence.selectionLeader (m_thumbSequence s') = x
    | None =>
        exists found,
          trace s' = trace s ++ before ++ fst tried
                       ++ [SetSelection (PageInfo.id (hd PageInfo.null pages)) found] /\
          ThumbnailSequence.selectionLeader (m_thumbSequence s') = hd PageInfo.null pages
    end.
Proof.
  intros Hact H. cbv zeta.
  destruct selection_action; [contradiction|]. clear Hact.
  unfold resetThumbSequence in H.
  destruct (resetSequence env ThumbnailSequence.RESET_SELECTION s) as [s1|] eqn:R; [|discriminate].
  apply resetSequence_spec in R. destruct R as [before [Hb [Hf ->]]].
  unfold getCurrentView in H. project_in H.
  destruct (filterAt (m_curFilter s)) as [f|]; [clear Hf | contradiction].
  cbn in H. injection H as <-.
  exists before. split; [destruct Hb as [[_ ->] | [_ ->]]; reflexivity|].
  match goal with
  | |- context [selectRemembered ?p ?s1] =>
      pose proof (selectRemembered_spec p s1 _ eq_refl) as K
  end.
  cbv zeta in K. cbn [m_curFilter m_selectedPage trace] in K |- *.
  destruct K as [K1 K2]. split; [exact K1|].
  destruct (snd (try_candidates _ _)) as [x|].
  - destruct K2 as [K2 K3]. rewrite K2, <- app_assoc. auto.
  - destruct K2 as [found [K2 K3]]. exists found. rewrite K2, <- app_assoc. auto.
Qed.

End ResetThumbSequence.

(** After the second image has been split the remembered single page is
    gone; its left half is selected, and the right half is never tried. *)
Lemma resetThumbSequence_fallback_order_witness :
  ThumbnailSequence.RESET_SELECTION <> ThumbnailSequence.KEEP_SELECTION /\
  exists s',
    MainWindow.resetThumbSequence Example.env ThumbnailSequence.RESET_SELECTION
      Example.split_window = Some s' /\
    ThumbnailSequence.selectionLeader (MainWindow.m_thumbSequence s') = Example.left 2 /\
    List.filter is_SetSelection (MainWindow.trace s')
    = [MainWindow.SetSelection (PageInfo.id Example.B) false;
       MainWindow.SetSelection (PageInfo.id (Example.left 2)) true].
Proof.
  split; [discriminate|].
  eexists. split; [reflexivity|].
  pose proof (resetThumbSequence_fallback_order Example.env
                ThumbnailSequence.RESET_SELECTION Example.split_window _
                ltac:(discriminate) eq_refl) as [before [_ [_ K]]].
  split; [exact (proj2 K) | reflexivity].
Defined.

(* ------------------------------------------------------------------ *)
(** ** The store *)

Lemma length_cancel (p : BackgroundTaskPtr) (st : Store) : length (cancel p st) = length st.
Proof.
  revert p. induction st as [|o st IH]; intros p; [reflexivity|].
  destruct p; simpl; [reflexivity | rewrite IH; reflexivity].
Qed.

Lemma isCancelled_cancel_same (p : BackgroundTaskPtr) (st : Store) :
  (p < length st)%nat -> isCancelled (cancel p st) p = true.
Proof.
  unfold isCancelled. revert p. induction st as [|o st IH]; intros p H; simpl in H; [lia|].
  destruct p; simpl; [reflexivity|]. apply IH. lia.
Qed.

Lemma isCancelled_cancel_mono (p q : BackgroundTaskPtr) (st : Store) :
  isCancelled st q = true -> isCancelled (cancel p st) q = true.
Proof.
  unfold isCancelled. revert p q. induction st as [|o st IH]; intros p q H; [exact H|].
  destruct p, q; simpl in *; auto.
Qed.

Lemma isCancelled_app (p : BackgroundTaskPtr) (st new : Store) :
  (p < length st)%nat -> isCancelled (st ++ new) p = isCancelled st p.
Proof. intros H. unfold isCancelled. rewrite nth_error_app1 by exact H. reflexivity. Qed.

Lemma isCancelled_fresh (st : Store) (t : LoadFileTask) :
  isCancelled (fst (alloc st t)) (snd (alloc st t)) = false.
Proof.
  unfold alloc, isCancelled. cbn [fst snd].
  rewrite nth_error_app2 by lia. rewrite Nat.sub_diag. reflexivity.
Qed.

Lemma cancelAndClear_length (st : Store) (q : ProcessingTaskQueue.t) :
  length (fst (ProcessingTaskQueue.cancelAndClear st q)) = length st.
Proof.
  unfold ProcessingTaskQueue.cancelAndClear. cbn [fst]. revert st.
  induction q as [|e q IH]; intros st; simpl; [reflexivity|].
  rewrite IH. apply length_cancel.
Qed.

Lemma cancelAndClear_mono (st : Store) (q : ProcessingTaskQueue.t) (p : BackgroundTaskPtr) :
  isCancelled st p = true ->
  isCancelled (fst (ProcessingTaskQueue.cancelAndClear st q)) p = true.
Proof.
  unfold ProcessingTaskQueue.cancelAndClear. cbn [fst]. revert st.
  induction q as [|e q IH]; intros st H; simpl; [exact H|].
  apply IH. apply isCancelled_cancel_mono. exact H.
Qed.

Lemma cancelAndClear_cancels (st : Store) (q : ProcessingTaskQueue.t) (e : ProcessingTaskQueue.Entry) :
  In e q -> (ProcessingTaskQueue.task e < length st)%nat ->
  isCancelled (fst (ProcessingTaskQueue.cancelAndClear st q)) (ProcessingTaskQueue.task e) = true.
Proof.
  revert st. induction q as [|x q IH]; intros st Hin Hlt; [destruct Hin|].
  destruct Hin as [-> | Hin].
  - apply (cancelAndClear_mono (cancel (ProcessingTaskQueue.task e) st) q).
    apply isCancelled_cancel_same. exact Hlt.
  - apply (IH (cancel (ProcessingTaskQueue.task x) st) Hin).
    rewrite length_cancel. exact Hlt.
Qed.

(* ------------------------------------------------------------------ *)
(** ** The queue *)

Section Queue.

Import ProcessingTaskQueue.

Lemma pending_cons (e : Entry) (rest : ProcessingTaskQueue.t) :
  pending (e :: rest) = if isPending e then task e :: pending rest else pending rest.
Proof. unfold pending. simpl. destruct (isPending e); reflexivity. Qed.

Lemma takeForProcessing_some (q q' : ProcessingTaskQueue.t) (r : option BackgroundTaskPtr) :
  takeForProcessing q = (r, q') ->
  match r with
  | Some tsk => pending q = tsk :: pending q'
  | None => pending q = [] /\ q' = q
  end.
Proof.
  revert q' r. induction q as [|e rest IH]; simpl; intros q' r H.
  - injection H as <- <-. auto.
  - rewrite pending_cons. destruct (isPending e) eqn:E.
    + injection H as <- <-. rewrite pending_cons. reflexivity.
    + destruct (takeForProcessing rest) as [r0 rest'] eqn:T.
      injection H as <- <-. specialize (IH _ _ eq_refl).
      destruct r0.
      * rewrite pending_cons, E. exact IH.
      * destruct IH as [-> ->]. auto.
Qed.

Lemma takeForProcessing_contents (q : ProcessingTaskQueue.t) :
  contents (snd (takeForProcessing q)) = contents q.
Proof.
  induction q as [|e rest IH]; simpl; [reflexivity|].
  destruct (isPending e); simpl; [reflexivity|].
  destruct (takeForProcessing rest) as [r rest']. simpl in *.
  rewrite IH. reflexivity.
Qed.

Lemma contents_pages (q : ProcessingTaskQueue.t) :
  pages q = map (fun c => PageInfo.id (fst c)) (contents q).
Proof. unfold pages, contents. rewrite map_map. reflexivity. Qed.

Lemma takeForProcessing_pages (q : ProcessingTaskQueue.t) :
  pages (snd (takeForProcessing q)) = pages q.
Proof. rewrite !contents_pages, takeForProcessing_contents. reflexivity. Qed.

Lemma hasPage_In (q : ProcessingTaskQueue.t) (p : PageId.t) :
  hasPage q p = true <-> In p (pages q).
Proof.
  unfold hasPage, pages. rewrite existsb_exists, in_map_iff. split.
  - intros [e [H1 H2]]. apply PageId_eqb_eq in H2. eauto.
  - intros [e [H1 H2]]. exists e. split; [exact H2|]. apply PageId_eqb_eq. exact H1.
Qed.

Lemma single_flight_nil : single_flight [].
Proof. constructor. Qed.

Lemma NoDup_snoc {A} (l : list A) (x : A) :
  NoDup l -> ~ In x l -> NoDup (l ++ [x]).
Proof.
  induction l as [|y rest IH]; simpl; intros H K.
  - constructor; [intros []|constructor].
  - inversion H as [|? ? Hn Hr]; subst. constructor.
    + rewrite in_app_iff. simpl. intros [J | [J | []]]; [auto | subst; auto].
    + apply IH; [assumption|]. intros J. apply K. auto.
Qed.

Lemma single_flight_add page tsk q :
  single_flight q -> single_flight (addProcessingTask page tsk q).
Proof.
  unfold single_flight, addProcessingTask. intros H.
  destruct (hasPage q (PageInfo.id page)) eqn:E; [exact H|].
  unfold pages. rewrite map_app. simpl.
  apply NoDup_snoc; [exact H|].
  intros K. apply hasPage_In in K. congruence.
Qed.

Lemma single_flight_take q :
  single_flight q -> single_flight (snd (takeForProcessing q)).
Proof. unfold single_flight. rewrite takeForProcessing_pages. auto. Qed.

Lemma NoDup_map_filter {A B} (f : A -> B) (p : A -> bool) (l : list A) :
  NoDup (map f l) -> NoDup (map f (List.filter p l)).
Proof.
  induction l as [|x rest IH]; simpl; intros H; [constructor|].
  inversion H as [|? ? Hn Hr]; subst.
  destruct (p x); simpl; [|auto].
  constructor; [|auto].
  intros K. apply Hn. apply in_map_iff in K. destruct K as [y [E Hy]].
  apply filter_In in Hy. apply in_map_iff. exists y. tauto.
Qed.

Lemma single_flight_finished tsk q :
  single_flight q -> single_flight (processingFinished tsk q).
Proof. unfold single_flight, processingFinished, pages. apply NoDup_map_filter. Qed.

Lemma single_flight_clear st q :
  single_flight (snd (cancelAndClear st q)).
Proof. constructor. Qed.

End Queue.

Create HintDb queue.

#[local] Hint Resolve single_flight_nil single_flight_add single_flight_take
  single_flight_finished single_flight_clear : queue.

(* ------------------------------------------------------------------ *)
(** ** Feeding the pool *)

Section Refill.

Import ProcessingTaskQueue MainWindow.


Lemma refillLoop_spec (fuel : nat) (q : ProcessingTaskQueue.t) (s : MainWindow.t) :
  (length (pending q) < fuel)%nat ->
  exists q' taken,
    refillLoop fuel q s = Some (q', submitAll taken s) /\
    pending q = taken ++ pending q' /\
    contents q' = contents q /\
    (pending q' = [] \/
     WorkerThreadPool.hasSpareCapacity (m_workerThreadPool (submitAll taken s)) = false).
Proof.
  revert q s. induction fuel as [|fuel IH]; intros q s Hf; [lia|].
  cbn [refillLoop]. destruct (takeForProcessing q) as [[tsk|] q1] eqn:T.
  - pose proof (takeForProcessing_some _ _ _ T) as P. cbn beta iota in P.
    pose proof (takeForProcessing_contents q) as Pg. rewrite T in Pg. cbn [snd] in Pg.
    cbv zeta.
    destruct (WorkerThreadPool.hasSpareCapacity (m_workerThreadPool (submitTask tsk s))) eqn:Cap.
    + destruct (IH q1 (submitTask tsk s)) as [q' [taken [E [E1 [E2 E3]]]]].
      { rewrite P in Hf. cbn [length] in Hf. lia. }
      exists q', (tsk :: taken). split; [exact E|].
      split; [rewrite P, E1; reflexivity|].
      split; [congruence | exact E3].
    + exists q1, [tsk]. split; [reflexivity|].
      split; [exact P|]. split; [exact Pg|]. right. exact Cap.
  - pose proof (takeForProcessing_some _ _ _ T) as [P ->].
    exists q, []. split; [reflexivity|]. rewrite P. auto.
Qed.

Lemma submitLoop_spec (fuel : nat) (tsk : BackgroundTaskPtr)
    (q : ProcessingTaskQueue.t) (s : MainWindow.t) :
  (length (pending q) < fuel)%nat ->
  exists q' taken,
    submitLoop fuel tsk q s = Some (q', submitAll (tsk :: taken) s) /\
    pending q = taken ++ pending q' /\
    contents q' = contents q /\
    (pending q' = [] \/
     WorkerThreadPool.hasSpareCapacity
       (m_workerThreadPool (submitAll (tsk :: taken) s)) = false).
Proof.
  revert tsk q s. induction fuel as [|fuel IH]; intros tsk q s Hf; [lia|].
  cbn [submitLoop]. cbv zeta.
  destruct (WorkerThreadPool.hasSpareCapacity (m_workerThreadPool (submitTask tsk s))) eqn:Cap;
    cbn [negb].
  - destruct (takeForProcessing q) as [[tsk'|] q1] eqn:T.
    + pose proof (takeForProcessing_some _ _ _ T) as P. cbn beta iota in P.
      pose proof (takeForProcessing_contents q) as Pg. rewrite T in Pg. cbn [snd] in Pg.
      destruct (IH tsk' q1 (submitTask tsk s)) as [q' [taken [E [E1 [E2 E3]]]]].
      { rewrite P in Hf. cbn [length] in Hf. lia. }
      exists q', (tsk' :: taken). split; [exact E|].
      split; [rewrite P, E1; reflexivity|].
      split; [congruence | exact E3].
    + pose proof (takeForProcessing_some _ _ _ T) as [P ->].
      exists q, []. split; [reflexivity|]. rewrite P. auto.
  - exists q, []. split; [reflexivity|]. auto.
Qed.


End Refill.

(* ------------------------------------------------------------------ *)
(** ** What the handlers leave untouched *)

Section Frames.

Import ProcessingTaskQueue MainWindow.

Variable env : Collaborators.

Lemma emits_refl P s : emits P s s.
Proof. exists []. rewrite app_nil_r. auto. Qed.

Lemma emits_same_trace P s s' : trace s' = trace s -> emits P s s'.
Proof. intros H. exists []. rewrite app_nil_r. auto. Qed.

Lemma emits_trans P s1 s2 s3 : emits P s1 s2 -> emits P s2 s3 -> emits P s1 s3.
Proof.
  intros [l1 [E1 F1]] [l2 [E2 F2]]. exists (l1 ++ l2).
  rewrite E2, E1, app_assoc, forallb_app, F1, F2. auto.
Qed.

Lemma emits_weaken (P Q : Event -> bool) s s' :
  (forall e, P e = true -> Q e = true) -> emits P s s' -> emits Q s s'.
Proof.
  intros W [l [E F]]. exists l. split; [exact E|].
  rewrite forallb_forall in *. auto.
Qed.

Lemma emits_emit (P : Event -> bool) e s : P e = true -> emits P s (emit e s).
Proof. intros H. exists [e]. simpl. rewrite H. auto. Qed.

Lemma quiet_refl s : quiet_step s s.
Proof. split; [apply emits_refl | auto]. Qed.

Lemma quiet_trans s1 s2 s3 : quiet_step s1 s2 -> quiet_step s2 s3 -> quiet_step s1 s3.
Proof.
  intros [E1 I1] [E2 I2]. split; [eapply emits_trans; eassumption | auto].
Qed.

Lemma quiet_emit e s : routine e = true -> quiet_step s (emit e s).
Proof. intros H. split; [apply emits_emit; exact H | auto]. Qed.

Lemma quiet_setSelection p s : quiet_step s (snd (setSelection p s)).
Proof.
  unfold setSelection.
  destruct (ThumbnailSequence.setSelection p (m_thumbSequence s)) as [found ts].
  split; [exists [SetSelection p found]; auto | auto].
Qed.

Lemma quiet_setSelection_pair p s ok s1 :
  setSelection p s = (ok, s1) -> quiet_step s s1.
Proof. intros H. pose proof (quiet_setSelection p s) as K. rewrite H in K. exact K. Qed.

Lemma quiet_selectRemembered p s : quiet_step s (selectRemembered p s).
Proof.
  unfold selectRemembered.
  destruct (setSelection p s) as [ok1 s1] eqn:E1. apply quiet_setSelection_pair in E1.
  destruct ok1; [exact E1|].
  destruct (setSelection _ s1) as [ok2 s2] eqn:E2. apply quiet_setSelection_pair in E2.
  destruct ok2; [eauto using quiet_trans|].
  destruct (setSelection _ s2) as [ok3 s3] eqn:E3. apply quiet_setSelection_pair in E3.
  destruct ok3; [eauto using quiet_trans|].
  destruct (setSelection _ s3) as [ok4 s4] eqn:E4. apply quiet_setSelection_pair in E4.
  destruct ok4; [eauto using quiet_trans|].
  pose proof (quiet_setSelection
                (PageInfo.id (ThumbnailSequence.firstPage (m_thumbSequence s4))) s4).
  eauto 6 using quiet_trans.
Qed.

Lemma quiet_resetSequence action s s' :
  resetSequence env action s = Some s' -> quiet_step s s'.
Proof.
  intros H. apply resetSequence_spec in H. destruct H as [before [Hb [_ ->]]].
  split.
  - exists before. split; [reflexivity|]. destruct Hb as [[_ ->] | [_ ->]]; reflexivity.
  - auto.
Qed.

Lemma quiet_resetThumbSequence action s s' :
  resetThumbSequence env action s = Some s' -> quiet_step s s'.
Proof.
  rewrite resetThumbSequence_unfold. intros H.
  destruct (resetSequence env action s) as [s1|] eqn:R; [|discriminate].
  apply quiet_resetSequence in R.
  destruct (negb _); injection H as <-; [|exact R].
  eapply quiet_trans; [exact R | apply quiet_selectRemembered].
Qed.

Lemma quiet_interactive_cancelAndClear s : quiet_step s (interactive_cancelAndClear s).
Proof.
  unfold interactive_cancelAndClear, cancelAndClear.
  split; [apply emits_same_trace; reflexivity|].
  intros [_ Hb]. split; [constructor | exact Hb].
Qed.

Lemma quiet_submitTask tsk s : quiet_step s (submitTask tsk s).
Proof. split; [exists [SubmitTask tsk]; auto | auto]. Qed.

Lemma resetSequence_no_stage action s :
  filterAt (m_curFilter s) = None -> resetSequence env action s = None.
Proof.
  intros F. destruct (resetSequence env action s) as [s1|] eqn:R; [|reflexivity].
  apply resetSequence_spec in R. destruct R as [_ [_ [Hf _]]]. contradiction.
Qed.

(** Past its first assertion [loadPageInteractive] is outside batch
    processing, so the current stage is always dereferenced. *)
Lemma loadPageInteractive_unfold page s :
  loadPageInteractive env page s =
  if isBatchProcessingInProgress s then None else
  let s := interactive_cancelAndClear s in
  if isOutputFilter (m_curFilter s)
     && negb (checkReadyForOutput env (m_pages s) (PageInfo.id page))
  then Some (emit OutputNotPossible s)
  else
    match filterAt (m_curFilter s) with
    | None => None
    | Some _ =>
        if negb (m_thumbnailCache s) then None else
        let s := interactive_cancelAndClear s in
        composite <- snd (createCompositeTask page (m_curFilter s) false (m_debug s)) ;;
        let (st, tsk) := alloc (m_store s) composite in
        let s := set_store st s in
        let s := set_interactiveQueue (addProcessingTask page tsk (m_interactiveQueue s)) s in
        let (taken, q) := takeForProcessing (m_interactiveQueue s) in
        let s := set_interactiveQueue q s in
        tsk <- taken ;;
        Some (submitTask tsk s)
    end.
Proof.
  unfold loadPageInteractive.
  destruct (isBatchProcessingInProgress s) eqn:B; [reflexivity|]. cbv zeta.
  assert (B1 : isBatchProcessingInProgress (interactive_cancelAndClear s) = false).
  { revert B. unfold isBatchProcessingInProgress, interactive_cancelAndClear, cancelAndClear.
    project. auto. }
  rewrite B1. cbn [negb].
  destruct (filterAt (m_curFilter (interactive_cancelAndClear s))); reflexivity.
Qed.

Lemma quiet_loadPageInteractive page s s' :
  loadPageInteractive env page s = Some s' -> quiet_step s s'.
Proof.
  rewrite loadPageInteractive_unfold. cbv zeta. intros H.
  destruct (isBatchProcessingInProgress s); [discriminate|].
  pose proof (quiet_interactive_cancelAndClear s) as K1.
  set (s1 := interactive_cancelAndClear s) in *.
  destruct (isOutputFilter (m_curFilter s1) && _).
  { injection H as <-. eapply quiet_trans; [exact K1|]. apply quiet_emit. reflexivity. }
  destruct (filterAt (m_curFilter s1)); [|discriminate].
  destruct (negb (m_thumbnailCache s1)); [discriminate|].
  pose proof (quiet_interactive_cancelAndClear s1) as K2.
  set (s2 := interactive_cancelAndClear s1) in *.
  destruct (snd (createCompositeTask page (m_curFilter s2) false (m_debug s2)))
    as [composite|]; [|discriminate].
  unfold alloc in H. cbv zeta in H.
  match type of H with
  | context [takeForProcessing ?q] =>
      pose proof (single_flight_take q) as Kq;
      destruct (takeForProcessing q) as [[tsk|] q'] eqn:T; [|discriminate]
  end.
  injection H as <-.
  eapply quiet_trans; [exact K1|]. eapply quiet_trans; [exact K2|].
  eapply quiet_trans; [|apply quiet_submitTask].
  split; [apply emits_same_trace; reflexivity|]. intros [_ Hb]. split; [|exact Hb].
  apply Kq. cbn. constructor; [intros []|constructor].
Qed.

Lemma quiet_updateMainArea s s' : updateMainArea env s = Some s' -> quiet_step s s'.
Proof.
  unfold updateMainArea. intros H.
  destruct (Nat.eqb _ 0); [injection H as <-; apply quiet_refl|].
  destruct (isBatchProcessingInProgress s); [injection H as <-; apply quiet_refl|].
  destruct (PageInfo.isNull _); [injection H as <-; apply quiet_refl|].
  eapply quiet_loadPageInteractive; eassumption.
Qed.

Lemma quiet_goToPage p s s' : goToPage env p s = Some s' -> quiet_step s s'.
Proof.
  unfold goToPage. intros H. apply quiet_updateMainArea in H.
  eapply quiet_trans; [apply quiet_setSelection | exact H].
Qed.

Lemma quiet_goFirstPage s s' : goFirstPage env s = Some s' -> quiet_step s s'.
Proof.
  unfold goFirstPage. intros H.
  destruct (_ || _); [injection H as <-; apply quiet_refl|].
  destruct (negb _); [|injection H as <-; apply quiet_refl].
  eapply quiet_goToPage; eassumption.
Qed.

Lemma quiet_stopBatchProcessing area s s' :
  stopBatchProcessing env area s = Some s' -> quiet_step s s'.
Proof.
  unfold stopBatchProcessing. intros H.
  destruct (m_batchQueue s) as [bq|] eqn:B; [|injection H as <-; apply quiet_refl].
  match type of H with
  | context [cancelAndClear (m_store ?s1) bq] =>
      assert (K1 : quiet_step s s1)
        by (destruct (negb _); [apply quiet_setSelection | apply quiet_refl]);
      set (s1' := s1) in *
  end.
  unfold cancelAndClear in H. cbv zeta in H.
  match type of H with
  | context [set_batchQueue None ?s2] =>
      assert (K2 : quiet_step s1' (set_batchQueue None s2))
        by (split; [apply emits_same_trace; reflexivity | intros [Hi _]; split; [exact Hi | exact I]]);
      set (s2' := set_batchQueue None s2) in *
  end.
  destruct area.
  - destruct (updateMainArea env s2') as [s3|] eqn:U; [|discriminate].
    apply quiet_updateMainArea in U. apply quiet_resetThumbSequence in H.
    eauto using quiet_trans.
  - apply quiet_resetThumbSequence in H. eauto using quiet_trans.
Qed.

Lemma resetThumbSequence_events action s s' :
  resetThumbSequence env action s = Some s' ->
  exists l,
    trace s' = trace s ++ l /\ forallb routine l = true /\
    In (ThumbSequenceReset action) l /\
    (m_thumbnailCache s = true ->
     In (SetThumbnailFactory (snd (createCompositeCacheDrivenTask (m_curFilter s)))) l).
Proof.
  rewrite resetThumbSequence_unfold. intros H.
  destruct (resetSequence env action s) as [s1|] eqn:R; [|discriminate].
  pose proof R as R'. apply resetSequence_spec in R'. destruct R' as [before [Hb [_ Es1]]].
  assert (Q : emits routine s1 s').
  { destruct (negb _); injection H as <-; [apply quiet_selectRemembered | apply emits_refl]. }
  destruct Q as [l [El Fl]].
  exists (before ++ l). rewrite El, Es1. cbn [trace]. rewrite app_assoc.
  split; [reflexivity|]. rewrite forallb_app, Fl.
  destruct Hb as [[Hc ->] | [Hc ->]]; cbn; (split; [reflexivity|]); split; auto.
  intros Hc'. congruence.
Qed.

(** The call of the new stage's [selected()] fails exactly when the reset of
    the thumbnail sequence that follows would: the handler is the same without it. *)
Lemma filterSelectionChanged_unfold selected s :
  filterSelectionChanged env selected s =
  if negb (m_ignoreSelectionChanges s =? 0) then Some s else
  match selected with
  | [] => Some s
  | front_top :: _ =>
      let s := interactive_cancelAndClear s in
      let s :=
        match m_batchQueue s with
        | Some bq =>
            let (st, q) := cancelAndClear (m_store s) bq in
            set_batchQueue (Some q) (set_store st s)
        | None => s
        end in
      let was_below_fix_orientation := isBelowFixOrientation (m_curFilter s) in
      let was_below_select_content := isBelowSelectContent (m_curFilter s) in
      let s := set_curFilter front_top s in
      let now_below_fix_orientation := isBelowFixOrientation (m_curFilter s) in
      let now_below_select_content := isBelowSelectContent (m_curFilter s) in
      let s :=
        if negb was_below_select_content && now_below_select_content then
          if m_contentBoxPropagator s then emit (Propagate ContentBox) s else s
        else s in
      let s :=
        if negb was_below_fix_orientation && now_below_fix_orientation then
          if m_pageOrientationPropagator s then emit (Propagate PageOrientation) s else s
        else s in
      s <- resetThumbSequence env ThumbnailSequence.KEEP_SELECTION s ;;
      updateMainArea env s
  end.
Proof.
  unfold filterSelectionChanged.
  destruct (negb _); [reflexivity|]. destruct selected as [|top rest]; [reflexivity|].
  cbv zeta.
  set (s1 := match m_batchQueue (interactive_cancelAndClear s) with
             | Some bq =>
                 let (st, q) := cancelAndClear (m_store (interactive_cancelAndClear s)) bq in
                 set_batchQueue (Some q) (set_store st (interactive_cancelAndClear s))
             | None => interactive_cancelAndClear s
             end).
  clearbody s1. destruct s1 as [st pg pool iq bq ts cache cbp pop sel cf ign dbg out tr].
  project. destruct (filterAt top) eqn:F; [reflexivity|].
  rewrite resetThumbSequence_unfold, resetSequence_no_stage; [reflexivity|].
  destruct (_ && _), (_ && _), cbp, pop; exact F.
Qed.

(** The events of a change of the selected stage, and what it does to the
    queues. *)
Lemma filterSelectionChanged_events top rest s s' :
  m_ignoreSelectionChanges s = 0 ->
  filterSelectionChanged env (top :: rest) s = Some s' ->
  exists after,
    trace s' = trace s
      ++ (if negb (isBelowSelectContent (m_curFilter s)) && isBelowSelectContent top
             && m_contentBoxPropagator s
          then [Propagate ContentBox] else [])
      ++ (if negb (isBelowFixOrientation (m_curFilter s)) && isBelowFixOrientation top
             && m_pageOrientationPropagator s
          then [Propagate PageOrientation] else [])
      ++ after /\
    forallb routine after = true /\
    In (ThumbSequenceReset ThumbnailSequence.KEEP_SELECTION) after /\
    (m_thumbnailCache s = true ->
     In (SetThumbnailFactory (snd (createCompositeCacheDrivenTask top))) after) /\
    queues_single_flight s'.
Proof.
  intros G H. rewrite filterSelectionChanged_unfold in H. rewrite G in H. cbn [Z.eqb negb] in H.
  cbv zeta in H.
  set (s1 := match m_batchQueue (interactive_cancelAndClear s) with
             | Some bq =>
                 let (st, q) := cancelAndClear (m_store (interactive_cancelAndClear s)) bq in
                 set_batchQueue (Some q) (set_store st (interactive_cancelAndClear s))
             | None => interactive_cancelAndClear s
             end) in *.
  assert (F1 : trace s1 = trace s /\ m_curFilter s1 = m_curFilter s /\
               m_contentBoxPropagator s1 = m_contentBoxPropagator s /\
               m_pageOrientationPropagator s1 = m_pageOrientationPropagator s /\
               m_thumbnailCache s1 = m_thumbnailCache s /\
               m_interactiveQueue s1 = [] /\
               (m_batchQueue s1 = None \/ m_batchQueue s1 = Some [])).
  { subst s1. destruct (m_batchQueue (interactive_cancelAndClear s)) eqn:B; cbn; auto 10. }
  destruct F1 as [Ft [Fc [Fp1 [Fp2 [Fth [Fi Fb]]]]]].
  rewrite Fc in H.
  set (cross_sc := negb (isBelowSelectContent (m_curFilter s)) && isBelowSelectContent top) in *.
  set (cross_fo := negb (isBelowFixOrientation (m_curFilter s)) && isBelowFixOrientation top) in *.
  cbn [m_curFilter set_curFilter] in H. fold cross_sc cross_fo in H.
  set (s2 := set_curFilter top s1) in *.
  set (s3 := if cross_sc then if m_contentBoxPropagator s2 then emit (Propagate ContentBox) s2 else s2
             else s2) in *.
  set (s4 := if cross_fo then if m_pageOrientationPropagator s3 then emit (Propagate PageOrientation) s3 else s3
             else s3) in *.
  assert (F4 : trace s4 = trace s
                 ++ (if cross_sc && m_contentBoxPropagator s then [Propagate ContentBox] else [])
                 ++ (if cross_fo && m_pageOrientationPropagator s then [Propagate PageOrientation] else [])
               /\ m_curFilter s4 = top /\ m_thumbnailCache s4 = m_thumbnailCache s /\
               m_interactiveQueue s4 = m_interactiveQueue s1 /\
               m_batchQueue s4 = m_batchQueue s1).
  { subst s4 s3 s2. rewrite <- Fp1, <- Fp2, <- Ft, <- Fth.
    clear. clearbody cross_sc cross_fo s1.
    destruct s1 as [? ? ? ? bq ? ? p1 p2 ? ? ? ? ? ?]; cbn in *.
    destruct cross_sc, cross_fo, p1, p2; cbn; rewrite ?app_nil_r, <- ?app_assoc; auto. }
  destruct F4 as [Gt [Gc [Gth [Gi Gb]]]]. rewrite Fi in Gi. rewrite <- Gb in Fb.
  clear Gb. rename Fb into Gb.
  destruct (resetThumbSequence env ThumbnailSequence.KEEP_SELECTION s4) as [s5|] eqn:R;
    [|discriminate].
  pose proof (quiet_resetThumbSequence _ _ _ R) as [_ QR].
  apply resetThumbSequence_events in R. destruct R as [l1 [E1 [R1 [R2 R3]]]].
  pose proof (quiet_updateMainArea _ _ H) as [[l2 [E2 U2]] QU].
  exists (l1 ++ l2). rewrite E2, E1, Gt, <- !app_assoc.
  split; [reflexivity|]. rewrite forallb_app, R1, U2.
  split; [reflexivity|]. split; [apply in_or_app; auto|].
  split.
  - intros Hc. apply in_or_app. left. rewrite Gc in R3. apply R3. congruence.
  - apply QU, QR. split; [rewrite Gi; constructor|].
    destruct Gb as [-> | ->]; [exact I | constructor].
Qed.

(** C7.  When the selected stage changes (the handler is not suppressed,
    the selection is not empty) in a window that has its propagators, the
    content-box propagator runs exactly when the old stage is not below
    select-content and the new one is, the orientation propagator exactly
    when the old stage is not below fix-orientation and the new one is, and
    whatever runs of the two runs before the new thumbnail factory is set and
    the thumbnail sequence is reset. *)
Theorem propagators_run_on_crossing_before_reset (top : Z) (rest : list Z)
    (s s' : MainWindow.t) :
  m_ignoreSelectionChanges s = 0 ->
  m_contentBoxPropagator s = true ->
  m_pageOrientationPropagator s = true ->
  filterSelectionChanged env (top :: rest) s = Some s' ->
  exists propagated after,
    trace s' = trace s ++ propagated ++ after /\
    (In (Propagate ContentBox) (propagated ++ after) <->
     isBelowSelectContent (m_curFilter s) = false /\ isBelowSelectContent top = true) /\
    (In (Propagate PageOrientation) (propagated ++ after) <->
     isBelowFixOrientation (m_curFilter s) = false /\ isBelowFixOrientation top = true) /\
    forallb is_Propagate propagated = true /\
    forallb (fun e => negb (is_Propagate e)) after = true /\
    In (ThumbSequenceReset ThumbnailSequence.KEEP_SELECTION) after /\
    (m_thumbnailCache s = true ->
     In (SetThumbnailFactory (snd (createCompositeCacheDrivenTask top))) after).
Proof.
  intros G P1 P2 H.
  destruct (filterSelectionChanged_events _ _ _ _ G H) as [after [E [Fa [R1 [R2 _]]]]].
  rewrite P1, P2, !andb_true_r in E.
  eexists (_ ++ _), after. rewrite <- app_assoc. split; [exact E|].
  assert (Na : forall p, ~ In (Propagate p) after).
  { intros p K. rewrite forallb_forall in Fa. apply Fa in K. discriminate. }
  assert (Fa' : forallb (fun e => negb (is_Propagate e)) after = true).
  { rewrite forallb_forall in *. intros e K. apply Fa in K. destruct e; auto; discriminate. }
  split; [|split; [|split; [|split; [exact Fa' | split; [exact R1 | exact R2]]]]].
  - destruct (isBelowSelectContent (m_curFilter s)), (isBelowSelectContent top),
      (isBelowFixOrientation (m_curFilter s)), (isBelowFixOrientation top);
      cbn; (split; [intros K | intros [K1 K2]]); try discriminate; auto;
      repeat (destruct K as [K | K]; try discriminate); destruct (Na _ K).
  - destruct (isBelowSelectContent (m_curFilter s)), (isBelowSelectContent top),
      (isBelowFixOrientation (m_curFilter s)), (isBelowFixOrientation top);
      cbn; (split; [intros K | intros [K1 K2]]); try discriminate; auto;
      repeat (destruct K as [K | K]; try discriminate); destruct (Na _ K).
  - destruct (negb _ && isBelowSelectContent top), (negb _ && isBelowFixOrientation top);
      reflexivity.
Qed.

(** Without propagators (no project loaded) a change of stage propagates
    nothing. *)
Lemma no_propagator_no_propagation (top : Z) (rest : list Z) (s s' : MainWindow.t) :
  m_ignoreSelectionChanges s = 0 ->
  m_contentBoxPropagator s = false ->
  m_pageOrientationPropagator s = false ->
  filterSelectionChanged env (top :: rest) s = Some s' ->
  emits routine s s'.
Proof.
  intros G P1 P2 H.
  destruct (filterSelectionChanged_events _ _ _ _ G H) as [after [E [Fa _]]].
  rewrite P1, P2, !andb_false_r in E. exists after. auto.
Qed.

(** A suppressed handler, or an empty selection, changes nothing. *)
Lemma filterSelectionChanged_suppressed (selected : list Z) (s : MainWindow.t) :
  m_ignoreSelectionChanges s <> 0 ->
  filterSelectionChanged env selected s = Some s.
Proof.
  intros G. rewrite filterSelectionChanged_unfold.
  destruct (m_ignoreSelectionChanges s =? 0) eqn:E; [apply Z.eqb_eq in E; contradiction|].
  reflexivity.
Qed.

Lemma routine_not_ProcessingFinished e : routine e = true -> not_ProcessingFinished e = true.
Proof. destruct e; auto; discriminate. Qed.

Lemma delivery_refl s : delivery_step s s.
Proof. split; [apply emits_refl | auto]. Qed.

Lemma delivery_trans s1 s2 s3 :
  delivery_step s1 s2 -> delivery_step s2 s3 -> delivery_step s1 s3.
Proof.
  intros [E1 I1] [E2 I2]. split; [eapply emits_trans; eassumption | auto].
Qed.

Lemma quiet_delivery s s' : quiet_step s s' -> delivery_step s s'.
Proof.
  intros [E I]. split; [|exact I].
  eapply emits_weaken; [apply routine_not_ProcessingFinished | exact E].
Qed.

Lemma delivery_filterSelectionChanged selected s s' :
  filterSelectionChanged env selected s = Some s' -> delivery_step s s'.
Proof.
  intros H.
  destruct (Z.eq_dec (m_ignoreSelectionChanges s) 0) as [G | G].
  - destruct selected as [|top rest].
    + rewrite filterSelectionChanged_unfold in H. rewrite G in H. injection H as <-.
      apply delivery_refl.
    + destruct (filterSelectionChanged_events _ _ _ _ G H) as [after [E [Fa [_ [_ Q]]]]].
      split; [|auto]. eexists. split; [exact E|].
      rewrite !forallb_app.
      rewrite forallb_forall in Fa.
      assert (Fa' : forallb not_ProcessingFinished after = true).
      { apply forallb_forall. intros e K. apply routine_not_ProcessingFinished. auto. }
      rewrite Fa'. destruct (_ && _ && _), (_ && _ && _); reflexivity.
  - rewrite filterSelectionChanged_suppressed in H by exact G.
    injection H as <-. apply delivery_refl.
Qed.

Lemma quiet_refillLoop fuel q s q' s' :
  refillLoop fuel q s = Some (q', s') -> pages q' = pages q /\ quiet_step s s'.
Proof.
  revert q s. induction fuel as [|fuel IH]; intros q s H; [discriminate|].
  cbn [refillLoop] in H.
  pose proof (takeForProcessing_pages q) as Pg.
  destruct (takeForProcessing q) as [[tsk|] q1]; cbn [snd] in Pg.
  - cbv zeta in H.
    destruct (WorkerThreadPool.hasSpareCapacity (m_workerThreadPool (submitTask tsk s))).
    + apply IH in H. destruct H as [H1 H2]. split; [congruence|].
      eapply quiet_trans; [apply quiet_submitTask | exact H2].
    + injection H as <- <-. split; [exact Pg | apply quiet_submitTask].
  - injection H as <- <-. split; [exact Pg | apply quiet_refl].
Qed.

Lemma quiet_submitLoop fuel tsk q s q' s' :
  submitLoop fuel tsk q s = Some (q', s') -> pages q' = pages q /\ quiet_step s s'.
Proof.
  revert tsk q s. induction fuel as [|fuel IH]; intros tsk q s H; [discriminate|].
  cbn [submitLoop] in H. cbv zeta in H.
  destruct (negb (WorkerThreadPool.hasSpareCapacity (m_workerThreadPool (submitTask tsk s)))).
  - injection H as <- <-. split; [reflexivity | apply quiet_submitTask].
  - pose proof (takeForProcessing_pages q) as Pg.
    destruct (takeForProcessing q) as [[tsk'|] q1]; cbn [snd] in Pg.
    + apply IH in H. destruct H as [H1 H2]. split; [congruence|].
      eapply quiet_trans; [apply quiet_submitTask | exact H2].
    + injection H as <- <-. split; [exact Pg | apply quiet_submitTask].
Qed.

Lemma quiet_set_batchQueue q s :
  single_flight q -> quiet_step s (set_batchQueue (Some q) s).
Proof.
  intros Hq. split; [apply emits_same_trace; reflexivity|]. intros [Hi _]. split; assumption.
Qed.

Lemma curFilter_setSelection_pair p s ok s1 :
  setSelection p s = (ok, s1) -> m_curFilter s1 = m_curFilter s.
Proof.
  unfold setSelection.
  destruct (ThumbnailSequence.setSelection p (m_thumbSequence s)) as [found ts].
  intros H. injection H as _ <-. reflexivity.
Qed.

Lemma curFilter_selectRemembered p s : m_curFilter (selectRemembered p s) = m_curFilter s.
Proof.
  unfold selectRemembered.
  destruct (setSelection p s) as [ok1 s1] eqn:E1. apply curFilter_setSelection_pair in E1.
  destruct ok1; [exact E1|].
  destruct (setSelection _ s1) as [ok2 s2] eqn:E2. apply curFilter_setSelection_pair in E2.
  destruct ok2; [congruence|].
  destruct (setSelection _ s2) as [ok3 s3] eqn:E3. apply curFilter_setSelection_pair in E3.
  destruct ok3; [congruence|].
  destruct (setSelection _ s3) as [ok4 s4] eqn:E4. apply curFilter_setSelection_pair in E4.
  destruct ok4; [congruence|].
  destruct (setSelection (PageInfo.id (ThumbnailSequence.firstPage (m_thumbSequence s4))) s4)
    as [ok5 s5] eqn:E5.
  apply curFilter_setSelection_pair in E5. cbn [snd]. congruence.
Qed.

(** A window whose thumbnail sequence has just been reset is on a stage
    that exists: the reset asked that stage for its view. *)
Lemma resetThumbSequence_stage action s s' :
  resetThumbSequence env action s = Some s' ->
  m_curFilter s' = m_curFilter s /\ filterAt (m_curFilter s) <> None.
Proof.
  rewrite resetThumbSequence_unfold. intros H.
  destruct (resetSequence env action s) as [s1|] eqn:R; [|discriminate].
  apply resetSequence_spec in R. destruct R as [before [_ [Hf R]]].
  assert (K : m_curFilter s1 = m_curFilter s) by (rewrite R; reflexivity).
  split; [|exact Hf].
  destruct (negb _); injection H as <-; [|exact K].
  rewrite curFilter_selectRemembered. exact K.
Qed.

Lemma stopBatchProcessing_stage main_area bq s s' :
  m_batchQueue s = Some bq ->
  stopBatchProcessing env main_area s = Some s' ->
  filterAt (m_curFilter s') <> None.
Proof.
  intros B H. unfold stopBatchProcessing in H. rewrite B in H. cbv zeta in H.
  destruct (cancelAndClear _ bq) as [st q].
  match type of H with
  | match ?c with Some _ => _ | None => None end = _ => destruct c as [s2|]; [|discriminate]
  end.
  apply resetThumbSequence_stage in H. destruct H as [-> H]. exact H.
Qed.

Lemma filterResult_unfold fuel tsk result s :
  filterResult env fuel tsk result s
  = let s := finished tsk s in
    if isCancelled (m_store s) tsk then Some s else
    s <- (if negb (isBatchProcessingInProgress s) then
            match filter result with
            | None => Some s
            | Some f =>
                if match filterAt (m_curFilter s) with
                   | Some g => negb (Stage_eqb f g)
                   | None => true
                   end
                then
                  let idx := findFilter f in
                  if idx <? 0 then None else
                  let s := set_curFilter idx s in
                  let s := set_ignoreSelectionChanges (m_ignoreSelectionChanges s + 1) s in
                  let s := emit (SelectRow idx) s in
                  s <- filterSelectionChanged env [idx] s ;;
                  Some (set_ignoreSelectionChanges (m_ignoreSelectionChanges s - 1) s)
                else Some s
            end
          else Some s) ;;
    let s := emit (UpdateUI result) s in
    match m_batchQueue s with
    | None => Some s
    | Some bq =>
        if allProcessed bq then
          s <- stopBatchProcessing env (default_main_area env) s ;;
          let s := emit Alert s in
          if PageId.eqb (m_selectedPage s (getView env (m_curFilter s)))
               (PageInfo.id (ThumbnailSequence.lastPage (m_thumbSequence s)))
          then goFirstPage env s
          else Some s
        else
          looped <- refillLoop fuel bq s ;;
          let s := set_batchQueue (Some (fst looped)) (snd looped) in
          let page := selectedPage env (fst looped) in
          Some (if negb (PageInfo.isNull page)
                then snd (setSelection (PageInfo.id page) s) else s)
    end.
Proof.
  unfold filterResult. cbv zeta.
  match goal with
  | |- context [isCancelled (m_store ?x) tsk] =>
      assert (E : x = finished tsk s)
  end.
  { unfold finished. destruct s as [? ? ? ? [bq|] ? ? ? ? ? ? ? ? ? ?];
      unfold emit, set_batchQueue, set_interactiveQueue; cbn.
    - rewrite <- app_assoc. reflexivity.
    - reflexivity. }
  rewrite E. set (s0 := finished tsk s). clearbody s0. clear E.
  destruct (isCancelled (m_store s0) tsk); [reflexivity|].
  match goal with
  | |- match ?c with Some _ => _ | None => None end = _ => destruct c as [s1|]; [|reflexivity]
  end.
  destruct (m_batchQueue (emit (UpdateUI result) s1)) as [bq|] eqn:B; [|reflexivity].
  destruct (allProcessed bq); [|reflexivity].
  destruct (stopBatchProcessing env (default_main_area env) (emit (UpdateUI result) s1))
    as [s3|] eqn:S; [|reflexivity].
  apply stopBatchProcessing_stage with (bq := bq) in S; [|exact B].
  unfold getCurrentView. project.
  destruct (filterAt (m_curFilter s3)); [reflexivity | contradiction].
Qed.

Lemma differs_from_selected (cur : Z) (f : Stage) :
  filterAt cur <> Some f ->
  match filterAt cur with
  | Some g => negb (Stage_eqb f g)
  | None => true
  end = true.
Proof.
  intros H. destruct (filterAt cur) as [g|]; [|reflexivity].
  destruct (Stage_eqb f g) eqn:E; [|reflexivity].
  apply Stage_eqb_eq in E. subst. contradiction.
Qed.

Lemma filterResult_cancelled fuel tsk result s :
  isCancelled (m_store s) tsk = true ->
  filterResult env fuel tsk result s = Some (finished tsk s).
Proof.
  rewrite filterResult_unfold. cbv zeta.
  change (m_store (finished tsk s)) with (m_store s).
  intros ->. reflexivity.
Qed.

Lemma filterResult_delivery fuel tsk result s s' :
  filterResult env fuel tsk result s = Some s' -> delivery_step (finished tsk s) s'.
Proof.
  rewrite filterResult_unfold. cbv zeta.
  change (m_store (finished tsk s)) with (m_store s).
  intros H.
  destruct (isCancelled (m_store s) tsk); [injection H as <-; apply delivery_refl|].
  set (s1 := finished tsk s) in *. clearbody s1.
  match type of H with
  | (match ?redirect with Some _ => _ | None => None end) = _ =>
      destruct redirect as [s2|] eqn:R; [|discriminate]
  end.
  assert (D12 : delivery_step s1 s2).
  { destruct (negb (isBatchProcessingInProgress s1)); [|injection R as <-; apply delivery_refl].
    destruct (filter result) as [f|]; [|injection R as <-; apply delivery_refl].
    destruct (match filterAt (m_curFilter s1) with Some g => negb (Stage_eqb f g) | None => true end);
      [|injection R as <-; apply delivery_refl].
    cbv zeta in R. destruct (findFilter f <? 0); [discriminate|].
    match type of R with
    | (match filterSelectionChanged env _ ?x with Some _ => _ | None => None end) = _ =>
        destruct (filterSelectionChanged env [findFilter f] x) as [s3|] eqn:F; [|discriminate];
        assert (D1 : delivery_step s1 x)
          by (split; [exists [SelectRow (findFilter f)]; auto | auto])
    end.
    injection R as <-. apply delivery_filterSelectionChanged in F.
    eapply delivery_trans; [exact D1|]. eapply delivery_trans; [exact F|].
    split; [apply emits_same_trace; reflexivity | auto]. }
  eapply delivery_trans; [exact D12|]. clear D12 R. cbv zeta in H.
  assert (D2 : delivery_step s2 (emit (UpdateUI result) s2))
    by (split; [apply emits_emit; reflexivity | auto]).
  eapply delivery_trans; [exact D2|]. clear D2.
  set (s3 := emit (UpdateUI result) s2) in *. clearbody s3.
  destruct (m_batchQueue s3) as [bq|] eqn:B; [|injection H as <-; apply delivery_refl].
  destruct (allProcessed bq).
  + destruct (stopBatchProcessing env (default_main_area env) s3) as [s4|] eqn:St; [|discriminate].
    apply quiet_stopBatchProcessing, quiet_delivery in St.
    eapply delivery_trans; [exact St|].
    assert (D4 : delivery_step s4 (emit Alert s4))
      by (split; [apply emits_emit; reflexivity | auto]).
    eapply delivery_trans; [exact D4|].
    destruct (PageId.eqb _ _); [|injection H as <-; apply delivery_refl].
    apply quiet_goFirstPage, quiet_delivery in H. exact H.
  + destruct (refillLoop fuel bq s3) as [[q' s4]|] eqn:L; [|discriminate].
    apply quiet_refillLoop in L. destruct L as [Pg [Le Li]]. cbn [fst snd] in H.
    injection H as <-.
    assert (D : delivery_step s3 (set_batchQueue (Some q') s4)).
    { split.
      - eapply emits_weaken; [apply routine_not_ProcessingFinished|].
        eapply emits_trans; [exact Le|]. apply emits_same_trace. reflexivity.
      - intros I3. destruct (Li I3) as [Hi _]. split; [exact Hi|].
        cbn. unfold single_flight. rewrite Pg.
        destruct I3 as [_ I3]. rewrite B in I3. exact I3. }
    eapply delivery_trans; [exact D|].
    destruct (negb _); [apply quiet_delivery, quiet_setSelection | apply delivery_refl].
Qed.

Lemma finished_single_flight tsk s :
  queues_single_flight s -> queues_single_flight (finished tsk s).
Proof.
  intros [Hi Hb]. split; cbn.
  - auto with queue.
  - destruct (m_batchQueue s); cbn; auto with queue.
Qed.

Lemma filterResult_single_flight fuel tsk result s s' :
  filterResult env fuel tsk result s = Some s' ->
  queues_single_flight s -> queues_single_flight s'.
Proof.
  intros H I. apply filterResult_delivery in H.
  apply H. apply finished_single_flight. exact I.
Qed.

Lemma filterResult_redirect fuel tsk result s f :
  m_batchQueue s = None ->
  m_ignoreSelectionChanges s <> -1 ->
  isCancelled (m_store s) tsk = false ->
  filter result = Some f ->
  filterAt (m_curFilter s) <> Some f ->
  filterResult env fuel tsk result s
  = Some (mk (m_store s) (m_pages s) (m_workerThreadPool s)
             (processingFinished tsk (m_interactiveQueue s)) None
             (m_thumbSequence s) (m_thumbnailCache s) (m_contentBoxPropagator s)
             (m_pageOrientationPropagator s) (m_selectedPage s) (findFilter f)
             (m_ignoreSelectionChanges s) (m_debug s) (outDirIsEmpty s)
             (trace s ++ [ProcessingFinished InteractiveQueue tsk;
                          SelectRow (findFilter f);
                          UpdateUI result])).
Proof.
  intros B G C F D.
  rewrite filterResult_unfold.
  destruct s as [st pg pool iq bq ts tc p1 p2 sel cur ign dbg od tr].
  cbn [m_batchQueue m_ignoreSelectionChanges m_store m_curFilter] in B, G, C, D.
  subst bq. unfold finished. project. cbv zeta. project. rewrite C.
  unfold isBatchProcessingInProgress. project. rewrite F.
  rewrite (differs_from_selected _ _ D).
  assert (Hidx : (findFilter f <? 0) = false) by (destruct f; reflexivity).
  rewrite Hidx.
  unfold emit at 2, set_ignoreSelectionChanges at 2, set_curFilter. project.
  rewrite filterSelectionChanged_suppressed
    by (unfold emit, set_ignoreSelectionChanges; project; lia).
  unfold emit, set_ignoreSelectionChanges. project.
  rewrite Z.add_simpl_r, <- !app_assoc. reflexivity.
Qed.

End Frames.

(** C8 as stated fails during batch processing: the page-split stage
    reports a failure for a page of the batch while the deskew stage is
    selected, the result is delivered, and the deskew stage stays
    selected. *)
Lemma focus_not_redirected_in_batch :
  ~ redirects_focus Example.env 4 0%nat Example.page_split_result Example.batch_window.
Proof.
  intros K.
  assert (E : exists s',
             MainWindow.filterResult Example.env 4 0%nat Example.page_split_result
               Example.batch_window = Some s' /\
             MainWindow.m_curFilter s' = deskewFilterIdx).
  { eexists. split; [vm_compute; reflexivity | reflexivity]. }
  destruct E as [s' [E C]].
  destruct (K PageSplit s' eq_refl eq_refl ltac:(vm_compute; discriminate) E) as [K1 _].
  rewrite C in K1. discriminate.
Qed.

(* ------------------------------------------------------------------ *)
(** ** Filling the batch queue *)

Lemma last_default {A} (l : list A) (d d' : A) : l <> [] -> last l d = last l d'.
Proof.
  induction l as [|a l IH]; intros H; [contradiction|].
  destruct l as [|b l]; [reflexivity|]. cbn [last] in *. apply IH. discriminate.
Qed.

Lemma last_cons {A} (a d : A) (l : list A) : last (a :: l) d = last l a.
Proof.
  destruct l as [|b l]; [reflexivity|].
  change (last (a :: b :: l) d) with (last (b :: l) d). apply last_default. discriminate.
Qed.

Section Batch.

Import ProcessingTaskQueue MainWindow.

Variable env : Collaborators.

Lemma successor_after (first : PageInfo.t) (pre suf : list PageInfo.t) (x : PageInfo.t) :
  NoDup (map PageInfo.id (pre ++ x :: suf)) ->
  ThumbnailSequence.successor first (pre ++ x :: suf) (PageInfo.id x) = hd first suf.
Proof.
  induction pre as [|a pre IH]; simpl; intros H.
  - rewrite PageId_eqb_refl. reflexivity.
  - inversion H as [|? ? Hn Hr]; subst.
    destruct (PageId.eqb (PageInfo.id a) (PageInfo.id x)) eqn:E; [|auto].
    apply PageId_eqb_eq in E. exfalso. apply Hn. rewrite E, map_app. simpl.
    apply in_or_app. right. left. reflexivity.
Qed.

(** [nextPage] on a page of a sequence without repetition. *)
Lemma nextPage_after (ts : ThumbnailSequence.t) (pre suf : list PageInfo.t) (x : PageInfo.t) :
  NoDup (map PageInfo.id (ThumbnailSequence.items ts)) ->
  ThumbnailSequence.items ts = pre ++ x :: suf ->
  ThumbnailSequence.nextPage ts (PageInfo.id x)
  = if PageId.eqb (PageInfo.id (hd (ThumbnailSequence.firstPage ts) suf))
         (PageInfo.id (ThumbnailSequence.m_selectionLeader ts))
    then PageInfo.null else hd (ThumbnailSequence.firstPage ts) suf.
Proof.
  intros Hnd Hit. unfold ThumbnailSequence.nextPage. cbv zeta.
  rewrite Hit in Hnd. rewrite Hit, (successor_after _ _ _ _ Hnd). reflexivity.
Qed.

Lemma leader_not_elsewhere (before after : list PageInfo.t) (L : PageInfo.t) :
  NoDup (map PageInfo.id (before ++ L :: after)) ->
  forall y, In y (before ++ after) -> PageInfo.id y <> PageInfo.id L.
Proof.
  intros H y Hy E. rewrite map_app in H. cbn [map] in H. apply NoDup_remove_2 in H.
  apply H. rewrite <- E, <- map_app. apply in_map. exact Hy.
Qed.

(** Inside the sequence [nextPage] steps from a page to the one after it,
    as long as that one is not the selection leader. *)
Lemma walks_segment (ts : ThumbnailSequence.t) :
  well_formed_sequence ts ->
  forall seg pre x suf tail,
    ThumbnailSequence.items ts = pre ++ x :: seg ++ suf ->
    (forall y, In y seg ->
       PageInfo.id y <> PageInfo.id (ThumbnailSequence.m_selectionLeader ts)) ->
    walks (ThumbnailSequence.nextPage ts)
      (ThumbnailSequence.nextPage ts (PageInfo.id (last seg x))) tail ->
    walks (ThumbnailSequence.nextPage ts) x (x :: seg ++ tail).
Proof.
  intros [Hnd Hnn] seg. induction seg as [|y seg IH]; intros pre x suf tail Hit Hseg Ht.
  - cbn [app walks last] in *. split; [reflexivity|]. split; [|exact Ht].
    rewrite Forall_forall in Hnn. apply Hnn. rewrite Hit.
    apply in_or_app. right. left. reflexivity.
  - cbn [app walks]. split; [reflexivity|]. split.
    + rewrite Forall_forall in Hnn. apply Hnn. rewrite Hit.
      apply in_or_app. right. left. reflexivity.
    + rewrite (nextPage_after ts pre (y :: seg ++ suf) x Hnd Hit). cbn [hd].
      destruct (PageId.eqb (PageInfo.id y)
                  (PageInfo.id (ThumbnailSequence.m_selectionLeader ts))) eqn:E.
      { apply PageId_eqb_eq in E. exfalso. apply (Hseg y); [left; reflexivity | exact E]. }
      apply (IH (pre ++ [x]) y suf tail).
      * rewrite <- app_assoc. exact Hit.
      * intros z Hz. apply Hseg. right. exact Hz.
      * rewrite last_cons in Ht. exact Ht.
Qed.

(** After the page that precedes the selection leader, or the last page of
    a sequence that starts with the leader, [nextPage] answers with the
    null page: the round is complete. *)
Lemma nextPage_round_complete (ts : ThumbnailSequence.t) (pre suf : list PageInfo.t)
    (x : PageInfo.t) :
  NoDup (map PageInfo.id (ThumbnailSequence.items ts)) ->
  ThumbnailSequence.items ts = pre ++ x :: suf ->
  hd (ThumbnailSequence.firstPage ts) suf = ThumbnailSequence.m_selectionLeader ts ->
  ThumbnailSequence.nextPage ts (PageInfo.id x) = PageInfo.null.
Proof.
  intros Hnd Hit Hl. rewrite (nextPage_after ts pre suf x Hnd Hit), Hl, PageId_eqb_refl.
  reflexivity.
Qed.

(** Started on the selection leader [L], the loop over [nextPage] visits
    [L], the pages after it and then the pages before it, and stops. *)
Lemma nextPage_walks_round (ts : ThumbnailSequence.t) (before after : list PageInfo.t)
    (L : PageInfo.t) :
  well_formed_sequence ts ->
  ThumbnailSequence.items ts = before ++ L :: after ->
  ThumbnailSequence.selectionLeader ts = L ->
  walks (ThumbnailSequence.nextPage ts) L (L :: after ++ before).
Proof.
  intros W Hit HL. pose proof W as [Hnd Hnn].
  unfold ThumbnailSequence.selectionLeader in HL.
  pose proof (leader_not_elsewhere before after L) as Hne.
  rewrite <- Hit in Hne. specialize (Hne Hnd).
  assert (Hlast : L :: after = removelast (L :: after) ++ [last after L]).
  { rewrite <- (last_cons L L after). apply app_removelast_last. discriminate. }
  apply (walks_segment ts W after before L [] before).
  - rewrite app_nil_r. exact Hit.
  - intros y Hy. rewrite HL. apply Hne. apply in_or_app. right. exact Hy.
  - destruct before as [|b bs].
    + cbn [walks].
      rewrite (nextPage_round_complete ts (removelast (L :: after)) [] (last after L) Hnd).
      * reflexivity.
      * rewrite Hit. cbn [app]. exact Hlast.
      * cbn [hd]. unfold ThumbnailSequence.firstPage. rewrite Hit, HL. reflexivity.
    + assert (Hb : PageInfo.id b <> PageInfo.id L).
      { apply Hne. left. reflexivity. }
      rewrite (nextPage_after ts ((b :: bs) ++ removelast (L :: after)) [] (last after L) Hnd).
      2:{ rewrite Hit, <- app_assoc. f_equal. exact Hlast. }
      cbn [hd]. unfold ThumbnailSequence.firstPage at 1 2. rewrite Hit. cbn [app hd].
      rewrite HL. apply PageId_eqb_neq in Hb. rewrite Hb.
      replace (b :: bs) with (b :: bs ++ []) by (rewrite app_nil_r; reflexivity).
      assert (Hbl : b :: bs = removelast (b :: bs) ++ [last bs b]).
      { rewrite <- (last_cons b b bs). apply app_removelast_last. discriminate. }
      apply (walks_segment ts W bs [] b (L :: after) []).
      * exact Hit.
      * intros y Hy. rewrite HL. apply Hne. right. apply in_or_app. left. exact Hy.
      * cbn [walks].
        rewrite (nextPage_round_complete ts (removelast (b :: bs)) (L :: after)
                   (last bs b) Hnd).
        -- reflexivity.
        -- rewrite Hit.
           change ((b :: bs) ++ L :: after) with ((b :: bs) ++ [] ++ L :: after).
           rewrite Hbl at 1. rewrite <- app_assoc. reflexivity.
        -- cbn [hd]. symmetry. exact HL.
Qed.

Lemma hasPage_app q1 q2 p : hasPage (q1 ++ q2) p = hasPage q1 p || hasPage q2 p.
Proof. unfold hasPage. apply existsb_app. Qed.

Lemma batchEntries_contents first l :
  map pageInfo (batchEntries first l) = l /\
  pending (batchEntries first l) = map task (batchEntries first l) /\
  map task (batchEntries first l) = seq first (length l).
Proof.
  revert first. induction l as [|p rest IH]; intros first; simpl; [auto|].
  destruct (IH (S first)) as [E1 [E2 E3]]. rewrite pending_cons. simpl.
  rewrite E1, E2, E3. auto.
Qed.

(** The loop that fills the batch queue enqueues the pages it walks
    through, one fresh task for each, in the order of the walk. *)
Lemma enqueueBatchWith_walks (nextPage : PageId.t -> PageInfo.t) (cur_filter : Z)
    (debug : bool) :
  0 <= cur_filter ->
  forall run page fuel st q,
    walks nextPage page run ->
    NoDup (map PageInfo.id run) ->
    (forall p, In p run -> hasPage q (PageInfo.id p) = false) ->
    (length run < fuel)%nat ->
    exists st',
      enqueueBatchWith nextPage fuel cur_filter debug page st q
      = Some (st', q ++ batchEntries (length st) run) /\
      length st' = (length st + length run)%nat.
Proof.
  intros Hcf run.
  induction run as [|x run IH]; intros page fuel st q Hw Hnd Hq Hf.
  - destruct fuel; [simpl in Hf; lia|]. cbn [walks] in Hw. cbn [enqueueBatchWith]. rewrite Hw.
    exists st. cbn [batchEntries length]. rewrite app_nil_r, Nat.add_0_r. auto.
  - destruct fuel; [simpl in Hf; lia|]. cbn [walks] in Hw. destruct Hw as [-> [Hx Hw]].
    cbn [enqueueBatchWith]. rewrite Hx.
    destruct (createCompositeTask_total x cur_filter true debug Hcf) as [c Hc].
    rewrite Hc. unfold alloc.
    assert (Hadd : addProcessingTask x (length st) q = q ++ [mkEntry x (length st) Pending]).
    { unfold addProcessingTask. rewrite Hq; [reflexivity | left; reflexivity]. }
    rewrite Hadd.
    cbn [map] in Hnd. inversion Hnd as [|? ? Hn Hr]; subst.
    destruct (IH (nextPage (PageInfo.id x)) fuel (st ++ [mkTaskObject c false])
                (q ++ [mkEntry x (length st) Pending]) Hw Hr) as [st' [E Len]].
    + intros p Hp. rewrite hasPage_app, Hq by (right; exact Hp). simpl.
      rewrite orb_false_r. apply PageId_eqb_neq. intros E.
      apply Hn. rewrite E. apply in_map. exact Hp.
    + simpl in Hf. lia.
    + exists st'. rewrite E, Len, length_app. simpl.
      rewrite <- app_assoc, Nat.add_1_r. simpl. split; [reflexivity | lia].
Qed.

Lemma enqueueBatchWith_single_flight nextPage fuel cf dbg page st q st' q' :
  enqueueBatchWith nextPage fuel cf dbg page st q = Some (st', q') ->
  single_flight q -> single_flight q'.
Proof.
  revert page st q. induction fuel as [|fuel IH]; intros page st q H Hq; [discriminate|].
  cbn [enqueueBatchWith] in H.
  destruct (PageInfo.isNull page); [injection H as <- <-; exact Hq|].
  destruct (snd (createCompositeTask page cf true dbg)); [|discriminate].
  unfold alloc in H. apply IH in H; [exact H|]. apply single_flight_add. exact Hq.
Qed.

Lemma submitAll_eq (l : list BackgroundTaskPtr) (s : MainWindow.t) :
  submitAll l s
  = mk (m_store s) (m_pages s)
       (WorkerThreadPool.mk (WorkerThreadPool.numThreads (m_workerThreadPool s))
          (WorkerThreadPool.executing (m_workerThreadPool s) ++ l))
       (m_interactiveQueue s) (m_batchQueue s) (m_thumbSequence s)
       (m_thumbnailCache s) (m_contentBoxPropagator s) (m_pageOrientationPropagator s)
       (m_selectedPage s) (m_curFilter s) (m_ignoreSelectionChanges s) (m_debug s)
       (outDirIsEmpty s) (trace s ++ map SubmitTask l).
Proof.
  revert s. induction l as [|x l IH]; intros s.
  - destruct s as [? ? [? ?] ? ? ? ? ? ? ? ? ? ? ? ?]. cbn. rewrite !app_nil_r. reflexivity.
  - change (submitAll (x :: l) s) with (submitAll l (submitTask x s)).
    rewrite IH. unfold submitTask, emit, set_workerThreadPool, WorkerThreadPool.submitTask.
    project. cbn [WorkerThreadPool.numThreads WorkerThreadPool.executing map].
    rewrite <- !app_assoc. reflexivity.
Qed.

Lemma setSelection_eq (p : PageId.t) (s : MainWindow.t) :
  exists ts found,
    snd (setSelection p s)
    = mk (m_store s) (m_pages s) (m_workerThreadPool s) (m_interactiveQueue s)
         (m_batchQueue s) ts (m_thumbnailCache s) (m_contentBoxPropagator s)
         (m_pageOrientationPropagator s) (m_selectedPage s) (m_curFilter s)
         (m_ignoreSelectionChanges s) (m_debug s) (outDirIsEmpty s)
         (trace s ++ [SetSelection p found]).
Proof.
  unfold setSelection.
  destruct (ThumbnailSequence.setSelection p (m_thumbSequence s)) as [found ts].
  exists ts, found. reflexivity.
Qed.

Lemma updateMainArea_in_batch (s : MainWindow.t) (bq : ProcessingTaskQueue.t) :
  m_batchQueue s = Some bq -> updateMainArea env s = Some s.
Proof.
  intros B. unfold updateMainArea, isBatchProcessingInProgress. rewrite B.
  destruct (Nat.eqb _ 0); reflexivity.
Qed.

(** What [startBatchProcessing] does on a loaded project with a selected
    page. *)
Lemma startBatchProcessing_spec (fuel : nat) (s : MainWindow.t)
    (before after : list PageInfo.t) (L : PageInfo.t) :
  m_batchQueue s = None ->
  isProjectLoaded s = true ->
  well_formed_sequence (m_thumbSequence s) ->
  0 <= m_curFilter s ->
  (length (ThumbnailSequence.items (m_thumbSequence s)) < fuel)%nat ->
  ThumbnailSequence.items (m_thumbSequence s) = before ++ L :: after ->
  ThumbnailSequence.selectionLeader (m_thumbSequence s) = L ->
  exists s' bq submitted,
    startBatchProcessing env fuel s = Some s' /\
    m_batchQueue s' = Some bq /\
    m_interactiveQueue s' = [] /\
    map pageInfo bq = L :: after ++ before /\
    map task bq = submitted ++ pending bq /\
    submitted <> [] /\
    WorkerThreadPool.executing (m_workerThreadPool s')
    = WorkerThreadPool.executing (m_workerThreadPool s) ++ submitted.
Proof.
  intros B P W Hcf Hf Hit HL.
  unfold startBatchProcessing, isBatchProcessingInProgress. rewrite B, P. cbn [negb orb].
  set (s1 := interactive_cancelAndClear s).
  assert (F1 : m_thumbSequence s1 = m_thumbSequence s /\ m_curFilter s1 = m_curFilter s /\
               m_workerThreadPool s1 = m_workerThreadPool s /\ m_interactiveQueue s1 = [])
    by (cbn; auto).
  destruct F1 as [Fts [Fcf [Fpool Fiq]]]. rewrite Fts, Fcf, HL.
  set (rest := after ++ before).
  assert (Hlen : length (L :: rest) = length (ThumbnailSequence.items (m_thumbSequence s))).
  { subst rest. rewrite Hit. cbn [length]. rewrite !length_app. cbn [length]. lia. }
  assert (Hrun : NoDup (map PageInfo.id (L :: rest))).
  { destruct W as [Hnd _]. rewrite Hit in Hnd. subst rest.
    apply (Permutation_NoDup (l := map PageInfo.id (before ++ L :: after))); [|exact Hnd].
    apply Permutation_map. apply Permutation_sym.
    apply (Permutation_trans (l' := L :: before ++ after)).
    - apply perm_skip. apply Permutation_app_comm.
    - apply Permutation_middle. }
  pose proof (nextPage_walks_round (m_thumbSequence s) before after L W Hit HL) as Hw.
  fold rest in Hw.
  destruct (enqueueBatchWith_walks (ThumbnailSequence.nextPage (m_thumbSequence s))
              (m_curFilter s) (m_debug s1) Hcf (L :: rest) L fuel (m_store s1) [] Hw Hrun)
    as [st' [E _]].
  { intros p _. reflexivity. }
  { rewrite Hlen. exact Hf. }
  unfold enqueueBatch. rewrite app_nil_l in E. rewrite E. cbn [fst snd].
  set (n := length (m_store s1)) in *.
  cbn [batchEntries takeForProcessing isPending status pageInfo task].
  cbv zeta.
  set (q1 := mkEntry L n Processing :: batchEntries (S n) rest).
  match goal with
  | |- context [submitLoop fuel n q1 ?x] => set (s2 := x)
  end.
  destruct (batchEntries_contents (S n) rest) as [C1 [C2 C3]].
  destruct (submitLoop_spec fuel n q1 s2) as [q' [taken [EL [EP [EC _]]]]].
  { subst q1. rewrite pending_cons. cbn [isPending status]. rewrite C2, length_map.
    rewrite <- (length_map pageInfo), C1. cbn [length] in Hlen. lia. }
  rewrite EL. cbn [fst snd]. rewrite submitAll_eq.
  set (s3 := set_batchQueue (Some q') _).
  assert (F3 : m_batchQueue s3 = Some q' /\ m_interactiveQueue s3 = [] /\
               WorkerThreadPool.executing (m_workerThreadPool s3)
               = WorkerThreadPool.executing (m_workerThreadPool s) ++ n :: taken).
  { subst s3 s2. project.
    cbn [WorkerThreadPool.executing]. rewrite Fpool, Fiq. auto. }
  destruct F3 as [F3b [F3i F3p]]. rewrite F3b.
  set (s4 := if negb (PageInfo.isNull (selectedPage env q'))
             then snd (setSelection (PageInfo.id (selectedPage env q')) s3) else s3).
  assert (F4 : m_batchQueue s4 = Some q' /\ m_interactiveQueue s4 = [] /\
               m_workerThreadPool s4 = m_workerThreadPool s3).
  { subst s4. destruct (negb _); [|auto].
    destruct (setSelection_eq (PageInfo.id (selectedPage env q')) s3) as [ts [found ->]].
    project. auto. }
  destruct F4 as [F4b [F4i F4p]].
  rewrite (updateMainArea_in_batch s4 q' F4b).
  exists s4, q', (n :: taken). split; [reflexivity|]. split; [exact F4b|].
  split; [exact F4i|].
  assert (Hc : contents q' = (L, n) :: contents (batchEntries (S n) rest))
    by (rewrite EC; reflexivity).
  split; [|split; [|split; [discriminate | rewrite F4p; exact F3p]]].
  - replace (map pageInfo q') with (map fst (contents q'))
      by (unfold contents; rewrite map_map; reflexivity).
    rewrite Hc. cbn [map fst]. unfold contents. rewrite map_map. cbn [fst].
    f_equal. exact C1.
  - replace (map task q') with (map snd (contents q'))
      by (unfold contents; rewrite map_map; reflexivity).
    rewrite Hc. cbn [map snd]. unfold contents. rewrite map_map. cbn [snd].
    subst q1. rewrite pending_cons in EP. cbn [isPending status] in EP.
    cbn [app]. f_equal. rewrite <- EP, C2. reflexivity.
Qed.

(** C3.  On a loaded project with a well-formed page sequence and a
    selected page L, a batch run enqueues L, the pages after L and then the
    pages before L, in that order: the batch queue holds every page of the
    sequence exactly once, and the tasks are handed to the pool in the order
    of the queue.  (The order is that of [ThumbnailSequence.nextPage], which
    is modelled from the spec.) *)
Theorem batch_enqueues_from_leader_wrapping_around (fuel : nat) (s : MainWindow.t) :
  m_batchQueue s = None ->
  isProjectLoaded s = true ->
  well_formed_sequence (m_thumbSequence s) ->
  0 <= m_curFilter s ->
  (length (ThumbnailSequence.items (m_thumbSequence s)) < fuel)%nat ->
  batch_wraps_around env fuel s.
Proof.
  intros B P W Hcf Hf before L after Hit HL.
  destruct (startBatchProcessing_spec fuel s before after L B P W Hcf Hf Hit HL)
    as [s' [bq [submitted [E [E1 [_ [E2 [E3 [E4 E5]]]]]]]]].
  assert (Hp : Permutation (map pageInfo bq) (ThumbnailSequence.items (m_thumbSequence s))).
  { rewrite E2, Hit. apply (Permutation_trans (l' := L :: before ++ after)).
    - apply perm_skip. apply Permutation_app_comm.
    - apply Permutation_middle. }
  exists s', bq, submitted.
  split; [exact E|]. split; [exact E1|]. split; [exact E2|]. split; [exact Hp|].
  split; [|auto].
  destruct W as [Hnd _].
  apply (Permutation_NoDup (l := map PageInfo.id (ThumbnailSequence.items (m_thumbSequence s))));
    [|exact Hnd].
  apply Permutation_map. apply Permutation_sym. exact Hp.
Qed.

End Batch.

(** Pages A, B, C with B selected: the batch queue holds B, C, A. *)
Lemma batch_enqueues_from_leader_wrapping_around_witness :
  exists s' bq,
    MainWindow.startBatchProcessing Example.env 4 Example.window = Some s' /\
    MainWindow.m_batchQueue s' = Some bq /\
    map ProcessingTaskQueue.pageInfo bq = [Example.B; Example.C; Example.A].
Proof.
  assert (W : well_formed_sequence (MainWindow.m_thumbSequence Example.window)).
  { split; cbn.
    - repeat constructor; cbn; intuition discriminate.
    - repeat constructor. }
  destruct (batch_enqueues_from_leader_wrapping_around Example.env 4 Example.window
              eq_refl eq_refl W ltac:(vm_compute; discriminate) ltac:(cbn; lia)
              [Example.A] Example.B [Example.C] eq_refl eq_refl)
    as [s' [bq [submitted [E [E1 [E2 _]]]]]].
  exists s', bq. auto.
Defined.

(* ------------------------------------------------------------------ *)
(** ** One entry per page *)

Section SingleFlight.

Import ProcessingTaskQueue MainWindow.

Variable env : Collaborators.

Lemma interactive_cancelAndClear_eq (s : MainWindow.t) :
  m_store (interactive_cancelAndClear s)
  = fst (cancelAndClear (m_store s) (m_interactiveQueue s)) /\
  m_interactiveQueue (interactive_cancelAndClear s) = [] /\
  m_workerThreadPool (interactive_cancelAndClear s) = m_workerThreadPool s /\
  m_curFilter (interactive_cancelAndClear s) = m_curFilter s /\
  m_batchQueue (interactive_cancelAndClear s) = m_batchQueue s.
Proof. unfold interactive_cancelAndClear, cancelAndClear. project. cbn [fst]. auto. Qed.

Lemma loadPageInteractive_replaces (s : MainWindow.t) : request_replaces env s.
Proof.
  intros page s' H. rewrite loadPageInteractive_unfold in H. cbv zeta in H.
  destruct (isBatchProcessingInProgress s); [discriminate|].
  destruct (interactive_cancelAndClear_eq s) as [F1s [F1i [F1p _]]].
  set (s1 := interactive_cancelAndClear s) in *. clearbody s1.
  assert (Hc : forall e, In e (m_interactiveQueue s) ->
                 (task e < length (m_store s))%nat ->
                 isCancelled (m_store s1) (task e) = true).
  { intros e He Hl. rewrite F1s. apply cancelAndClear_cancels; assumption. }
  assert (Hlen : length (m_store s1) = length (m_store s))
    by (rewrite F1s; apply cancelAndClear_length).
  destruct (isOutputFilter (m_curFilter s1) && _).
  - injection H as <-. project. split; [exact Hc | left; auto].
  - destruct (filterAt (m_curFilter s1)); [|discriminate].
    destruct (negb (m_thumbnailCache s1)); [discriminate|].
    destruct (interactive_cancelAndClear_eq s1) as [F2s [F2i [F2p _]]].
    set (s2 := interactive_cancelAndClear s1) in *. clearbody s2.
    rewrite F1i in F2s. cbn in F2s.
    destruct (snd (createCompositeTask page (m_curFilter s2) false (m_debug s2)))
      as [c|]; [|discriminate].
    unfold alloc in H. cbv zeta in H. project_in H. rewrite F2i in H.
    cbn [addProcessingTask hasPage existsb app takeForProcessing isPending status
         pageInfo task] in H.
    injection H as <-. unfold submitTask. project.
    unfold WorkerThreadPool.submitTask. cbn [WorkerThreadPool.executing].
    rewrite F2s, F2p, F1p, Hlen. split.
    + intros e He Hl. rewrite isCancelled_app by lia. auto.
    + right. split; [reflexivity|]. split; [|reflexivity].
      rewrite <- Hlen. apply (isCancelled_fresh (m_store s1) c).
Qed.

Lemma submitLoop_result fuel tsk q s q' s' :
  submitLoop fuel tsk q s = Some (q', s') -> exists l, s' = submitAll l s.
Proof.
  revert tsk q s. induction fuel as [|fuel IH]; intros tsk q s H; [discriminate|].
  cbn [submitLoop] in H. cbv zeta in H.
  destruct (negb (WorkerThreadPool.hasSpareCapacity (m_workerThreadPool (submitTask tsk s)))).
  - injection H as <- <-. exists [tsk]. reflexivity.
  - destruct (takeForProcessing q) as [[tsk'|] q1].
    + apply IH in H. destruct H as [l ->]. exists (tsk :: l). reflexivity.
    + injection H as <- <-. exists [tsk]. reflexivity.
Qed.

Lemma enqueueBatchWith_store nextPage fuel cf dbg page st q st' q' :
  enqueueBatchWith nextPage fuel cf dbg page st q = Some (st', q') ->
  exists new, st' = st ++ new.
Proof.
  revert page st q. induction fuel as [|fuel IH]; intros page st q H; [discriminate|].
  cbn [enqueueBatchWith] in H.
  destruct (PageInfo.isNull page); [injection H as <- <-; exists []; rewrite app_nil_r; reflexivity|].
  destruct (snd (createCompositeTask page cf true dbg)) as [c|]; [|discriminate].
  unfold alloc in H. apply IH in H. destruct H as [new ->].
  eexists. rewrite <- app_assoc. reflexivity.
Qed.

Lemma batchQueue_setSelection p s :
  m_batchQueue (snd (setSelection p s)) = m_batchQueue s.
Proof. destruct (setSelection_eq p s) as [ts [found ->]]. reflexivity. Qed.

Lemma batchQueue_setSelection_pair p s ok s1 :
  setSelection p s = (ok, s1) -> m_batchQueue s1 = m_batchQueue s.
Proof. intros H. pose proof (batchQueue_setSelection p s) as K. rewrite H in K. exact K. Qed.

Lemma batchQueue_selectRemembered p s :
  m_batchQueue (selectRemembered p s) = m_batchQueue s.
Proof.
  unfold selectRemembered.
  destruct (setSelection p s) as [ok1 s1] eqn:E1. apply batchQueue_setSelection_pair in E1.
  destruct ok1; [exact E1|].
  destruct (setSelection _ s1) as [ok2 s2] eqn:E2. apply batchQueue_setSelection_pair in E2.
  destruct ok2; [congruence|].
  destruct (setSelection _ s2) as [ok3 s3] eqn:E3. apply batchQueue_setSelection_pair in E3.
  destruct ok3; [congruence|].
  destruct (setSelection _ s3) as [ok4 s4] eqn:E4. apply batchQueue_setSelection_pair in E4.
  destruct ok4; [congruence|].
  rewrite batchQueue_setSelection. congruence.
Qed.

Lemma batchQueue_resetThumbSequence action s s' :
  resetThumbSequence env action s = Some s' -> m_batchQueue s' = m_batchQueue s.
Proof.
  rewrite resetThumbSequence_unfold. intros H.
  destruct (resetSequence env action s) as [s1|] eqn:R; [|discriminate].
  apply resetSequence_spec in R. destruct R as [before [_ [_ R]]].
  assert (E : m_batchQueue s1 = m_batchQueue s) by (rewrite R; reflexivity).
  destruct (negb _); injection H as <-; [|exact E].
  rewrite batchQueue_selectRemembered. exact E.
Qed.

Lemma batchQueue_loadPageInteractive page s s' :
  loadPageInteractive env page s = Some s' -> m_batchQueue s' = m_batchQueue s.
Proof.
  rewrite loadPageInteractive_unfold. cbv zeta. intros H.
  destruct (isBatchProcessingInProgress s); [discriminate|].
  set (s1 := interactive_cancelAndClear s) in *.
  assert (E1 : m_batchQueue s1 = m_batchQueue s) by reflexivity. clearbody s1.
  destruct (isOutputFilter (m_curFilter s1) && _); [injection H as <-; exact E1|].
  destruct (filterAt (m_curFilter s1)); [|discriminate].
  destruct (negb (m_thumbnailCache s1)); [discriminate|].
  set (s2 := interactive_cancelAndClear s1) in *.
  assert (E2 : m_batchQueue s2 = m_batchQueue s1) by reflexivity. clearbody s2.
  destruct (snd (createCompositeTask page (m_curFilter s2) false (m_debug s2)))
    as [composite|]; [|discriminate].
  unfold alloc in H. cbv zeta in H.
  match type of H with
  | context [takeForProcessing ?q] =>
      destruct (takeForProcessing q) as [[tsk|] q']; [|discriminate]
  end.
  injection H as <-. unfold submitTask. project. congruence.
Qed.

Lemma batchQueue_updateMainArea s s' :
  updateMainArea env s = Some s' -> m_batchQueue s' = m_batchQueue s.
Proof.
  unfold updateMainArea. intros H.
  destruct (Nat.eqb _ 0); [injection H as <-; reflexivity|].
  destruct (isBatchProcessingInProgress s); [injection H as <-; reflexivity|].
  destruct (PageInfo.isNull _); [injection H as <-; reflexivity|].
  eapply batchQueue_loadPageInteractive; eassumption.
Qed.

Lemma stopBatchProcessing_none area s s' :
  stopBatchProcessing env area s = Some s' -> m_batchQueue s' = None.
Proof.
  unfold stopBatchProcessing. intros H.
  destruct (m_batchQueue s) as [bq|] eqn:B; [|injection H as <-; exact B].
  unfold cancelAndClear in H. cbv zeta in H.
  match type of H with
  | context [set_batchQueue None ?x] =>
      set (s2 := set_batchQueue None x) in *;
      assert (E2 : m_batchQueue s2 = None) by reflexivity; clearbody s2
  end.
  destruct area.
  - destruct (updateMainArea env s2) as [s3|] eqn:U; [|discriminate].
    apply batchQueue_updateMainArea in U. apply batchQueue_resetThumbSequence in H.
    congruence.
  - apply batchQueue_resetThumbSequence in H. congruence.
Qed.

Lemma startBatchProcessing_cleared (s : MainWindow.t) : batch_starts_cleared env s.
Proof.
  intros fuel s' B P H.
  unfold startBatchProcessing, isBatchProcessingInProgress in H. rewrite B, P in H.
  cbn [negb orb] in H.
  set (s1 := interactive_cancelAndClear s) in *.
  assert (F1 : m_interactiveQueue s1 = [] /\ m_batchQueue s1 = None /\
               m_store s1 = fst (cancelAndClear (m_store s) (m_interactiveQueue s))).
  { subst s1. unfold interactive_cancelAndClear, cancelAndClear.
    unfold set_interactiveQueue, set_store. project. cbn [fst]. auto. }
  destruct F1 as [F1i [F1b F1s]]. clearbody s1.
  destruct (enqueueBatch fuel (m_thumbSequence s1) (m_curFilter s1) (m_debug s1)
              (ThumbnailSequence.selectionLeader (m_thumbSequence s1)) (m_store s1) [])
    as [[st' q0]|] eqn:E; [|discriminate].
  apply enqueueBatchWith_store in E. destruct E as [new ->].
  cbn [fst snd] in H.
  destruct (takeForProcessing q0) as [[tsk|] q1].
  - match type of H with
    | context [submitLoop fuel tsk q1 ?x] =>
        destruct (submitLoop fuel tsk q1 x) as [[q' s3]|] eqn:L; [|discriminate];
        apply submitLoop_result in L; destruct L as [l ->]
    end.
    cbn [fst snd] in H. rewrite submitAll_eq in H. project_in H.
    match type of H with
    | updateMainArea env ?x = _ =>
        assert (F : m_batchQueue x = Some q' /\ m_interactiveQueue x = [] /\
                    m_store x = m_store s1 ++ new)
    end.
    { destruct (negb _).
      - match goal with
        | |- context [setSelection ?p ?x] =>
            destruct (setSelection_eq p x) as [ts' [found ->]]
        end.
        project. auto.
      - project. auto. }
    destruct F as [Fb [Fi Fs]].
    rewrite (updateMainArea_in_batch env _ _ Fb) in H. injection H as <-.
    split; [exact Fi|]. intros e He Hl. rewrite Fs, F1s.
    rewrite isCancelled_app by (rewrite cancelAndClear_length; exact Hl).
    apply cancelAndClear_cancels; assumption.
  - match type of H with
    | context [stopBatchProcessing env ?a ?x] =>
        destruct (stopBatchProcessing env a x) as [s3|] eqn:St; [|discriminate]
    end.
    apply stopBatchProcessing_none in St. cbn beta iota in H.
    rewrite St in H. discriminate.
Qed.

Lemma startBatchProcessing_single_flight fuel s s' :
  startBatchProcessing env fuel s = Some s' ->
  queues_single_flight s -> queues_single_flight s'.
Proof.
  unfold startBatchProcessing. intros H I.
  destruct (_ || _); [injection H as <-; exact I|].
  apply (quiet_interactive_cancelAndClear s) in I.
  set (s1 := interactive_cancelAndClear s) in *. clearbody s1.
  destruct (enqueueBatch fuel (m_thumbSequence s1) (m_curFilter s1) (m_debug s1)
              (ThumbnailSequence.selectionLeader (m_thumbSequence s1)) (m_store s1) [])
    as [[st' q0]|] eqn:E; [|discriminate].
  apply enqueueBatchWith_single_flight in E; [|constructor].
  cbn [fst snd] in H.
  pose proof (single_flight_take q0 E) as T.
  destruct (takeForProcessing q0) as [taken q1]. cbn [snd] in T.
  match type of H with
  | context [set_batchQueue (Some q1) ?x] =>
      set (s2 := set_batchQueue (Some q1) x) in *;
      assert (I2 : queues_single_flight s2)
        by (destruct I as [Ii _]; split; [exact Ii | exact T]);
      clearbody s2
  end.
  match type of H with
  | (match ?c with Some _ => _ | None => None end) = _ =>
      destruct c as [s3|] eqn:C; [|discriminate]
  end.
  assert (I3 : queues_single_flight s3).
  { destruct taken as [tsk|].
    - destruct (submitLoop fuel tsk q1 s2) as [[q' s2']|] eqn:L; [|discriminate].
      apply quiet_submitLoop in L. destruct L as [Pg [_ L]].
      injection C as <-. cbn [fst snd].
      apply (quiet_set_batchQueue q' s2'); [|auto].
      unfold single_flight. rewrite Pg. exact T.
    - apply quiet_stopBatchProcessing in C. apply C. exact I2. }
  destruct (m_batchQueue s3) as [bq|]; [|discriminate].
  apply quiet_updateMainArea in H. apply H.
  destruct (negb _); [apply quiet_setSelection; exact I3 | exact I3].
Qed.

Lemma step_single_flight s s' :
  step env s s' -> queues_single_flight s -> queues_single_flight s'.
Proof.
  intros [selected s2 H | fuel s2 H | area s2 H | fuel tsk result s2 H | s2 H | p s2 H | s2 H].
  - apply delivery_filterSelectionChanged in H. apply H.
  - eapply startBatchProcessing_single_flight; eassumption.
  - apply quiet_stopBatchProcessing in H. apply H.
  - eapply filterResult_single_flight; eassumption.
  - apply quiet_updateMainArea in H. apply H.
  - apply quiet_goToPage in H. apply H.
  - apply quiet_goFirstPage in H. apply H.
Qed.

Lemma reachable_single_flight s : reachable env s -> queues_single_flight s.
Proof.
  induction 1 as [s Hi Hb | s s' _ IH St].
  - split; [rewrite Hi; constructor | rewrite Hb; exact I].
  - eapply step_single_flight; eassumption.
Qed.

Lemma addProcessingTask_twice : second_add_is_noop.
Proof.
  intros q page t1 t2. unfold addProcessingTask at 1.
  assert (H : hasPage (addProcessingTask page t1 q) (PageInfo.id page) = true).
  { unfold addProcessingTask. destruct (hasPage q (PageInfo.id page)) eqn:E; [exact E|].
    rewrite hasPage_app. simpl. rewrite PageId_eqb_refl, orb_true_r. reflexivity. }
  rewrite H. reflexivity.
Qed.

(** C1, as the code has it.  In every window that can arise, neither queue
    holds two entries for one page.  A request for a page cancels the tasks
    the interactive queue held and empties the queue before it registers the
    new task, so a second request for a page replaces the first one: the
    first task is cancelled and the queue holds the entry of the second.  A
    batch run starts with the interactive queue emptied and its tasks
    cancelled.  On the queue itself, registering a page that is already
    there changes nothing. *)
Theorem single_flight_by_clearing (s : MainWindow.t) :
  reachable env s ->
  queues_single_flight s /\
  request_replaces env s /\
  batch_starts_cleared env s /\
  second_add_is_noop.
Proof.
  intros R. split; [apply reachable_single_flight; exact R|].
  split; [apply loadPageInteractive_replaces|].
  split; [apply startBatchProcessing_cleared | apply addProcessingTask_twice].
Qed.

End SingleFlight.

(** The second request for page B: the first task is cancelled, the queue
    holds the second one. *)
Lemma single_flight_by_clearing_witness :
  reachable Example.env Example.interactive_window /\
  queues_single_flight Example.interactive_window /\
  request_replaces Example.env Example.interactive_window.
Proof.
  assert (R : reachable Example.env Example.interactive_window).
  { apply (reachable_step Example.env Example.window).
    - apply reachable_initial; reflexivity.
    - apply step_updateMainArea. vm_compute. reflexivity. }
  split; [exact R|].
  destruct (single_flight_by_clearing Example.env Example.interactive_window R)
    as [H1 [H2 _]].
  split; assumption.
Defined.

(** C1 as stated fails: the second request for page B is not a no-op, it
    hands a second task to the pool and cancels the first. *)
Lemma second_request_is_not_a_noop : ~ single_flight_by_noop Example.env.
Proof.
  intros K.
  destruct (K Example.window) as [_ N].
  { apply reachable_initial; reflexivity. }
  assert (E1 : MainWindow.loadPageInteractive Example.env Example.B Example.window
               = Some Example.interactive_window) by (vm_compute; reflexivity).
  assert (E2 : exists s2,
             MainWindow.loadPageInteractive Example.env Example.B Example.interactive_window
             = Some s2 /\
             isCancelled (MainWindow.m_store s2) 0%nat = true).
  { eexists. split; [vm_compute; reflexivity | reflexivity]. }
  destruct E2 as [s2 [E2 C2]].
  destruct (N Example.B _ _ E1 E2) as [_ [_ N3]].
  specialize (N3 0%nat). rewrite C2 in N3. vm_compute in N3. discriminate.
Qed.

(** From the deskew stage to the page-layout stage: the content-box
    propagator runs, the orientation propagator does not. *)
Lemma propagators_run_on_crossing_before_reset_witness :
  exists s',
    MainWindow.filterSelectionChanged Example.env [pageLayoutFilterIdx] Example.window
    = Some s' /\
    In (MainWindow.Propagate MainWindow.ContentBox) (MainWindow.trace s') /\
    ~ In (MainWindow.Propagate MainWindow.PageOrientation) (MainWindow.trace s').
Proof.
  destruct (MainWindow.filterSelectionChanged Example.env [pageLayoutFilterIdx] Example.window)
    as [s'|] eqn:E0; [|vm_compute in E0; discriminate].
  exists s'. split; [reflexivity|].
  destruct (propagators_run_on_crossing_before_reset Example.env pageLayoutFilterIdx []
              Example.window s' eq_refl eq_refl eq_refl E0)
    as [propagated [after [E [[_ K1] [[K2 _] _]]]]].
  change (MainWindow.trace Example.window) with (@nil MainWindow.Event) in E.
  cbn [app] in E. rewrite E. split.
  - apply K1. split; reflexivity.
  - intros K. apply K2 in K. destruct K as [K _]. discriminate.
Defined.

(* ================================================================== *)
(** * Further properties *)

(* ------------------------------------------------------------------ *)
(** ** The builders on any index *)

Ltac decide_comparisons :=
  repeat match goal with
         | H : (_ >=? _) = true |- _ => apply Z.geb_le in H
         | H : (_ >=? _) = false |- _ => rewrite Z.geb_leb in H; apply Z.leb_gt in H
         | H : (_ <=? _) = true |- _ => apply Z.leb_le in H
         | H : (_ <=? _) = false |- _ => apply Z.leb_gt in H
         | H : (_ <? _) = true |- _ => apply Z.ltb_lt in H
         | H : (_ <? _) = false |- _ => apply Z.ltb_ge in H
         end.

(** X1.  Whatever the index: below zero both builders fail their assertion;
    from zero on each returns the chain of the stages whose index is at most
    the index, so an index above the last stage gives the full pipeline; and
    the cache-driven chain always runs through the same stages as the full
    one. *)
Theorem builders_on_any_index (page : PageInfo.t) (S : Z) (batch debug : bool) :
  composite_chain (snd (createCompositeTask page S batch debug))
  = (if S <? 0 then None else Some (upTo S)) /\
  cache_driven_chain (snd (createCompositeCacheDrivenTask S))
  = composite_chain (snd (createCompositeTask page S batch debug)) /\
  (outputFilterIdx <= S -> upTo S = StageSequence.all).
Proof.
  unfold createCompositeTask, createCompositeCacheDrivenTask, upTo, StageSequence.all.
  cbn [List.filter findFilter].
  split_on_comparisons S;
    destruct (S <? 0) eqn:?;
    destruct (fixOrientationFilterIdx <=? S) eqn:?;
    destruct (pageSplitFilterIdx <=? S) eqn:?;
    destruct (deskewFilterIdx <=? S) eqn:?;
    destruct (selectContentFilterIdx <=? S) eqn:?;
    destruct (pageLayoutFilterIdx <=? S) eqn:?;
    destruct (outputFilterIdx <=? S) eqn:?;
    decide_comparisons; unfold_indices; try lia.
  all: repeat split; try reflexivity; intros; try lia.
Qed.

(** X2.  Every stage task the full builder creates is for the requested
    page and carries the request's batch flag, and the background task that
    wraps the chain is for that page too, of type BATCH exactly for a batch
    request. *)
Theorem composite_task_is_for_the_page (page : PageInfo.t) (S : Z) (batch debug : bool) :
  (forall t, In t (fst (createCompositeTask page S batch debug)) ->
     page_of t = PageInfo.id page /\ batch_of t = batch) /\
  (forall c, snd (createCompositeTask page S batch debug) = Some c ->
     lf_page c = page /\
     lf_type c = (if batch then BackgroundTask.BATCH else BackgroundTask.INTERACTIVE) /\
     In (FixOrientationT (lf_nextTask c)) (fst (createCompositeTask page S batch debug))).
Proof.
  unfold createCompositeTask.
  split_on_comparisons S; cbv zeta; cbn [fst snd app].
  all: split;
    [ intros t Ht; cbn in Ht;
      repeat match goal with
             | K : _ \/ _ |- _ => destruct K as [K | K]
             | K : False |- _ => destruct K
             end; subst; split; reflexivity
    | intros c Hc; try discriminate; injection Hc as <-; cbn; auto 10 ].
Qed.

(* ------------------------------------------------------------------ *)
(** ** Erasing output files *)

Lemma mem_In (p : PageId.t) (pages : list PageId.t) : mem p pages = true <-> In p pages.
Proof.
  unfold mem. rewrite existsb_exists. split.
  - intros [x [H E]]. apply PageId_eqb_eq in E. subst. exact H.
  - intros H. exists p. split; [exact H | apply PageId_eqb_refl].
Qed.

(** X3.  Removing pages erases exactly these output files: for each removed
    page, the file of the page itself, the file of the unsplit page of the
    same image, and, when the removed page is the unsplit one, the files of
    both halves.  The output of the other half of a removed half page is
    never erased on its account, and no file of another image is. *)
Theorem eraseOutputFiles_exactly (pages : list PageId.t) (x : PageId.t) :
  In x (eraseOutputFiles pages) <->
  exists p,
    In p pages /\ PageId.imageId x = PageId.imageId p /\
    (PageId.subPage x = PageId.subPage p \/
     PageId.subPage x = PageId.SINGLE_PAGE \/
     PageId.subPage p = PageId.SINGLE_PAGE).
Proof.
  unfold eraseOutputFiles. rewrite in_flat_map. split.
  - intros [p [Hp Hx]]. exists p. split; [exact Hp|].
    apply in_map_iff in Hx. destruct Hx as [sub [<- Hs]]. cbn. split; [reflexivity|].
    destruct (PageId.subPage p); cbn in Hs;
      repeat (destruct Hs as [<- | Hs]; auto); destruct Hs.
  - intros [p [Hp [Hi Hs]]]. exists p. split; [exact Hp|].
    apply in_map_iff. exists (PageId.subPage x). split.
    + destruct x as [xi xs]. cbn in *. subst. reflexivity.
    + destruct (PageId.subPage p), (PageId.subPage x); cbn; auto;
        destruct Hs as [Hs | [Hs | Hs]]; discriminate.
Qed.

(* ------------------------------------------------------------------ *)
(** ** The selection made before pages are removed *)

Lemma selectionLoop_first (l : PageId.t) (items : list PageInfo.t) (pages : list PageId.t) :
  selectionLoop true l items pages
  = option_map PageInfo.id (find (fun p => negb (mem (PageInfo.id p) pages)) items).
Proof.
  induction items as [|p rest IH]; [reflexivity|].
  cbn [selectionLoop find]. cbv zeta.
  destruct (mem (PageInfo.id p) pages); cbn [negb andb]; [exact IH | reflexivity].
Qed.

Lemma selectionLoop_kept (l : PageId.t) (items : list PageInfo.t) (pages : list PageId.t) :
  (forall p, In p items -> mem (PageInfo.id p) pages = false) ->
  selectionLoop false l items pages = None.
Proof.
  revert l. induction items as [|p rest IH]; intros l H; [reflexivity|].
  cbn [selectionLoop]. cbv zeta. rewrite (H p) by (left; reflexivity). cbn [negb].
  apply IH. intros q Hq. apply H. right. exact Hq.
Qed.

Lemma last_map {A B} (f : A -> B) (l : list A) (d : A) : last (map f l) (f d) = f (last l d).
Proof.
  induction l as [|a l IH]; [reflexivity|].
  cbn [map]. rewrite !last_cons. clear IH. revert a.
  induction l as [|b l IH]; intros a; [reflexivity|].
  cbn [map]. rewrite !last_cons. apply IH.
Qed.

Lemma last_In {A} (l : list A) (d : A) : In (last l d) (d :: l).
Proof.
  revert d. induction l as [|a l IH]; intros d; [left; reflexivity|].
  rewrite last_cons. right. apply IH.
Qed.

Lemma selectionLoop_before (l : PageId.t) (keep rest : list PageInfo.t) (d : PageInfo.t)
    (pages : list PageId.t) :
  Forall (fun p => mem (PageInfo.id p) pages = false) keep ->
  mem (PageInfo.id d) pages = true ->
  PageId.isNull (last (map PageInfo.id keep) l) = false ->
  selectionLoop false l (keep ++ d :: rest) pages = Some (last (map PageInfo.id keep) l).
Proof.
  revert l. induction keep as [|p keep IH]; intros l Hk Hd Hn.
  - cbn [app selectionLoop map last] in *. cbv zeta. rewrite Hd. cbn [negb andb].
    rewrite Hn. reflexivity.
  - inversion Hk as [|? ? Hp Hk']; subst.
    cbn [app selectionLoop]. cbv zeta. rewrite Hp. cbn [negb].
    cbn [map] in *. rewrite last_cons in *. apply IH; assumption.
Qed.

Lemma selectionLoop_sound (b : bool) (l : PageId.t) (items : list PageInfo.t)
    (pages : list PageId.t) (x : PageId.t) :
  selectionLoop b l items pages = Some x ->
  (In x (map PageInfo.id items) /\ mem x pages = false) \/
  (x = l /\ PageId.isNull l = false).
Proof.
  revert l. induction items as [|p rest IH]; intros l H; [discriminate|].
  cbn [selectionLoop] in H. cbv zeta in H.
  destruct (mem (PageInfo.id p) pages) eqn:M; cbn [negb] in H.
  - destruct (negb b && negb (PageId.isNull l)) eqn:C.
    + injection H as <-. right. split; [reflexivity|].
      apply andb_true_iff in C. destruct C as [_ C].
      destruct (PageId.isNull l); [discriminate | reflexivity].
    + apply IH in H. cbn [map In]. tauto.
  - destruct b.
    + injection H as <-. cbn [map In]. auto.
    + apply IH in H. cbn [map In]. destruct H as [[H1 H2] | [-> _]]; auto.
Qed.

(** X4.  Before pages are removed a page that stays is selected: when the
    first page of the sequence is removed, the first page that stays;
    otherwise the page just before the first removed page.  A removed page
    is never selected, and no selection is made when none of the pages of
    the sequence is removed. *)
Theorem selection_before_removal (items : list PageInfo.t) (pages : list PageId.t) :
  Forall (fun p => PageInfo.isNull p = false) items ->
  (forall x, selectionBeforeRemoval items pages = Some x ->
     In x (map PageInfo.id items) /\ mem x pages = false) /\
  (forall first rest, items = first :: rest -> mem (PageInfo.id first) pages = true ->
     selectionBeforeRemoval items pages
     = option_map PageInfo.id (find (fun p => negb (mem (PageInfo.id p) pages)) items)) /\
  (forall keep d rest, items = keep ++ d :: rest -> keep <> [] ->
     Forall (fun p => mem (PageInfo.id p) pages = false) keep ->
     mem (PageInfo.id d) pages = true ->
     selectionBeforeRemoval items pages = Some (PageInfo.id (last keep PageInfo.null))) /\
  ((forall p, In p items -> mem (PageInfo.id p) pages = false) ->
   selectionBeforeRemoval items pages = None).
Proof.
  intros Hnn. split; [|split; [|split]].
  - intros x H. destruct items as [|first rest]; [discriminate|].
    unfold selectionBeforeRemoval in H.
    apply selectionLoop_sound in H. destruct H as [H | [_ H]]; [exact H | discriminate].
  - intros first rest -> M. unfold selectionBeforeRemoval. rewrite M.
    apply selectionLoop_first.
  - intros keep d rest -> Hne Hk Hd. unfold selectionBeforeRemoval.
    destruct keep as [|k keep]; [contradiction|].
    inversion Hk as [|? ? Hp Hk']; subst. cbn [app]. rewrite Hp.
    change (k :: keep ++ d :: rest) with ((k :: keep) ++ d :: rest).
    assert (E : last (map PageInfo.id (k :: keep)) PageId.null
                = PageInfo.id (last (k :: keep) PageInfo.null)).
    { cbn [map]. rewrite !last_cons. apply last_map. }
    rewrite selectionLoop_before; try assumption.
    + rewrite E. reflexivity.
    + rewrite E. rewrite Forall_forall in Hnn. apply (Hnn (last (k :: keep) PageInfo.null)).
      apply in_or_app. left. rewrite last_cons. apply last_In.
  - intros H. destruct items as [|first rest]; [reflexivity|].
    unfold selectionBeforeRemoval. rewrite (H first) by (left; reflexivity).
    apply selectionLoop_kept. exact H.
Qed.

(** Pages A, B, C, D: removing C selects B; removing A and B selects C. *)
Lemma selection_before_removal_witness :
  Forall (fun p => PageInfo.isNull p = false)
    [Example.A; Example.B; Example.C; Example.single 4] /\
  selectionBeforeRemoval [Example.A; Example.B; Example.C; Example.single 4]
    [PageInfo.id Example.C] = Some (PageInfo.id Example.B).
Proof.
  split; [repeat constructor|].
  destruct (selection_before_removal
              [Example.A; Example.B; Example.C; Example.single 4] [PageInfo.id Example.C]
              ltac:(repeat constructor)) as [_ [_ [K _]]].
  apply (K [Example.A; Example.B] Example.C [Example.single 4]).
  - reflexivity.
  - discriminate.
  - repeat constructor.
  - reflexivity.
Defined.

(** ** Comparing the project file with its backup *)

Section CompareFiles.
Open Scope nat_scope.

Lemma chunk_size_pos : 0 < chunk_size.
Proof. unfold chunk_size. apply Nat.lt_0_succ. Qed.

Lemma compareChunks_lengths (fuel : nat) :
  forall rest1 rest2 : list Byte.byte,
    length rest1 < fuel ->
    compareChunks fuel rest1 rest2 = Some (Nat.eqb (length rest1) (length rest2)).
Proof.
  pose proof chunk_size_pos as P.
  induction fuel as [|fuel IH]; intros rest1 rest2 H; [lia|].
  cbn [compareChunks]. cbv zeta. rewrite !length_firstn.
  destruct (Nat.eqb_spec (Nat.min chunk_size (length rest1))
                         (Nat.min chunk_size (length rest2))) as [E|E]; cbn [negb].
  - destruct (Nat.eqb_spec (Nat.min chunk_size (length rest1)) 0) as [Z|Z].
    + f_equal. symmetry. apply Nat.eqb_eq. lia.
    + rewrite IH by (rewrite length_skipn; lia).
      rewrite !length_skipn. f_equal.
      destruct (Nat.eqb_spec (length rest1) (length rest2)) as [L|L].
      * apply Nat.eqb_eq. lia.
      * apply Nat.eqb_neq. lia.
  - f_equal. symmetry. apply Nat.eqb_neq. lia.
Qed.

(** X5.  [compareFiles] returns, and it answers [true] exactly when both
    files can be opened and have the same length: the chunks that are read
    are compared by size only, so two files of equal length with different
    contents are reported as equal. *)
Theorem compareFiles_compares_lengths_only (fuel : nat) (file1 file2 : QFile) :
  length (bytes file1) < fuel ->
  compareFiles fuel file1 file2
  = Some (canOpen file1 && canOpen file2
          && Nat.eqb (length (bytes file1)) (length (bytes file2))).
Proof.
  intros H. unfold compareFiles.
  destruct (canOpen file1); cbn [negb andb]; [|reflexivity].
  destruct (canOpen file2); cbn [negb andb]; [|reflexivity].
  rewrite compareChunks_lengths by exact H.
  destruct (Nat.eqb (length (bytes file1)) (length (bytes file2)));
    [rewrite !andb_false_r; reflexivity|].
  destruct (negb (isSequential file1) && negb (isSequential file2)); reflexivity.
Qed.

(** Two one-byte files with different contents compare equal. *)
Lemma compareFiles_compares_lengths_only_witness :
  compareFiles 2 (mkQFile true false [Byte.x00]) (mkQFile true false [Byte.x01])
  = Some true.
Proof.
  apply (compareFiles_compares_lengths_only 2
           (mkQFile true false [Byte.x00]) (mkQFile true false [Byte.x01])).
  cbn [bytes length]. apply Nat.lt_succ_diag_r.
Defined.

End CompareFiles.

(** ** Starting a batch with no page selected *)

Section BatchWithoutSelection.

Import ProcessingTaskQueue MainWindow.

Variable env : Collaborators.

(** X6.  On a loaded project with no selected page [startBatchProcessing]
    does not return: the batch queue stays empty, so [stopBatchProcessing]
    is called, which resets [m_batchQueue]; the next statement,
    [m_batchQueue->selectedPage()], dereferences it. *)
Theorem startBatchProcessing_without_selection (fuel : nat) (s : MainWindow.t) :
  m_batchQueue s = None ->
  isProjectLoaded s = true ->
  PageInfo.isNull (ThumbnailSequence.selectionLeader (m_thumbSequence s)) = true ->
  startBatchProcessing env fuel s = None.
Proof.
  intros B P N.
  unfold startBatchProcessing, isBatchProcessingInProgress. rewrite B, P.
  cbn [negb orb].
  set (s1 := interactive_cancelAndClear s).
  assert (T : m_thumbSequence s1 = m_thumbSequence s) by reflexivity.
  clearbody s1. rewrite T.
  destruct fuel as [|fuel]; [reflexivity|].
  unfold enqueueBatch. cbn [enqueueBatchWith]. rewrite N. cbn [fst snd takeForProcessing].
  match goal with
  | |- context [stopBatchProcessing env ?a ?x] =>
      destruct (stopBatchProcessing env a x) as [s4|] eqn:E; [|reflexivity]
  end.
  apply stopBatchProcessing_none in E. rewrite E. reflexivity.
Qed.

End BatchWithoutSelection.

(** A loaded project in which no page is selected. *)
Lemma startBatchProcessing_without_selection_witness :
  MainWindow.startBatchProcessing Example.env 10
    (MainWindow.set_thumbSequence
       (ThumbnailSequence.mk [Example.A; Example.B] PageInfo.null) Example.window)
  = None.
Proof.
  apply (startBatchProcessing_without_selection Example.env 10
           (MainWindow.set_thumbSequence
              (ThumbnailSequence.mk [Example.A; Example.B] PageInfo.null) Example.window)).
  - reflexivity.
  - reflexivity.
  - reflexivity.
Defined.

(** ** Cancellation is permanent, and requests do not pile up *)

Section Orderly.

Import ProcessingTaskQueue MainWindow.

Variable env : Collaborators.

Lemma selection_refl s : selection_step s s.
Proof. destruct s. eexists. eexists. reflexivity. Qed.

Lemma selection_trans s1 s2 s3 :
  selection_step s1 s2 -> selection_step s2 s3 -> selection_step s1 s3.
Proof.
  intros [ts [tr ->]] [ts' [tr' ->]]. exists ts', tr'. reflexivity.
Qed.

Lemma selection_setSelection p s : selection_step s (snd (setSelection p s)).
Proof. destruct (setSelection_eq p s) as [ts [found ->]]. eexists. eexists. reflexivity. Qed.

Lemma selection_setSelection_pair p s ok s1 :
  setSelection p s = (ok, s1) -> selection_step s s1.
Proof. intros H. pose proof (selection_setSelection p s) as K. rewrite H in K. exact K. Qed.

Lemma selection_selectRemembered p s : selection_step s (selectRemembered p s).
Proof.
  unfold selectRemembered.
  destruct (setSelection p s) as [ok1 s1] eqn:E1. apply selection_setSelection_pair in E1.
  destruct ok1; [exact E1|].
  destruct (setSelection _ s1) as [ok2 s2] eqn:E2. apply selection_setSelection_pair in E2.
  destruct ok2; [eauto using selection_trans|].
  destruct (setSelection _ s2) as [ok3 s3] eqn:E3. apply selection_setSelection_pair in E3.
  destruct ok3; [eauto using selection_trans|].
  destruct (setSelection _ s3) as [ok4 s4] eqn:E4. apply selection_setSelection_pair in E4.
  destruct ok4; [eauto using selection_trans|].
  pose proof (selection_setSelection
                (PageInfo.id (ThumbnailSequence.firstPage (m_thumbSequence s4))) s4).
  eauto 6 using selection_trans.
Qed.

Lemma selection_resetThumbSequence action s s' :
  resetThumbSequence env action s = Some s' -> selection_step s s'.
Proof.
  rewrite resetThumbSequence_unfold. intros H.
  destruct (resetSequence env action s) as [s1|] eqn:R; [|discriminate].
  apply resetSequence_spec in R. destruct R as [before [_ [_ R]]].
  assert (K : selection_step s s1) by (rewrite R; eexists; eexists; reflexivity).
  destruct (negb _); injection H as <-; [|exact K].
  eapply selection_trans; [exact K | apply selection_selectRemembered].
Qed.

Lemma orderly_refl s : orderly_step s s.
Proof. split; [intros p H; exact H | auto]. Qed.

Lemma orderly_trans s1 s2 s3 : orderly_step s1 s2 -> orderly_step s2 s3 -> orderly_step s1 s3.
Proof. intros [K1 T1] [K2 T2]. split; [intros p H; auto | auto]. Qed.

Lemma orderly_same s s' :
  m_store s' = m_store s -> m_interactiveQueue s' = m_interactiveQueue s ->
  m_batchQueue s' = m_batchQueue s -> orderly_step s s'.
Proof.
  intros E1 E2 E3. split.
  - intros p H. rewrite E1. exact H.
  - unfold one_request_at_a_time, isBatchProcessingInProgress. rewrite E2, E3. auto.
Qed.

Lemma orderly_selection s s' : selection_step s s' -> orderly_step s s'.
Proof. intros [ts [tr ->]]. apply orderly_same; reflexivity. Qed.

Lemma isCancelled_app_mono (p : BackgroundTaskPtr) (st new : Store) :
  isCancelled st p = true -> isCancelled (st ++ new) p = true.
Proof.
  intros H. rewrite isCancelled_app; [exact H|].
  unfold isCancelled in H. apply nth_error_Some. destruct (nth_error st p); discriminate.
Qed.

Lemma keeps_cancelled_interactive_cancelAndClear s :
  keeps_cancelled s (interactive_cancelAndClear s).
Proof.
  intros p H. destruct (interactive_cancelAndClear_eq s) as [-> _].
  apply cancelAndClear_mono. exact H.
Qed.

Lemma orderly_interactive_cancelAndClear s : orderly_step s (interactive_cancelAndClear s).
Proof.
  split; [apply keeps_cancelled_interactive_cancelAndClear|].
  destruct (interactive_cancelAndClear_eq s) as [_ [E _]].
  intros _. split; rewrite E; [cbn; lia | reflexivity].
Qed.

(** A request leaves at most its own entry in the interactive queue. *)
Lemma loadPageInteractive_orderly page s s' :
  loadPageInteractive env page s = Some s' ->
  keeps_cancelled s s' /\ one_request_at_a_time s' /\ m_curFilter s' = m_curFilter s.
Proof.
  intros H.
  pose proof (batchQueue_loadPageInteractive env _ _ _ H) as B.
  pose proof (loadPageInteractive_replaces env s page s' H) as [_ R].
  assert (N : m_batchQueue s = None).
  { unfold loadPageInteractive, isBatchProcessingInProgress in H.
    destruct (m_batchQueue s); [discriminate | reflexivity]. }
  assert (T : one_request_at_a_time s').
  { unfold one_request_at_a_time, isBatchProcessingInProgress. rewrite B, N.
    split; [|discriminate].
    destruct R as [[-> _] | [-> _]]; cbn; lia. }
  cut (keeps_cancelled s s' /\ m_curFilter s' = m_curFilter s); [tauto|].
  clear B R N T.
  rewrite loadPageInteractive_unfold in H. cbv zeta in H.
  destruct (isBatchProcessingInProgress s); [discriminate|].
  pose proof (keeps_cancelled_interactive_cancelAndClear s) as K1.
  assert (C1 : m_curFilter (interactive_cancelAndClear s) = m_curFilter s)
    by apply interactive_cancelAndClear_eq.
  set (s1 := interactive_cancelAndClear s) in *. clearbody s1.
  destruct (isOutputFilter (m_curFilter s1) && _).
  { injection H as <-. split; [exact K1 | exact C1]. }
  destruct (filterAt (m_curFilter s1)); [|discriminate].
  destruct (negb (m_thumbnailCache s1)); [discriminate|].
  pose proof (keeps_cancelled_interactive_cancelAndClear s1) as K2.
  assert (C2 : m_curFilter (interactive_cancelAndClear s1) = m_curFilter s1)
    by apply interactive_cancelAndClear_eq.
  set (s2 := interactive_cancelAndClear s1) in *. clearbody s2.
  destruct (snd (createCompositeTask page (m_curFilter s2) false (m_debug s2)))
    as [composite|]; [|discriminate].
  unfold alloc in H. cbv zeta in H.
  match type of H with
  | context [takeForProcessing ?q] =>
      destruct (takeForProcessing q) as [[tsk|] q']; [|discriminate]
  end.
  injection H as <-. unfold submitTask. project. split; [|congruence].
  intros p Hp. project. apply isCancelled_app_mono. auto.
Qed.

Lemma updateMainArea_orderly s s' :
  updateMainArea env s = Some s' ->
  orderly_step s s' /\ m_curFilter s' = m_curFilter s.
Proof.
  unfold updateMainArea. intros H.
  destruct (Nat.eqb _ 0); [injection H as <-; split; [apply orderly_refl | reflexivity]|].
  destruct (isBatchProcessingInProgress s);
    [injection H as <-; split; [apply orderly_refl | reflexivity]|].
  destruct (PageInfo.isNull _);
    [injection H as <-; split; [apply orderly_refl | reflexivity]|].
  apply loadPageInteractive_orderly in H. destruct H as [K [T C]].
  split; [split; auto | exact C].
Qed.

Lemma goToPage_orderly p s s' : goToPage env p s = Some s' -> orderly_step s s'.
Proof.
  unfold goToPage. intros H. apply updateMainArea_orderly in H.
  eapply orderly_trans; [apply orderly_selection, selection_setSelection | apply H].
Qed.

Lemma goFirstPage_orderly s s' : goFirstPage env s = Some s' -> orderly_step s s'.
Proof.
  unfold goFirstPage. intros H.
  destruct (_ || _); [injection H as <-; apply orderly_refl|].
  destruct (negb _); [|injection H as <-; apply orderly_refl].
  eapply goToPage_orderly; eassumption.
Qed.

Lemma stopBatchProcessing_orderly area s s' :
  stopBatchProcessing env area s = Some s' ->
  orderly_step s s' /\ m_curFilter s' = m_curFilter s /\
  (forall bq e, m_batchQueue s = Some bq -> In e bq ->
     (task e < length (m_store s))%nat ->
     isCancelled (m_store s') (task e) = true).
Proof.
  unfold stopBatchProcessing. intros H.
  destruct (m_batchQueue s) as [bq|] eqn:B.
  2:{ injection H as <-. split; [apply orderly_refl|]. split; [reflexivity|].
      intros; discriminate. }
  match type of H with
  | context [cancelAndClear (m_store ?x) bq] =>
      assert (K1 : selection_step s x)
        by (destruct (negb _); [apply selection_setSelection | apply selection_refl]);
      set (s1 := x) in *
  end.
  destruct K1 as [ts [tr E1]].
  assert (S1 : m_store s1 = m_store s) by (rewrite E1; reflexivity).
  assert (Q1 : m_interactiveQueue s1 = m_interactiveQueue s) by (rewrite E1; reflexivity).
  assert (C1 : m_curFilter s1 = m_curFilter s) by (rewrite E1; reflexivity).
  clear E1. clearbody s1.
  unfold cancelAndClear in H. cbv zeta in H.
  match type of H with
  | context [set_batchQueue None ?x] => set (s2 := set_batchQueue None x) in *
  end.
  assert (S2 : m_store s2 = fst (cancelAndClear (m_store s) bq))
    by (subst s2; unfold cancelAndClear; project; cbn [fst]; rewrite S1; reflexivity).
  assert (Q2 : m_interactiveQueue s2 = m_interactiveQueue s) by (subst s2; project; exact Q1).
  assert (B2 : m_batchQueue s2 = None) by reflexivity.
  assert (C2 : m_curFilter s2 = m_curFilter s) by (subst s2; project; exact C1).
  clearbody s2.
  assert (O2 : orderly_step s s2).
  { split.
    - intros p Hp. rewrite S2. apply cancelAndClear_mono. exact Hp.
    - intros [_ T]. unfold isBatchProcessingInProgress in T. rewrite B in T.
      specialize (T eq_refl).
      unfold one_request_at_a_time, isBatchProcessingInProgress. rewrite Q2, B2, T.
      split; [cbn; lia | discriminate]. }
  assert (X2 : forall e, In e bq -> (task e < length (m_store s))%nat ->
                 isCancelled (m_store s2) (task e) = true).
  { intros e Hin Hlt. rewrite S2. apply cancelAndClear_cancels; assumption. }
  assert (R : forall s3, orderly_step s2 s3 -> m_curFilter s3 = m_curFilter s2 ->
                resetThumbSequence env (default_selection_action env) s3 = Some s' ->
                orderly_step s s' /\ m_curFilter s' = m_curFilter s /\
                (forall bq0 e, Some bq = Some bq0 -> In e bq0 ->
                   (task e < length (m_store s))%nat ->
                   isCancelled (m_store s') (task e) = true)).
  { intros s3 O3 C3 H3. apply selection_resetThumbSequence in H3.
    pose proof (orderly_selection _ _ H3) as O4.
    assert (C4 : m_curFilter s' = m_curFilter s3)
      by (destruct H3 as [ts' [tr' ->]]; reflexivity).
    assert (O : orderly_step s2 s') by (eapply orderly_trans; eassumption).
    split; [eapply orderly_trans; eassumption|]. split; [congruence|].
    intros bq0 e Hb Hin Hlt. injection Hb as <-. apply O. auto. }
  destruct area.
  - destruct (updateMainArea env s2) as [s3|] eqn:U; [|discriminate].
    apply updateMainArea_orderly in U. destruct U as [O3 C3]. eapply R; eassumption.
  - apply (R s2); [apply orderly_refl | reflexivity | exact H].
Qed.

Lemma submitAll_frame (l : list BackgroundTaskPtr) (s : MainWindow.t) :
  m_store (submitAll l s) = m_store s /\
  m_interactiveQueue (submitAll l s) = m_interactiveQueue s /\
  m_batchQueue (submitAll l s) = m_batchQueue s /\
  m_curFilter (submitAll l s) = m_curFilter s.
Proof. rewrite submitAll_eq. auto. Qed.

Lemma refillLoop_result fuel q s q' s' :
  refillLoop fuel q s = Some (q', s') ->
  (exists l, s' = submitAll l s) /\ contents q' = contents q.
Proof.
  revert q s. induction fuel as [|fuel IH]; intros q s H; [discriminate|].
  cbn [refillLoop] in H.
  pose proof (takeForProcessing_contents q) as Pg.
  destruct (takeForProcessing q) as [[tsk|] q1]; cbn [snd] in Pg.
  - cbv zeta in H.
    destruct (WorkerThreadPool.hasSpareCapacity (m_workerThreadPool (submitTask tsk s))).
    + apply IH in H. destruct H as [[l ->] E]. split; [exists (tsk :: l); reflexivity|].
      congruence.
    + injection H as <- <-. split; [exists [tsk]; reflexivity | exact Pg].
  - injection H as <- <-. split; [exists []; reflexivity | exact Pg].
Qed.

(** A batch that has started leaves no interactive request behind. *)
Lemma startBatchProcessing_orderly fuel s s' :
  startBatchProcessing env fuel s = Some s' -> orderly_step s s'.
Proof.
  unfold startBatchProcessing. intros H.
  destruct (_ || _); [injection H as <-; apply orderly_refl|].
  pose proof (keeps_cancelled_interactive_cancelAndClear s) as K1.
  assert (Q1 : m_interactiveQueue (interactive_cancelAndClear s) = [])
    by apply interactive_cancelAndClear_eq.
  set (s1 := interactive_cancelAndClear s) in *. clearbody s1.
  destruct (enqueueBatch fuel (m_thumbSequence s1) (m_curFilter s1) (m_debug s1)
              (ThumbnailSequence.selectionLeader (m_thumbSequence s1)) (m_store s1) [])
    as [[st' q0]|] eqn:E; [|discriminate].
  apply enqueueBatchWith_store in E. destruct E as [new ->].
  cbn [fst snd] in H.
  destruct (takeForProcessing q0) as [taken q1].
  match type of H with
  | context [set_batchQueue (Some q1) ?x] => set (s2 := set_batchQueue (Some q1) x) in *
  end.
  assert (K2 : keeps_cancelled s s2).
  { intros p Hp. subst s2. project. apply isCancelled_app_mono. auto. }
  assert (Q2 : m_interactiveQueue s2 = []) by (subst s2; project; exact Q1).
  clearbody s2. clear K1 Q1.
  match type of H with
  | (match ?c with Some _ => _ | None => None end) = _ =>
      destruct c as [s3|] eqn:C; [|discriminate]
  end.
  assert (I3 : keeps_cancelled s s3 /\ one_request_at_a_time s3).
  { destruct taken as [tsk|].
    - destruct (submitLoop fuel tsk q1 s2) as [[q' s2']|] eqn:L; [|discriminate].
      apply submitLoop_result in L. destruct L as [l ->].
      destruct (submitAll_frame l s2) as [F1 [F2 _]].
      injection C as <-. cbn [fst snd]. split.
      + intros p Hp. project. rewrite F1. auto.
      + unfold one_request_at_a_time. project. rewrite F2, Q2. split; [cbn; lia | reflexivity].
    - apply stopBatchProcessing_orderly in C. destruct C as [[K3 T3] _]. split.
      + intros p Hp. auto.
      + apply T3. unfold one_request_at_a_time. rewrite Q2. split; [cbn; lia | reflexivity]. }
  destruct I3 as [K3 T3].
  destruct (m_batchQueue s3) as [bq|]; [|discriminate].
  apply updateMainArea_orderly in H. destruct H as [[K4 T4] _].
  match type of K4 with
  | keeps_cancelled ?x _ =>
      assert (O : orderly_step s3 x)
        by (destruct (negb _);
            [apply orderly_selection, selection_setSelection | apply orderly_refl])
  end.
  destruct O as [K5 T5]. split; [intros p Hp; auto | auto].
Qed.

(** What a change of the selected stage does to the queues. *)
Lemma filterSelectionChanged_spec top rest s s' :
  m_ignoreSelectionChanges s = 0 ->
  filterSelectionChanged env (top :: rest) s = Some s' ->
  keeps_cancelled s s' /\ one_request_at_a_time s' /\
  m_curFilter s' = top /\
  m_batchQueue s' = option_map (fun _ => []) (m_batchQueue s) /\
  (forall e,
     In e (m_interactiveQueue s) \/ (exists bq, m_batchQueue s = Some bq /\ In e bq) ->
     (task e < length (m_store s))%nat ->
     isCancelled (m_store s') (task e) = true).
Proof.
  intros G H. rewrite filterSelectionChanged_unfold in H. rewrite G in H. cbn [Z.eqb negb] in H.
  cbv zeta in H.
  destruct (interactive_cancelAndClear_eq s) as [S1 [Q1 [_ [_ B1]]]].
  set (s1 := interactive_cancelAndClear s) in *. clearbody s1.
  set (s2 := match m_batchQueue s1 with
             | Some bq =>
                 let (st, q) := cancelAndClear (m_store s1) bq in
                 set_batchQueue (Some q) (set_store st s1)
             | None => s1
             end) in *.
  assert (F2 : m_interactiveQueue s2 = [] /\
               m_batchQueue s2 = option_map (fun _ => []) (m_batchQueue s) /\
               m_store s2 = match m_batchQueue s with
                            | Some bq => fst (cancelAndClear (m_store s1) bq)
                            | None => m_store s1
                            end).
  { subst s2. rewrite B1. destruct (m_batchQueue s) as [bq|]; unfold cancelAndClear; project;
      cbn [fst]; auto. }
  destruct F2 as [Q2 [B2 S2]]. clearbody s2.
  match type of H with
  | context [resetThumbSequence env _ ?x] => set (s4 := x) in *
  end.
  assert (F4 : m_interactiveQueue s4 = [] /\ m_batchQueue s4 = m_batchQueue s2 /\
               m_store s4 = m_store s2 /\ m_curFilter s4 = top).
  { subst s4. rewrite <- Q2. clear.
    destruct s2 as [? ? ? ? ? ? ? p1 p2 ? ? ? ? ? ?]. project.
    destruct (_ && _), (_ && _), p1, p2; project; auto. }
  destruct F4 as [Q4 [B4 [S4 C4]]]. clearbody s4.
  destruct (resetThumbSequence env ThumbnailSequence.KEEP_SELECTION s4) as [s5|] eqn:R;
    [|discriminate].
  apply selection_resetThumbSequence in R. destruct R as [ts [tr ->]].
  pose proof (batchQueue_updateMainArea env _ _ H) as B6.
  apply updateMainArea_orderly in H. destruct H as [[K6 T6] C6].
  project_in B6. project_in C6.
  assert (K : forall p, isCancelled (m_store s2) p = true -> isCancelled (m_store s') p = true).
  { intros p Hp. apply K6. project. rewrite S4. exact Hp. }
  split.
  { intros p Hp. apply K. rewrite S2.
    assert (isCancelled (m_store s1) p = true) by (rewrite S1; apply cancelAndClear_mono; exact Hp).
    destruct (m_batchQueue s); [apply cancelAndClear_mono|]; assumption. }
  split.
  { apply T6. unfold one_request_at_a_time. project. rewrite Q4.
    split; [cbn; lia | reflexivity]. }
  split; [congruence|]. split; [congruence|].
  intros e [Hin | [bq [Hb Hin]]] Hlt; apply K; rewrite S2.
  - assert (isCancelled (m_store s1) (task e) = true)
      by (rewrite S1; apply cancelAndClear_cancels; assumption).
    destruct (m_batchQueue s); [apply cancelAndClear_mono|]; assumption.
  - rewrite Hb. apply cancelAndClear_cancels; [exact Hin|].
    rewrite S1, cancelAndClear_length. exact Hlt.
Qed.

Lemma filterSelectionChanged_orderly selected s s' :
  filterSelectionChanged env selected s = Some s' -> orderly_step s s'.
Proof.
  intros H.
  destruct (Z.eq_dec (m_ignoreSelectionChanges s) 0) as [G | G].
  - destruct selected as [|top rest].
    + rewrite filterSelectionChanged_unfold in H. rewrite G in H. injection H as <-.
      apply orderly_refl.
    + destruct (filterSelectionChanged_spec _ _ _ _ G H) as [K [T _]]. split; auto.
  - rewrite filterSelectionChanged_suppressed in H by exact G.
    injection H as <-. apply orderly_refl.
Qed.

Lemma filterSelectionChanged_no_batch selected s s' :
  filterSelectionChanged env selected s = Some s' ->
  m_batchQueue s = None -> m_batchQueue s' = None.
Proof.
  intros H B.
  destruct (Z.eq_dec (m_ignoreSelectionChanges s) 0) as [G | G].
  - destruct selected as [|top rest].
    + rewrite filterSelectionChanged_unfold in H. rewrite G in H. injection H as <-. exact B.
    + destruct (filterSelectionChanged_spec _ _ _ _ G H) as [_ [_ [_ [E _]]]].
      rewrite E, B. reflexivity.
  - rewrite filterSelectionChanged_suppressed in H by exact G.
    injection H as <-. exact B.
Qed.

Lemma orderly_finished tsk s : orderly_step s (finished tsk s).
Proof.
  split; [intros p H; exact H|].
  unfold one_request_at_a_time, isBatchProcessingInProgress, finished. project.
  intros [L T]. split.
  - unfold processingFinished. etransitivity; [apply filter_length_le | exact L].
  - intros Hb. rewrite T; [reflexivity|]. destruct (m_batchQueue s); [reflexivity | discriminate].
Qed.

Lemma batchQueue_goFirstPage s s' :
  goFirstPage env s = Some s' -> m_batchQueue s' = m_batchQueue s.
Proof.
  unfold goFirstPage. intros H.
  destruct (_ || _); [injection H as <-; reflexivity|].
  destruct (negb _); [|injection H as <-; reflexivity].
  unfold goToPage in H. apply batchQueue_updateMainArea in H.
  rewrite H. apply batchQueue_setSelection.
Qed.

(** What the completion callback does to the queues. *)
Lemma filterResult_spec fuel tsk result s s' :
  filterResult env fuel tsk result s = Some s' ->
  orderly_step s s' /\
  (forall bq, m_batchQueue s = Some bq -> isCancelled (m_store s) tsk = false ->
     processingFinished tsk bq = [] /\ m_batchQueue s' = None /\ In Alert (trace s')
     \/
     processingFinished tsk bq <> [] /\
     exists bq', m_batchQueue s' = Some bq' /\
                 contents bq' = contents (processingFinished tsk bq)).
Proof.
  rewrite filterResult_unfold. cbv zeta.
  pose proof (orderly_finished tsk s) as O0.
  assert (S0 : m_store (finished tsk s) = m_store s) by reflexivity.
  assert (B0 : m_batchQueue (finished tsk s)
               = option_map (processingFinished tsk) (m_batchQueue s)) by reflexivity.
  set (s0 := finished tsk s) in *. clearbody s0.
  rewrite S0. intros H.
  destruct (isCancelled (m_store s) tsk) eqn:Cn.
  { injection H as <-. split; [exact O0|]. intros; discriminate. }
  unfold isBatchProcessingInProgress in H at 1.
  destruct (m_batchQueue s) as [bq|] eqn:B; cbn [option_map] in B0; rewrite B0 in H;
    cbn [negb] in H.
  - (* a batch is in progress *)
    project_in H. rewrite B0 in H.
    destruct (processingFinished tsk bq) as [|e0 rest] eqn:PF; cbn [allProcessed] in H.
    + destruct (stopBatchProcessing env (default_main_area env) (emit (UpdateUI result) s0))
        as [s3|] eqn:St; [|discriminate].
      pose proof (stopBatchProcessing_none env _ _ _ St) as B3.
      apply stopBatchProcessing_orderly in St. destruct St as [O3 _].
      assert (O4 : orderly_step s0 (emit Alert s3)).
      { eapply orderly_trans; [|eapply orderly_trans; [exact O3|]];
          apply orderly_same; reflexivity. }
      set (s4 := emit Alert s3) in *.
      assert (B4 : m_batchQueue s4 = None) by exact B3.
      assert (A4 : In Alert (trace s4)) by (subst s4; project; apply in_or_app; right; left; reflexivity).
      clearbody s4.
      assert (Fin : orderly_step s4 s' /\ m_batchQueue s' = None /\ In Alert (trace s')).
      { destruct (PageId.eqb _ _).
        - pose proof (batchQueue_goFirstPage _ _ H) as B5.
          pose proof (quiet_goFirstPage env _ _ H) as [[l [E _]] _].
          apply goFirstPage_orderly in H.
          split; [exact H|]. split; [congruence|]. rewrite E. apply in_or_app. auto.
        - injection H as <-. split; [apply orderly_refl | auto]. }
      destruct Fin as [O5 [B5 A5]].
      split; [eauto using orderly_trans|].
      intros bq0 Hb _. injection Hb as <-. left. auto.
    + destruct (refillLoop fuel (e0 :: rest) (emit (UpdateUI result) s0))
        as [[q' s3]|] eqn:L; [|discriminate].
      apply refillLoop_result in L. destruct L as [[l ->] Ec].
      destruct (submitAll_frame l (emit (UpdateUI result) s0)) as [F1 [F2 _]].
      cbn [fst snd] in H. injection H as <-.
      match goal with
      | |- orderly_step s ?x /\ _ =>
          assert (K : selection_step
                        (set_batchQueue (Some q') (submitAll l (emit (UpdateUI result) s0))) x)
            by (destruct (negb _); [apply selection_setSelection | apply selection_refl]);
          set (s5 := x) in *; clearbody s5
      end.
      set (s4 := set_batchQueue (Some q') (submitAll l (emit (UpdateUI result) s0))) in *.
      assert (S4 : m_store s4 = m_store s0) by (subst s4; project; exact F1).
      assert (Q4 : m_interactiveQueue s4 = m_interactiveQueue s0) by (subst s4; project; exact F2).
      assert (B4 : m_batchQueue s4 = Some q') by reflexivity.
      clearbody s4.
      assert (O4 : orderly_step s0 s4).
      { split; [intros p Hp; rewrite S4; exact Hp|].
        unfold one_request_at_a_time, isBatchProcessingInProgress.
        rewrite Q4, B4, B0. auto. }
      split.
      * eapply orderly_trans; [exact O0|]. eapply orderly_trans; [exact O4|].
        apply orderly_selection. exact K.
      * intros bq0 Hb _. injection Hb as <-. right. split; [rewrite PF; discriminate|].
        exists q'. destruct K as [ts [tr ->]]. project. rewrite PF. auto.
  - (* no batch *)
    match type of H with
    | (match ?c with Some _ => _ | None => None end) = _ =>
        destruct c as [s1|] eqn:Mid; [|discriminate]
    end.
    assert (I1 : orderly_step s0 s1 /\ m_batchQueue s1 = None).
    { destruct (filter result) as [f|]; [|injection Mid as <-; split; [apply orderly_refl | exact B0]].
      destruct (match filterAt (m_curFilter s0) with
                | Some g => negb (Stage_eqb f g)
                | None => true
                end); [|injection Mid as <-; split; [apply orderly_refl | exact B0]].
      destruct (findFilter f <? 0); [discriminate|].
      match type of Mid with
      | context [filterSelectionChanged env _ ?x] =>
          assert (OA : orderly_step s0 x) by (apply orderly_same; reflexivity);
          assert (BA : m_batchQueue x = None) by exact B0;
          set (sA := x) in *; clearbody sA
      end.
      destruct (filterSelectionChanged env [findFilter f] sA) as [sB|] eqn:FS; [|discriminate].
      pose proof (filterSelectionChanged_no_batch _ _ _ FS BA) as BB.
      apply filterSelectionChanged_orderly in FS.
      injection Mid as <-. split; [|exact BB].
      eapply orderly_trans; [exact OA|]. eapply orderly_trans; [exact FS|].
      apply orderly_same; reflexivity. }
    destruct I1 as [O1 B1]. project_in H. rewrite B1 in H. injection H as <-.
    split; [|intros; discriminate].
    eapply orderly_trans; [exact O0|]. eapply orderly_trans; [exact O1|].
    apply orderly_same; reflexivity.
Qed.

Lemma step_orderly s s' : step env s s' -> orderly_step s s'.
Proof.
  intros [selected s2 H | fuel s2 H | area s2 H | fuel tsk result s2 H | s2 H | p s2 H | s2 H].
  - eapply filterSelectionChanged_orderly; eassumption.
  - eapply startBatchProcessing_orderly; eassumption.
  - apply stopBatchProcessing_orderly in H. apply H.
  - apply filterResult_spec in H. apply H.
  - apply updateMainArea_orderly in H. apply H.
  - eapply goToPage_orderly; eassumption.
  - eapply goFirstPage_orderly; eassumption.
Qed.

Lemma steps_orderly s s' : steps env s s' -> orderly_step s s'.
Proof.
  induction 1 as [|s1 s2 _ IH St]; [apply orderly_refl|].
  eapply orderly_trans; [exact IH | apply step_orderly; exact St].
Qed.

(** X7.  Cancellation is permanent.  Whatever handlers run in between, a
    task that has been cancelled stays cancelled, and when its result
    arrives [filterResult] does the queue bookkeeping and nothing else. *)
Theorem cancelled_task_result_is_dropped (fuel : nat) (tsk : BackgroundTaskPtr)
    (result : FilterResult) (s s' : MainWindow.t) :
  steps env s s' ->
  isCancelled (m_store s) tsk = true ->
  isCancelled (m_store s') tsk = true /\
  filterResult env fuel tsk result s' = Some (finished tsk s').
Proof.
  intros St C. apply steps_orderly in St. destruct St as [K _].
  specialize (K tsk C). split; [exact K|].
  apply filterResult_cancelled. exact K.
Qed.

(** X8.  [stopBatchProcessing] ends the batch and cancels every task of the
    batch queue, so that the results of the tasks that are still running
    are dropped when they arrive. *)
Theorem stopBatchProcessing_cancels_the_batch (area : MainAreaAction)
    (s s' : MainWindow.t) (bq : ProcessingTaskQueue.t) :
  m_batchQueue s = Some bq ->
  stopBatchProcessing env area s = Some s' ->
  m_batchQueue s' = None /\
  forall e, In e bq -> (task e < length (m_store s))%nat ->
    isCancelled (m_store s') (task e) = true /\
    forall fuel result,
      filterResult env fuel (task e) result s' = Some (finished (task e) s').
Proof.
  intros B H. split; [eapply stopBatchProcessing_none; exact H|].
  apply stopBatchProcessing_orderly in H. destruct H as [_ [_ X]].
  intros e Hin Hlt. specialize (X bq e B Hin Hlt). split; [exact X|].
  intros fuel result. apply filterResult_cancelled. exact X.
Qed.

(** X9.  A change of the selected stage that is not suppressed makes the
    new stage the current one and cancels every task of the interactive
    queue and of the batch queue.  A batch queue is emptied but kept, so the
    batch stays in progress with nothing left in it. *)
Theorem stage_change_cancels_everything (top : Z) (rest : list Z) (s s' : MainWindow.t) :
  m_ignoreSelectionChanges s = 0 ->
  filterSelectionChanged env (top :: rest) s = Some s' ->
  m_curFilter s' = top /\
  m_batchQueue s' = option_map (fun _ => []) (m_batchQueue s) /\
  forall e,
    In e (m_interactiveQueue s) \/ (exists bq, m_batchQueue s = Some bq /\ In e bq) ->
    (task e < length (m_store s))%nat ->
    isCancelled (m_store s') (task e) = true.
Proof.
  intros G H. destruct (filterSelectionChanged_spec _ _ _ _ G H) as [_ [_ [C [B X]]]].
  auto.
Qed.

(** X11.  In every window that can arise the interactive queue holds at
    most one entry, and none while a batch is in progress. *)
Theorem requests_do_not_pile_up (s : MainWindow.t) :
  reachable env s -> one_request_at_a_time s.
Proof.
  induction 1 as [s Hi Hb | s s' _ IH St].
  - unfold one_request_at_a_time. rewrite Hi. split; [cbn; lia | reflexivity].
  - apply step_orderly in St. apply St. exact IH.
Qed.

End Orderly.

(** Page B was being processed when the user moved on to page C; one more
    move later the result for page B is still dropped. *)
Lemma cancelled_task_result_is_dropped_witness :
  exists s',
    MainWindow.goToPage Example.env (PageInfo.id Example.A) Scenario.moved_on_window = Some s' /\
    isCancelled (MainWindow.m_store Scenario.moved_on_window) 0%nat = true /\
    MainWindow.filterResult Example.env 1 0%nat Example.page_split_result s'
    = Some (finished 0%nat s').
Proof.
  destruct (MainWindow.goToPage Example.env (PageInfo.id Example.A) Scenario.moved_on_window)
    as [s'|] eqn:E0; [|vm_compute in E0; discriminate].
  exists s'. split; [reflexivity|]. split; [reflexivity|].
  apply (cancelled_task_result_is_dropped Example.env 1 0%nat Example.page_split_result
           Scenario.moved_on_window s').
  - apply (steps_step Example.env _ Scenario.moved_on_window).
    + apply steps_refl.
    + apply step_goToPage with (page_id := PageInfo.id Example.A). exact E0.
  - reflexivity.
Defined.

(** The batch over pages B, C and A is stopped: the three tasks are
    cancelled. *)
Lemma stopBatchProcessing_cancels_the_batch_witness :
  MainWindow.m_batchQueue Scenario.stopped_window = None /\
  isCancelled (MainWindow.m_store Scenario.stopped_window) 0%nat = true /\
  isCancelled (MainWindow.m_store Scenario.stopped_window) 1%nat = true /\
  isCancelled (MainWindow.m_store Scenario.stopped_window) 2%nat = true.
Proof.
  destruct (MainWindow.m_batchQueue Example.batch_window) as [bq|] eqn:B;
    [|vm_compute in B; discriminate].
  assert (E0 : MainWindow.stopBatchProcessing Example.env MainWindow.UPDATE_MAIN_AREA
                 Example.batch_window = Some Scenario.stopped_window)
    by (vm_compute; reflexivity).
  destruct (stopBatchProcessing_cancels_the_batch Example.env MainWindow.UPDATE_MAIN_AREA
              Example.batch_window Scenario.stopped_window bq B E0) as [N X].
  split; [exact N|].
  vm_compute in B. injection B as <-.
  split.
  - refine (proj1 (X (ProcessingTaskQueue.mkEntry Example.B 0%nat
                         ProcessingTaskQueue.Processing) _ _)).
    + left. reflexivity.
    + vm_compute. lia.
  - split.
    + refine (proj1 (X (ProcessingTaskQueue.mkEntry Example.C 1%nat
                           ProcessingTaskQueue.Processing) _ _)).
      * right. left. reflexivity.
      * vm_compute. lia.
    + refine (proj1 (X (ProcessingTaskQueue.mkEntry Example.A 2%nat
                           ProcessingTaskQueue.Pending) _ _)).
      * right. right. left. reflexivity.
      * vm_compute. lia.
Defined.

(** The stage changes while page B is being processed. *)
Lemma stage_change_cancels_everything_witness :
  exists s',
    MainWindow.filterSelectionChanged Example.env [pageLayoutFilterIdx]
      Example.interactive_window = Some s' /\
    MainWindow.m_curFilter s' = pageLayoutFilterIdx /\
    isCancelled (MainWindow.m_store s') 0%nat = true.
Proof.
  destruct (MainWindow.filterSelectionChanged Example.env [pageLayoutFilterIdx]
              Example.interactive_window) as [s'|] eqn:E0; [|vm_compute in E0; discriminate].
  exists s'. split; [reflexivity|].
  destruct (stage_change_cancels_everything Example.env pageLayoutFilterIdx []
              Example.interactive_window s' eq_refl E0) as [C [_ X]].
  split; [exact C|].
  apply (X (ProcessingTaskQueue.mkEntry Example.B 0%nat ProcessingTaskQueue.Processing)).
  - left. left. reflexivity.
  - vm_compute. lia.
Defined.

Lemma requests_do_not_pile_up_witness :
  reachable Example.env Scenario.moved_on_window /\
  one_request_at_a_time Scenario.moved_on_window.
Proof.
  assert (R : reachable Example.env Scenario.moved_on_window).
  { apply (reachable_step Example.env Example.interactive_window).
    - apply (reachable_step Example.env Example.window).
      + apply reachable_initial; reflexivity.
      + apply step_updateMainArea. vm_compute. reflexivity.
    - apply step_goToPage with (page_id := PageInfo.id Example.C). vm_compute. reflexivity. }
  split; [exact R|].
  apply (requests_do_not_pile_up Example.env Scenario.moved_on_window R).
Defined.

(** ** Going to a page *)

Section Navigation.

Import ProcessingTaskQueue MainWindow.

Variable env : Collaborators.

(** X12.  Outside a batch, going to a page of the thumbnail sequence
    returns; it makes the page the selection leader, cancels what the
    interactive queue held, builds the page's task chain for the current
    stage (not a batch chain, with the window's debug flag), and leaves that
    task as the only entry of the interactive queue, taken and handed to the
    pool. *)
Theorem goToPage_loads_the_page (p : PageId.t) (page : PageInfo.t) (s : MainWindow.t) :
  ThumbnailSequence.lookup (m_thumbSequence s) p = Some page ->
  PageInfo.isNull page = false ->
  m_batchQueue s = None ->
  ProjectPages.numImages (m_pages s) <> 0%nat ->
  m_thumbnailCache s = true ->
  fixOrientationFilterIdx <= m_curFilter s <= outputFilterIdx ->
  (isOutputFilter (m_curFilter s) = true ->
   checkReadyForOutput env (m_pages s) (PageInfo.id page) = true) ->
  exists s' c,
    goToPage env p s = Some s' /\
    ThumbnailSequence.selectionLeader (m_thumbSequence s') = page /\
    snd (createCompositeTask page (m_curFilter s) false (m_debug s)) = Some c /\
    m_store s'
    = fst (cancelAndClear (m_store s) (m_interactiveQueue s)) ++ [mkTaskObject c false] /\
    m_interactiveQueue s' = [mkEntry page (length (m_store s)) Processing] /\
    WorkerThreadPool.executing (m_workerThreadPool s')
    = WorkerThreadPool.executing (m_workerThreadPool s) ++ [length (m_store s)].
Proof.
  intros L N B I T C R.
  destruct (createCompositeTask_total page (m_curFilter s) false (m_debug s) (proj1 C))
    as [c Hc].
  destruct (filterAt_valid (m_curFilter s) C) as [f Hf].
  unfold goToPage. unfold ThumbnailSequence.lookup in L.
  rewrite (setSelection_found p s page L). cbn [snd].
  destruct s as [st pg pool iq bq ts cache cbp pop sel cf ign dbg out tr].
  cbn [m_store m_pages m_workerThreadPool m_interactiveQueue m_batchQueue m_thumbSequence
       m_thumbnailCache m_curFilter m_debug] in *.
  subst bq cache.
  apply Nat.eqb_neq in I.
  unfold updateMainArea, isBatchProcessingInProgress. project. rewrite I.
  cbn [ThumbnailSequence.selectionLeader ThumbnailSequence.m_selectionLeader].
  rewrite N.
  unfold loadPageInteractive, isBatchProcessingInProgress, interactive_cancelAndClear.
  unfold cancelAndClear. project.
  assert (E : isOutputFilter cf && negb (checkReadyForOutput env pg (PageInfo.id page)) = false).
  { destruct (isOutputFilter cf); [rewrite R by reflexivity|]; reflexivity. }
  rewrite E, Hf. project. cbn [fold_left]. rewrite Hc.
  unfold alloc. project. unfold addProcessingTask. cbn [hasPage existsb app].
  cbn [takeForProcessing isPending status pageInfo task].
  exists (submitTask
            (length (fold_left (fun st0 e => cancel (task e) st0) iq st))
            (set_interactiveQueue
               [mkEntry page (length (fold_left (fun st0 e => cancel (task e) st0) iq st))
                  Processing]
               (mk (fold_left (fun st0 e => cancel (task e) st0) iq st
                      ++ [mkTaskObject c false])
                   pg pool
                   [mkEntry page (length (fold_left (fun st0 e => cancel (task e) st0) iq st))
                      Pending]
                   None (ThumbnailSequence.mk (ThumbnailSequence.items ts) page)
                   true cbp pop sel cf ign dbg out (tr ++ [SetSelection p true])))), c.
  pose proof (cancelAndClear_length st iq) as Len.
  unfold cancelAndClear in Len. cbn [fst] in Len.
  split; [reflexivity|]. unfold submitTask. project.
  cbn [ThumbnailSequence.selectionLeader ThumbnailSequence.m_selectionLeader
       WorkerThreadPool.submitTask WorkerThreadPool.executing fst].
  rewrite Len. auto 10.
Qed.

End Navigation.

(** Going from page B to page C of the example project. *)
Lemma goToPage_loads_the_page_witness :
  exists s',
    MainWindow.goToPage Example.env (PageInfo.id Example.C) Example.interactive_window
    = Some s' /\
    MainWindow.m_interactiveQueue s'
    = [ProcessingTaskQueue.mkEntry Example.C 1%nat ProcessingTaskQueue.Processing].
Proof.
  destruct (goToPage_loads_the_page Example.env (PageInfo.id Example.C) Example.C
              Example.interactive_window)
    as [s' [c [E [_ [_ [_ [Q _]]]]]]].
  - reflexivity.
  - reflexivity.
  - reflexivity.
  - vm_compute. discriminate.
  - reflexivity.
  - split; vm_compute; discriminate.
  - intros _. reflexivity.
  - exists s'. split; [exact E | exact Q].
Defined.

(** ** What the handlers leave alone *)

Section SameProject.

Import ProcessingTaskQueue MainWindow.

Variable env : Collaborators.

Lemma request_loadPageInteractive page s s' :
  loadPageInteractive env page s = Some s' -> request_step s s'.
Proof.
  destruct s as [st pg pool iq bq ts cache cbp pop sel cf ign dbg out tr].
  unfold loadPageInteractive, isBatchProcessingInProgress, interactive_cancelAndClear,
    cancelAndClear, alloc, submitTask.
  project. intros H.
  destruct bq; [discriminate|].
  destruct (isOutputFilter cf && _).
  { injection H as <-. project. repeat eexists. }
  project_in H. destruct (filterAt cf); [|discriminate]. project_in H.
  destruct cache; cbn [negb] in H; [|discriminate].
  destruct (snd (createCompositeTask page cf false dbg)) as [c|]; [|discriminate].
  cbv zeta in H. project_in H.
  match type of H with
  | context [takeForProcessing ?q] =>
      destruct (takeForProcessing q) as [[tsk|] q']; [|discriminate]
  end.
  injection H as <-. project. repeat eexists.
Qed.

Lemma request_refl s : request_step s s.
Proof. destruct s. repeat eexists. Qed.

Lemma request_updateMainArea s s' : updateMainArea env s = Some s' -> request_step s s'.
Proof.
  unfold updateMainArea. intros H.
  destruct (Nat.eqb _ 0); [injection H as <-; apply request_refl|].
  destruct (isBatchProcessingInProgress s); [injection H as <-; apply request_refl|].
  destruct (PageInfo.isNull _); [injection H as <-; apply request_refl|].
  eapply request_loadPageInteractive; eassumption.
Qed.

Lemma same_project_refl s : same_project s s.
Proof. unfold same_project. auto 10. Qed.

Lemma same_project_trans s1 s2 s3 :
  same_project s1 s2 -> same_project s2 s3 -> same_project s1 s3.
Proof. unfold same_project. intuition congruence. Qed.

Lemma same_project_selection s s' : selection_step s s' -> same_project s s'.
Proof. intros [ts [tr ->]]. unfold same_project. project. auto 10. Qed.

Lemma same_project_request s s' : request_step s s' -> same_project s s'.
Proof. intros [st [pool [iq [tr ->]]]]. unfold same_project. project. auto 10. Qed.

Lemma same_project_fields s s' :
  m_pages s' = m_pages s -> m_thumbnailCache s' = m_thumbnailCache s ->
  m_contentBoxPropagator s' = m_contentBoxPropagator s ->
  m_pageOrientationPropagator s' = m_pageOrientationPropagator s ->
  m_ignoreSelectionChanges s' = m_ignoreSelectionChanges s ->
  m_debug s' = m_debug s -> outDirIsEmpty s' = outDirIsEmpty s ->
  same_project s s'.
Proof. unfold same_project. auto 10. Qed.

Lemma same_project_interactive_cancelAndClear s :
  same_project s (interactive_cancelAndClear s).
Proof. apply same_project_fields; reflexivity. Qed.

Lemma same_project_updateMainArea s s' :
  updateMainArea env s = Some s' -> same_project s s'.
Proof. intros H. apply same_project_request, request_updateMainArea. exact H. Qed.

Lemma same_project_goToPage p s s' : goToPage env p s = Some s' -> same_project s s'.
Proof.
  unfold goToPage. intros H. apply same_project_updateMainArea in H.
  eapply same_project_trans; [apply same_project_selection, selection_setSelection | exact H].
Qed.

Lemma same_project_goFirstPage s s' : goFirstPage env s = Some s' -> same_project s s'.
Proof.
  unfold goFirstPage. intros H.
  destruct (_ || _); [injection H as <-; apply same_project_refl|].
  destruct (negb _); [|injection H as <-; apply same_project_refl].
  eapply same_project_goToPage; eassumption.
Qed.

Lemma same_project_stopBatchProcessing area s s' :
  stopBatchProcessing env area s = Some s' -> same_project s s'.
Proof.
  unfold stopBatchProcessing. intros H.
  destruct (m_batchQueue s) as [bq|] eqn:B; [|injection H as <-; apply same_project_refl].
  match type of H with
  | context [cancelAndClear (m_store ?x) bq] =>
      assert (K1 : same_project s x)
        by (destruct (negb _);
            [apply same_project_selection, selection_setSelection | apply same_project_refl]);
      set (s1 := x) in *; clearbody s1
  end.
  unfold cancelAndClear in H. cbv zeta in H.
  match type of H with
  | context [set_batchQueue None ?x] =>
      assert (K2 : same_project s1 (set_batchQueue None x))
        by (apply same_project_fields; reflexivity);
      set (s2 := set_batchQueue None x) in *; clearbody s2
  end.
  destruct area.
  - destruct (updateMainArea env s2) as [s3|] eqn:U; [|discriminate].
    apply same_project_updateMainArea in U.
    apply selection_resetThumbSequence, same_project_selection in H.
    eauto using same_project_trans.
  - apply selection_resetThumbSequence, same_project_selection in H.
    eauto using same_project_trans.
Qed.

Lemma same_project_submitAll l s : same_project s (submitAll l s).
Proof. rewrite submitAll_eq. apply same_project_fields; reflexivity. Qed.

Lemma same_project_startBatchProcessing fuel s s' :
  startBatchProcessing env fuel s = Some s' ->
  same_project s s' /\ m_curFilter s' = m_curFilter s.
Proof.
  unfold startBatchProcessing. intros H.
  destruct (_ || _); [injection H as <-; split; [apply same_project_refl | reflexivity]|].
  pose proof (same_project_interactive_cancelAndClear s) as K1.
  assert (C1 : m_curFilter (interactive_cancelAndClear s) = m_curFilter s) by reflexivity.
  set (s1 := interactive_cancelAndClear s) in *. clearbody s1.
  destruct (enqueueBatch fuel (m_thumbSequence s1) (m_curFilter s1) (m_debug s1)
              (ThumbnailSequence.selectionLeader (m_thumbSequence s1)) (m_store s1) [])
    as [[st' q0]|]; [|discriminate].
  cbn [fst snd] in H.
  destruct (takeForProcessing q0) as [taken q1].
  match type of H with
  | context [set_batchQueue (Some q1) ?x] =>
      assert (K2 : same_project s1 (set_batchQueue (Some q1) x))
        by (apply same_project_fields; reflexivity);
      assert (C2 : m_curFilter (set_batchQueue (Some q1) x) = m_curFilter s1) by reflexivity;
      set (s2 := set_batchQueue (Some q1) x) in *; clearbody s2
  end.
  match type of H with
  | (match ?c with Some _ => _ | None => None end) = _ =>
      destruct c as [s3|] eqn:C; [|discriminate]
  end.
  assert (K3 : same_project s2 s3 /\ m_curFilter s3 = m_curFilter s2).
  { destruct taken as [tsk|].
    - destruct (submitLoop fuel tsk q1 s2) as [[q' s2']|] eqn:L; [|discriminate].
      apply submitLoop_result in L. destruct L as [l ->].
      injection C as <-. cbn [fst snd].
      pose proof (same_project_submitAll l s2) as K.
      destruct (submitAll_frame l s2) as [_ [_ [_ F]]].
      split; [|exact F].
      eapply same_project_trans; [exact K|]. apply same_project_fields; reflexivity.
    - pose proof (same_project_stopBatchProcessing _ _ _ C) as K.
      apply stopBatchProcessing_orderly in C. destruct C as [_ [C _]]. auto. }
  destruct K3 as [K3 C3].
  destruct (m_batchQueue s3) as [bq|]; [|discriminate].
  pose proof (same_project_updateMainArea _ _ H) as K5.
  apply updateMainArea_orderly in H. destruct H as [_ C5].
  match type of K5 with
  | same_project ?x _ =>
      assert (K4 : selection_step s3 x)
        by (destruct (negb _); [apply selection_setSelection | apply selection_refl]);
      set (s4 := x) in *; clearbody s4
  end.
  assert (C4 : m_curFilter s4 = m_curFilter s3) by (destruct K4 as [ts [tr ->]]; reflexivity).
  apply same_project_selection in K4.
  split; [eauto 6 using same_project_trans | congruence].
Qed.

Lemma same_project_filterSelectionChanged selected s s' :
  filterSelectionChanged env selected s = Some s' -> same_project s s'.
Proof.
  intros H.
  destruct (Z.eq_dec (m_ignoreSelectionChanges s) 0) as [G | G].
  2:{ rewrite filterSelectionChanged_suppressed in H by exact G.
      injection H as <-. apply same_project_refl. }
  destruct selected as [|top rest].
  { rewrite filterSelectionChanged_unfold in H. rewrite G in H. injection H as <-.
    apply same_project_refl. }
  rewrite filterSelectionChanged_unfold in H. rewrite G in H. cbn [Z.eqb negb] in H. cbv zeta in H.
  pose proof (same_project_interactive_cancelAndClear s) as K1.
  set (s1 := interactive_cancelAndClear s) in *. clearbody s1.
  match type of H with
  | context [resetThumbSequence env _ ?x] =>
      assert (K4 : same_project s1 x);
      [|set (s4 := x) in *; clearbody s4]
  end.
  { clear. destruct s1 as [? ? ? ? bq ? ? p1 p2 ? ? ? ? ? ?].
    unfold cancelAndClear. project.
    destruct bq; project;
      destruct (_ && _), (_ && _), p1, p2; project; apply same_project_fields; reflexivity. }
  destruct (resetThumbSequence env ThumbnailSequence.KEEP_SELECTION s4) as [s5|] eqn:R;
    [|discriminate].
  apply selection_resetThumbSequence, same_project_selection in R.
  apply same_project_updateMainArea in H.
  eauto 6 using same_project_trans.
Qed.

Lemma same_project_filterResult fuel tsk result s s' :
  filterResult env fuel tsk result s = Some s' -> same_project s s'.
Proof.
  rewrite filterResult_unfold. cbv zeta.
  assert (K0 : same_project s (finished tsk s)) by (apply same_project_fields; reflexivity).
  set (s0 := finished tsk s) in *. clearbody s0.
  intros H.
  destruct (isCancelled (m_store s0) tsk); [injection H as <-; exact K0|].
  match type of H with
  | (match ?c with Some _ => _ | None => None end) = _ =>
      destruct c as [s1|] eqn:Mid; [|discriminate]
  end.
  assert (K1 : same_project s0 s1).
  { destruct (negb (isBatchProcessingInProgress s0));
      [|injection Mid as <-; apply same_project_refl].
    destruct (filter result) as [f|]; [|injection Mid as <-; apply same_project_refl].
    destruct (match filterAt (m_curFilter s0) with
              | Some g => negb (Stage_eqb f g)
              | None => true
              end); [|injection Mid as <-; apply same_project_refl].
    destruct (findFilter f <? 0); [discriminate|].
    match type of Mid with
    | context [filterSelectionChanged env _ ?x] =>
        assert (IA : m_ignoreSelectionChanges x = m_ignoreSelectionChanges s0 + 1)
          by reflexivity;
        assert (KA : m_pages x = m_pages s0 /\ m_thumbnailCache x = m_thumbnailCache s0 /\
                     m_contentBoxPropagator x = m_contentBoxPropagator s0 /\
                     m_pageOrientationPropagator x = m_pageOrientationPropagator s0 /\
                     m_selectedPage x = m_selectedPage s0 /\
                     m_debug x = m_debug s0 /\ outDirIsEmpty x = outDirIsEmpty s0)
          by (repeat split; reflexivity);
        set (sA := x) in *; clearbody sA
    end.
    destruct (filterSelectionChanged env [findFilter f] sA) as [sB|] eqn:FS; [|discriminate].
    apply same_project_filterSelectionChanged in FS.
    injection Mid as <-. unfold same_project in *. project.
    intuition (try congruence). lia. }
  set (s2 := emit (UpdateUI result) s1) in *.
  assert (K2 : same_project s1 s2) by (apply same_project_fields; reflexivity).
  clearbody s2.
  assert (K : same_project s s2) by eauto using same_project_trans.
  clear K0 K1 K2 Mid.
  destruct (m_batchQueue s2) as [bq|]; [|injection H as <-; exact K].
  destruct (allProcessed bq).
  - destruct (stopBatchProcessing env (default_main_area env) s2) as [s3|] eqn:St;
      [|discriminate].
    apply same_project_stopBatchProcessing in St.
    set (s4 := emit Alert s3) in *.
    assert (K4 : same_project s3 s4) by (apply same_project_fields; reflexivity).
    clearbody s4.
    destruct (PageId.eqb _ _).
    + apply same_project_goFirstPage in H. eauto 6 using same_project_trans.
    + injection H as <-. eauto 6 using same_project_trans.
  - destruct (refillLoop fuel bq s2) as [[q' s3]|] eqn:L; [|discriminate].
    apply refillLoop_result in L. destruct L as [[l ->] _].
    cbn [fst snd] in H. injection H as <-.
    pose proof (same_project_submitAll l s2) as K3.
    set (s4 := set_batchQueue (Some q') (submitAll l s2)) in *.
    assert (K4 : same_project (submitAll l s2) s4) by (apply same_project_fields; reflexivity).
    clearbody s4.
    match goal with
    | |- same_project s ?x =>
        assert (K5 : selection_step s4 x)
          by (destruct (negb _); [apply selection_setSelection | apply selection_refl])
    end.
    apply same_project_selection in K5. eauto 6 using same_project_trans.
Qed.

(** X13.  No scheduling handler touches the project itself: whichever of
    them runs, the pages, the thumbnail cache, the propagators, the debug
    flag and the output directory are as before, and the guard
    [m_ignoreSelectionChanges] is back at the value it had, also after
    [filterResult] has raised it around its own [selectRow].  (The
    remembered selection [m_selectedPage] is not among them: the thumbnail
    sequence reports a new selection leader to [currentPageChanged], which
    writes it.) *)
Theorem handlers_keep_the_project (s s' : MainWindow.t) :
  steps env s s' -> same_project s s'.
Proof.
  induction 1 as [|s1 s2 _ IH St]; [apply same_project_refl|].
  eapply same_project_trans; [exact IH|]. clear IH.
  destruct St as [selected s3 H | fuel s3 H | area s3 H | fuel tsk result s3 H
                 | s3 H | p s3 H | s3 H].
  - eapply same_project_filterSelectionChanged; eassumption.
  - eapply same_project_startBatchProcessing; eassumption.
  - eapply same_project_stopBatchProcessing; eassumption.
  - eapply same_project_filterResult; eassumption.
  - eapply same_project_updateMainArea; eassumption.
  - eapply same_project_goToPage; eassumption.
  - eapply same_project_goFirstPage; eassumption.
Qed.

End SameProject.

Lemma handlers_keep_the_project_witness :
  exists s',
    MainWindow.filterResult Example.env 1 0%nat Example.page_split_result
      Example.interactive_window = Some s' /\
    MainWindow.m_ignoreSelectionChanges s' = 0.
Proof.
  destruct (MainWindow.filterResult Example.env 1 0%nat Example.page_split_result
              Example.interactive_window) as [s'|] eqn:E0; [|vm_compute in E0; discriminate].
  exists s'. split; [reflexivity|].
  destruct (handlers_keep_the_project Example.env Example.interactive_window s')
    as [_ [_ [_ [_ [G _]]]]].
  - apply (steps_step Example.env _ Example.interactive_window).
    + apply steps_refl.
    + apply step_filterResult with (fuel := 1%nat) (tsk := 0%nat)
        (result := Example.page_split_result). exact E0.
  - rewrite G. reflexivity.
Defined.

(* ------------------------------------------------------------------ *)
(** ** Selecting a page, opening and closing a project *)

Ltac project_all :=
  cbn [MainWindow.m_store MainWindow.m_pages MainWindow.m_workerThreadPool
       MainWindow.m_interactiveQueue MainWindow.m_batchQueue
       MainWindow.m_thumbSequence MainWindow.m_thumbnailCache
       MainWindow.m_contentBoxPropagator MainWindow.m_pageOrientationPropagator
       MainWindow.m_selectedPage MainWindow.m_curFilter
       MainWindow.m_ignoreSelectionChanges MainWindow.m_debug
       MainWindow.outDirIsEmpty MainWindow.trace option_map negb
       MainWindow.filter app
       MainWindow.set_store MainWindow.set_workerThreadPool
       MainWindow.set_interactiveQueue MainWindow.set_batchQueue
       MainWindow.set_thumbSequence MainWindow.set_curFilter
       MainWindow.set_ignoreSelectionChanges MainWindow.emit
       ProjectLifecycle.set_pages ProjectLifecycle.set_thumbnailCache
       ProjectLifecycle.set_contentBoxPropagator
       ProjectLifecycle.set_pageOrientationPropagator
       ProjectLifecycle.set_selectedPage ProjectLifecycle.set_outDirIsEmpty
       ProjectLifecycle.window ProjectLifecycle.m_projectFile ProjectLifecycle.actions
       ProjectLifecycle.log ProjectLifecycle.set_window ProjectLifecycle.set_projectFile
       fst snd].

Ltac project_all_in H :=
  cbn [MainWindow.m_store MainWindow.m_pages MainWindow.m_workerThreadPool
       MainWindow.m_interactiveQueue MainWindow.m_batchQueue
       MainWindow.m_thumbSequence MainWindow.m_thumbnailCache
       MainWindow.m_contentBoxPropagator MainWindow.m_pageOrientationPropagator
       MainWindow.m_selectedPage MainWindow.m_curFilter
       MainWindow.m_ignoreSelectionChanges MainWindow.m_debug
       MainWindow.outDirIsEmpty MainWindow.trace option_map negb
       MainWindow.filter app
       MainWindow.set_store MainWindow.set_workerThreadPool
       MainWindow.set_interactiveQueue MainWindow.set_batchQueue
       MainWindow.set_thumbSequence MainWindow.set_curFilter
       MainWindow.set_ignoreSelectionChanges MainWindow.emit
       ProjectLifecycle.set_pages ProjectLifecycle.set_thumbnailCache
       ProjectLifecycle.set_contentBoxPropagator
       ProjectLifecycle.set_pageOrientationPropagator
       ProjectLifecycle.set_selectedPage ProjectLifecycle.set_outDirIsEmpty
       ProjectLifecycle.window ProjectLifecycle.m_projectFile ProjectLifecycle.actions
       ProjectLifecycle.log ProjectLifecycle.set_window ProjectLifecycle.set_projectFile
       fst snd] in H.

Section Lifecycle.

Import ProcessingTaskQueue MainWindow ProjectLifecycle.

Variable env : Collaborators.
Variable sur : Surroundings.

Lemma createCompositeCacheDrivenTask_fails_below_zero (S : Z) :
  S < fixOrientationFilterIdx ->
  snd (createCompositeCacheDrivenTask S) = None.
Proof.
  intros H. unfold createCompositeCacheDrivenTask.
  assert (E : (S >=? fixOrientationFilterIdx) = false).
  { destruct (S >=? fixOrientationFilterIdx) eqn:E; [apply Z.geb_le in E; lia | reflexivity]. }
  split_on_comparisons S; try discriminate; reflexivity.
Qed.

Lemma stopBatchProcessing_clear s s' :
  stopBatchProcessing env CLEAR_MAIN_AREA s = Some s' ->
  m_interactiveQueue s' = m_interactiveQueue s /\
  length (m_store s') = length (m_store s).
Proof.
  unfold stopBatchProcessing. intros H.
  destruct (m_batchQueue s) as [bq|] eqn:B; [|injection H as <-; auto].
  match type of H with
  | context [cancelAndClear (m_store ?x) bq] =>
      assert (K1 : selection_step s x)
        by (destruct (negb _); [apply selection_setSelection | apply selection_refl]);
      set (s1 := x) in *
  end.
  destruct K1 as [ts [tr E1]].
  assert (S1 : m_store s1 = m_store s) by (rewrite E1; reflexivity).
  assert (Q1 : m_interactiveQueue s1 = m_interactiveQueue s) by (rewrite E1; reflexivity).
  clear E1. clearbody s1.
  pose proof (cancelAndClear_length (m_store s1) bq) as Len.
  unfold cancelAndClear in H, Len. cbv zeta in H. cbn [fst] in Len.
  apply selection_resetThumbSequence in H. destruct H as [ts' [tr' ->]].
  project. split; [exact Q1 | congruence].
Qed.

Lemma selectRemembered_items p s :
  ThumbnailSequence.items (m_thumbSequence (selectRemembered p s))
  = ThumbnailSequence.items (m_thumbSequence s).
Proof.
  assert (K : forall q x, ThumbnailSequence.items (m_thumbSequence (snd (setSelection q x)))
                          = ThumbnailSequence.items (m_thumbSequence x)).
  { intros q x. unfold setSelection, ThumbnailSequence.setSelection.
    destruct (ThumbnailSequence.lookup (m_thumbSequence x) q); reflexivity. }
  assert (K' : forall q x ok x', setSelection q x = (ok, x') ->
                 ThumbnailSequence.items (m_thumbSequence x')
                 = ThumbnailSequence.items (m_thumbSequence x)).
  { intros q x ok x' E. specialize (K q x). rewrite E in K. exact K. }
  unfold selectRemembered.
  destruct (setSelection p s) as [ok1 s1] eqn:E1. apply K' in E1.
  destruct ok1; [exact E1|].
  destruct (setSelection _ s1) as [ok2 s2] eqn:E2. apply K' in E2.
  destruct ok2; [congruence|].
  destruct (setSelection _ s2) as [ok3 s3] eqn:E3. apply K' in E3.
  destruct ok3; [congruence|].
  destruct (setSelection _ s3) as [ok4 s4] eqn:E4. apply K' in E4.
  destruct ok4; [congruence|].
  rewrite K. congruence.
Qed.

Lemma reset_items pages action ts :
  ThumbnailSequence.items (ThumbnailSequence.reset pages action ts) = pages.
Proof. destruct action; cbn [ThumbnailSequence.reset]; try destruct (find _ _); reflexivity. Qed.

Lemma resetSequence_total action s :
  fixOrientationFilterIdx <= m_curFilter s <= outputFilterIdx ->
  m_thumbnailCache s = true \/ ProjectPages.numImages (m_pages s) = 0%nat ->
  exists s1, resetSequence env action s = Some s1.
Proof.
  destruct s as [st pg pool iq bq ts cache cbp pop sel cf ign dbg out tr].
  unfold resetSequence, getCurrentView. project. intros F C.
  destruct (filterAt_valid cf F) as [f Hf].
  destruct cache.
  - destruct (createCompositeCacheDrivenTask_total _ (proj1 F)) as [h ->]. project.
    rewrite Hf. eexists. reflexivity.
  - destruct C as [C | C]; [discriminate|].
    project. rewrite Hf. project. rewrite C. eexists. reflexivity.
Qed.

Lemma resetSequence_fails action s :
  ~ fixOrientationFilterIdx <= m_curFilter s <= outputFilterIdx \/
  m_thumbnailCache s = false /\ ProjectPages.numImages (m_pages s) <> 0%nat ->
  resetSequence env action s = None.
Proof.
  intros [F | [C N]].
  - apply resetSequence_no_stage, filterAt_none. exact F.
  - destruct s as [st pg pool iq bq ts cache cbp pop sel cf ign dbg out tr].
    cbn [m_thumbnailCache m_pages] in C, N. subst cache.
    unfold resetSequence, getCurrentView. project.
    destruct (filterAt cf); [|reflexivity]. project.
    apply Nat.eqb_neq in N. rewrite N. reflexivity.
Qed.

(** What a reset of the thumbnail sequence needs and gives. *)
Lemma resetThumbSequence_outcome action s :
  (~ fixOrientationFilterIdx <= m_curFilter s <= outputFilterIdx \/
   m_thumbnailCache s = false /\ ProjectPages.numImages (m_pages s) <> 0%nat ->
   resetThumbSequence env action s = None) /\
  (fixOrientationFilterIdx <= m_curFilter s <= outputFilterIdx ->
   m_thumbnailCache s = true \/ ProjectPages.numImages (m_pages s) = 0%nat ->
   exists s', resetThumbSequence env action s = Some s' /\
     ThumbnailSequence.items (m_thumbSequence s')
     = ProjectPages.toPageSequence (m_pages s) (getView env (m_curFilter s))).
Proof.
  rewrite resetThumbSequence_unfold. split.
  - intros H. rewrite resetSequence_fails by exact H. reflexivity.
  - intros F H. destruct (resetSequence_total action s F H) as [s1 R]. rewrite R.
    apply resetSequence_spec in R. destruct R as [before [_ [_ R]]].
    assert (I : ThumbnailSequence.items (m_thumbSequence s1)
                = ProjectPages.toPageSequence (m_pages s) (getView env (m_curFilter s)))
      by (rewrite R; project; apply reset_items).
    clear R.
    destruct (negb _); eexists; (split; [reflexivity|]);
      [rewrite selectRemembered_items|]; exact I.
Qed.

(** X21.  [resetThumbSequence] aborts in exactly two cases: when the index
    of the current stage is not one of the stage sequence, so that there is
    no filter to ask for its view (below the first stage the assertion of
    the cache-driven builder fails before), and without a thumbnail cache in
    a project that has images (the assertion for the empty project).
    Whenever it returns, the thumbnail sequence holds the pages of the
    project in the view of the current stage. *)
Theorem resetThumbSequence_aborts_iff (action : ThumbnailSequence.SelectionAction)
    (s : MainWindow.t) :
  (resetThumbSequence env action s = None <->
   ~ fixOrientationFilterIdx <= m_curFilter s <= outputFilterIdx \/
   m_thumbnailCache s = false /\ ProjectPages.numImages (m_pages s) <> 0%nat) /\
  (forall s', resetThumbSequence env action s = Some s' ->
     filterAt (m_curFilter s) <> None /\
     ThumbnailSequence.items (m_thumbSequence s')
     = ProjectPages.toPageSequence (m_pages s) (getView env (m_curFilter s))).
Proof.
  destruct (resetThumbSequence_outcome action s) as [Fail Ok].
  assert (D : (~ fixOrientationFilterIdx <= m_curFilter s <= outputFilterIdx \/
               m_thumbnailCache s = false /\ ProjectPages.numImages (m_pages s) <> 0%nat) \/
              (fixOrientationFilterIdx <= m_curFilter s <= outputFilterIdx /\
               (m_thumbnailCache s = true \/ ProjectPages.numImages (m_pages s) = 0%nat))).
  { destruct (Z_le_dec fixOrientationFilterIdx (m_curFilter s)) as [F1 | F1];
      [|left; left; lia].
    destruct (Z_le_dec (m_curFilter s) outputFilterIdx) as [F2 | F2];
      [|left; left; lia].
    destruct (m_thumbnailCache s); [right; auto|].
    destruct (Nat.eq_dec (ProjectPages.numImages (m_pages s)) 0); auto. }
  split; [split|].
  - intros H. destruct D as [D | [D1 D2]]; [exact D|].
    destruct (Ok D1 D2) as [s' [E _]]. congruence.
  - exact Fail.
  - intros s' H. destruct D as [D | [D1 D2]]; [rewrite (Fail D) in H; discriminate|].
    destruct (Ok D1 D2) as [s1 [E I]]. split; [|congruence].
    destruct (filterAt_valid _ D1) as [f Hf]. congruence.
Qed.

(** X22.  [loadPageInteractive] aborts in exactly these cases: a batch is
    in progress (its first assertion), or the page is to be processed (the
    current stage is not the output stage, or the page is ready for output)
    and the index of the current stage is not one of the stage sequence, so
    that there is no filter to prepare the interface, or there is no
    thumbnail cache (its second assertion).  At the output stage a page that
    is not ready is never sent for processing. *)
Theorem loadPageInteractive_aborts_iff (page : PageInfo.t) (s : MainWindow.t) :
  (loadPageInteractive env page s = None <->
   m_batchQueue s <> None \/
   isOutputFilter (m_curFilter s)
     && negb (checkReadyForOutput env (m_pages s) (PageInfo.id page)) = false /\
   (~ fixOrientationFilterIdx <= m_curFilter s <= outputFilterIdx \/
    m_thumbnailCache s = false)) /\
  (forall s', loadPageInteractive env page s = Some s' ->
     isOutputFilter (m_curFilter s)
       && negb (checkReadyForOutput env (m_pages s) (PageInfo.id page)) = true ->
     m_interactiveQueue s' = [] /\ m_workerThreadPool s' = m_workerThreadPool s /\
     In OutputNotPossible (trace s')).
Proof.
  destruct s as [st pg pool iq bq ts cache cbp pop sel cf ign dbg out tr].
  unfold loadPageInteractive, isBatchProcessingInProgress, interactive_cancelAndClear,
    cancelAndClear. project.
  destruct bq as [bq|].
  { split; [split; [intros _; left; discriminate | reflexivity] | discriminate]. }
  destruct (isOutputFilter cf && negb (checkReadyForOutput env pg (PageInfo.id page))).
  { split.
    - split; [discriminate|]. intros [K | [K _]]; [contradiction | discriminate].
    - intros s' H _. injection H as <-. project.
      split; [reflexivity|]. split; [reflexivity|]. apply in_or_app. right. left. reflexivity. }
  split; [|discriminate].
  destruct (filterAt cf) as [f|] eqn:Hf; project.
  2:{ apply filterAt_none in Hf. split; [auto | reflexivity]. }
  apply filterAt_bounds in Hf.
  destruct cache; cbn [negb].
  2:{ split; [auto | reflexivity]. }
  destruct (createCompositeTask_total page cf false dbg (proj1 Hf)) as [c ->].
  unfold alloc, addProcessingTask. project. cbn [hasPage existsb app].
  cbn [takeForProcessing isPending status pageInfo task].
  split; [discriminate|].
  intros [K | [_ [K | K]]]; [contradiction | contradiction | discriminate].
Qed.

(** What [switchToNewProject] leaves behind. *)
Lemma switchToNewProject_spec pages out_dir pf reader s s' :
  switchToNewProject env pages out_dir pf reader s = Some s' ->
  m_projectFile s' = pf /\ actions s' = actions s /\
  m_pages (window s') = pages /\
  outDirIsEmpty (window s') = isEmpty out_dir /\
  m_thumbnailCache (window s') = negb (isEmpty out_dir) /\
  m_curFilter (window s') = 0 /\
  m_batchQueue (window s') = None /\
  m_contentBoxPropagator (window s') = true /\
  m_pageOrientationPropagator (window s') = true /\
  m_ignoreSelectionChanges (window s') = m_ignoreSelectionChanges (window s) /\
  ThumbnailSequence.items (m_thumbSequence (window s'))
  = ProjectPages.toPageSequence pages (getView env 0) /\
  (isEmpty out_dir = true ->
   ProjectPages.numImages pages = 0%nat /\ m_interactiveQueue (window s') = []) /\
  (forall e,
     In e (m_interactiveQueue (window s)) \/
     (exists bq, m_batchQueue (window s) = Some bq /\ In e bq) ->
     (task e < length (m_store (window s)))%nat ->
     isCancelled (m_store (window s')) (task e) = true).
Proof.
  unfold switchToNewProject. intros H.
  destruct (stopBatchProcessing env CLEAR_MAIN_AREA (window s)) as [w1|] eqn:St;
    [|discriminate].
  pose proof (stopBatchProcessing_none env _ _ _ St) as B1.
  pose proof (stopBatchProcessing_clear _ _ St) as [Q1 L1].
  pose proof (same_project_stopBatchProcessing env _ _ _ St) as [_ [_ [_ [_ [G1 _]]]]].
  apply (stopBatchProcessing_orderly env) in St. destruct St as [[K1 _] [_ X1]].
  cbv zeta in H.
  destruct (createCompositeCacheDrivenTask_total selectContentFilterIdx) as [h1 E1];
    [vm_compute; discriminate|].
  destruct (createCompositeCacheDrivenTask_total fixOrientationFilterIdx) as [h2 E2];
    [vm_compute; discriminate|].
  rewrite E1, E2 in H. clear E1 E2 h1 h2.
  match type of H with
  | context [resetThumbSequence env _ ?x] => set (w9 := x) in *
  end.
  assert (F9 : m_store w9 = fst (cancelAndClear (m_store w1) (m_interactiveQueue w1)) /\
               m_interactiveQueue w9 = [] /\ m_batchQueue w9 = None /\
               m_pages w9 = pages /\ outDirIsEmpty w9 = isEmpty out_dir /\
               m_thumbnailCache w9 = negb (isEmpty out_dir) /\ m_curFilter w9 = 0 /\
               m_contentBoxPropagator w9 = true /\ m_pageOrientationPropagator w9 = true /\
               m_ignoreSelectionChanges w9 = m_ignoreSelectionChanges w1 + 1 - 1).
  { subst w9. clear - B1.
    destruct w1 as [st pg pool iq bq ts cache cbp pop sel cf ign dbg out tr].
    cbn [m_batchQueue] in B1. subst bq.
    unfold interactive_cancelAndClear, cancelAndClear. project_all.
    destruct reader; project_all; auto 15. }
  destruct F9 as [S9 [Q9 [B9 [P9 [O9 [C9 [F9 [R1 [R2 G9]]]]]]]]]. clearbody w9.
  destruct (resetThumbSequence env (default_selection_action env) w9) as [w10|] eqn:R;
    [|discriminate].
  assert (N : isEmpty out_dir = true -> ProjectPages.numImages pages = 0%nat).
  { intros E. destruct (Nat.eq_dec (ProjectPages.numImages pages) 0) as [Z|Z]; [exact Z|].
    destruct (resetThumbSequence_outcome (default_selection_action env) w9) as [Fail _].
    rewrite Fail in R; [discriminate|]. right. rewrite C9, P9, E. auto. }
  assert (I10 : ThumbnailSequence.items (m_thumbSequence w10)
                = ProjectPages.toPageSequence pages (getView env 0)).
  { destruct (resetThumbSequence_outcome (default_selection_action env) w9) as [_ Ok].
    destruct Ok as [w [E I]].
    - rewrite F9. split; vm_compute; discriminate.
    - rewrite C9, P9. destruct (isEmpty out_dir) eqn:E; auto.
    - rewrite R in E. injection E as <-. rewrite I, P9, F9. reflexivity. }
  apply selection_resetThumbSequence in R. destruct R as [ts [tr E10]].
  assert (T10 : ts = m_thumbSequence w10) by (rewrite E10; reflexivity). subst ts.
  destruct (updateMainArea env w10) as [w11|] eqn:U; [|discriminate].
  injection H as <-. project_all.
  pose proof (request_updateMainArea env _ _ U) as [st [pool [iq [tr' E11]]]].
  assert (Q11 : ProjectPages.numImages pages = 0%nat -> m_interactiveQueue w11 = []).
  { intros Z. unfold updateMainArea in U. rewrite E10 in U at 1. project_in U.
    rewrite P9, Z in U. cbn [Nat.eqb] in U. injection U as <-. rewrite E10. exact Q9. }
  apply updateMainArea_orderly in U. destruct U as [[K11 _] _].
  assert (X11 : forall e,
            In e (m_interactiveQueue (window s)) \/
            (exists bq, m_batchQueue (window s) = Some bq /\ In e bq) ->
            (task e < length (m_store (window s)))%nat ->
            isCancelled (m_store w11) (task e) = true).
  { intros e He Hlt. apply K11. rewrite E10. project. rewrite S9.
    destruct He as [Hin | [bq [Hb Hin]]].
    - apply cancelAndClear_cancels; [rewrite Q1; exact Hin | rewrite L1; exact Hlt].
    - apply cancelAndClear_mono. eapply X1; eassumption. }
  assert (Y11 : isEmpty out_dir = true ->
                ProjectPages.numImages pages = 0%nat /\ m_interactiveQueue w11 = [])
    by (intros E; split; auto).
  clear K11 Q11 N.
  revert X11 Y11. rewrite E11. project. rewrite E10. project. intros X11 Y11.
  repeat (split; [first [reflexivity | assumption | lia]|]).
  exact X11.
Qed.

Lemma updateMainArea_total s :
  m_thumbnailCache s = true \/ ProjectPages.numImages (m_pages s) = 0%nat ->
  fixOrientationFilterIdx <= m_curFilter s <= outputFilterIdx ->
  exists s', updateMainArea env s = Some s'.
Proof.
  intros C F.
  destruct s as [st pg pool iq bq ts cache cbp pop sel cf ign dbg out tr].
  cbn [m_thumbnailCache m_pages m_curFilter] in C, F.
  unfold updateMainArea, isBatchProcessingInProgress. project.
  destruct (Nat.eqb (ProjectPages.numImages pg) 0) eqn:N; [eexists; reflexivity|].
  destruct bq; [eexists; reflexivity|].
  destruct (PageInfo.isNull _); [eexists; reflexivity|].
  destruct C as [C | C]; [subst cache | apply Nat.eqb_eq in C; congruence].
  unfold loadPageInteractive, isBatchProcessingInProgress, interactive_cancelAndClear,
    cancelAndClear. project.
  destruct (isOutputFilter cf && _); [eexists; reflexivity|].
  destruct (filterAt_valid cf F) as [f ->]. project.
  match goal with
  | |- context [createCompositeTask ?p cf false dbg] =>
      destruct (createCompositeTask_total p cf false dbg (proj1 F)) as [c ->]
  end.
  unfold alloc, addProcessingTask. project. cbn [hasPage existsb app].
  cbn [takeForProcessing isPending status pageInfo task]. eexists. reflexivity.
Qed.

(** X14.  A change of the current page that is not of the user's making
    is only remembered: nothing is cancelled, queued or submitted, and a
    batch goes on.  A selection by the user during a batch stops the batch
    and cancels all its tasks.  Outside a batch, a selection by the user
    that is flagged as redundant starts nothing either. *)
Theorem selection_by_the_user_stops_the_batch (page_info : PageInfo.t)
    (flags : SelectionFlags) (s s' : MainWindow.t) :
  currentPageChanged env sur page_info flags s = Some s' ->
  (SELECTED_BY_USER flags = false \/
   REDUNDANT_SELECTION flags = true /\ m_batchQueue s = None ->
   m_store s' = m_store s /\ m_interactiveQueue s' = m_interactiveQueue s /\
   m_batchQueue s' = m_batchQueue s /\ m_workerThreadPool s' = m_workerThreadPool s /\
   trace s' = trace s) /\
  (SELECTED_BY_USER flags = true ->
   forall bq, m_batchQueue s = Some bq ->
     m_batchQueue s' = None /\
     forall e, In e bq -> (task e < length (m_store s))%nat ->
       isCancelled (m_store s') (task e) = true).
Proof.
  unfold currentPageChanged, getCurrentView.
  destruct (filterAt (m_curFilter s)) as [f|]; [|discriminate]. cbv zeta.
  match goal with
  | |- context [set_selectedPage ?v s] => set (s1 := set_selectedPage v s)
  end.
  assert (F : m_store s1 = m_store s /\ m_interactiveQueue s1 = m_interactiveQueue s /\
              m_batchQueue s1 = m_batchQueue s /\
              m_workerThreadPool s1 = m_workerThreadPool s /\ trace s1 = trace s)
    by (repeat split; reflexivity).
  destruct F as [F1 [F2 [F3 [F4 F5]]]]. clearbody s1.
  unfold isBatchProcessingInProgress. rewrite F3. intros H. split.
  - intros [U | [R B]].
    + rewrite U in H. injection H as <-. auto.
    + rewrite R, B in H. destruct (SELECTED_BY_USER flags); injection H as <-; auto.
  - intros U bq B. rewrite U, B in H. rewrite <- F3 in B.
    split; [eapply stopBatchProcessing_none; exact H|].
    apply (stopBatchProcessing_orderly env) in H. destruct H as [_ [_ X]].
    intros e Hin Hlt. apply (X bq e B Hin). rewrite F1. exact Hlt.
Qed.

(** X15.  Switching to a new project cancels every task of both queues,
    ends a batch, installs the new pages and shows them in the thumbnail
    sequence, selects the first stage, creates both propagators and leaves
    the selection guard as it found it.  With an empty output directory it
    returns only for a project without images, and then nothing is sent for
    processing. *)
Theorem switchToNewProject_starts_afresh (pages : ProjectPages.t)
    (out_dir project_file_path : QString) (project_reader : option ProjectReader)
    (s s' : ProjectLifecycle.t) :
  switchToNewProject env pages out_dir project_file_path project_reader s = Some s' ->
  m_projectFile s' = project_file_path /\ actions s' = actions s /\
  m_pages (window s') = pages /\
  outDirIsEmpty (window s') = isEmpty out_dir /\
  m_thumbnailCache (window s') = negb (isEmpty out_dir) /\
  m_curFilter (window s') = 0 /\
  m_batchQueue (window s') = None /\
  m_contentBoxPropagator (window s') = true /\
  m_pageOrientationPropagator (window s') = true /\
  m_ignoreSelectionChanges (window s') = m_ignoreSelectionChanges (window s) /\
  ThumbnailSequence.items (m_thumbSequence (window s'))
  = ProjectPages.toPageSequence pages (getView env 0) /\
  (isEmpty out_dir = true ->
   ProjectPages.numImages pages = 0%nat /\ m_interactiveQueue (window s') = []) /\
  (forall e,
     In e (m_interactiveQueue (window s)) \/
     (exists bq, m_batchQueue (window s) = Some bq /\ In e bq) ->
     (task e < length (m_store (window s)))%nat ->
     isCancelled (m_store (window s')) (task e) = true).
Proof. apply switchToNewProject_spec. Qed.

(** When [switchToNewProject] returns. *)
Lemma switchToNewProject_total pages out_dir pf reader s :
  stopBatchProcessing env CLEAR_MAIN_AREA (window s) <> None ->
  (isEmpty out_dir = true -> ProjectPages.numImages pages = 0%nat) ->
  exists s', switchToNewProject env pages out_dir pf reader s = Some s'.
Proof.
  intros St N. unfold switchToNewProject.
  destruct (stopBatchProcessing env CLEAR_MAIN_AREA (window s)) as [w1|] eqn:E;
    [clear St | contradiction].
  pose proof (stopBatchProcessing_none env _ _ _ E) as B1. clear E.
  cbv zeta.
  destruct (createCompositeCacheDrivenTask_total selectContentFilterIdx) as [h1 E1];
    [vm_compute; discriminate|].
  destruct (createCompositeCacheDrivenTask_total fixOrientationFilterIdx) as [h2 E2];
    [vm_compute; discriminate|].
  rewrite E1, E2. clear E1 E2 h1 h2.
  match goal with
  | |- context [resetThumbSequence env _ ?x] => set (w9 := x) in *
  end.
  assert (F9 : m_pages w9 = pages /\
               m_thumbnailCache w9 = negb (isEmpty out_dir) /\ m_curFilter w9 = 0).
  { subst w9. clear.
    destruct w1 as [st pg pool iq bq ts cache cbp pop sel cf ign dbg out tr].
    unfold interactive_cancelAndClear, cancelAndClear. project_all.
    destruct reader; project_all; auto. }
  destruct F9 as [P9 [C9 F9]]. clearbody w9.
  assert (V : fixOrientationFilterIdx <= m_curFilter w9 <= outputFilterIdx)
    by (rewrite F9; split; vm_compute; discriminate).
  assert (Ok : m_thumbnailCache w9 = true \/ ProjectPages.numImages (m_pages w9) = 0%nat).
  { rewrite C9, P9. destruct (isEmpty out_dir); auto. }
  destruct (resetThumbSequence_outcome (default_selection_action env) w9) as [_ R].
  destruct (R V Ok) as [w [E _]]. rewrite E. clear R.
  apply selection_resetThumbSequence in E. destruct E as [ts [tr E10]].
  destruct (updateMainArea_total w) as [w11 ->].
  - rewrite E10. project. rewrite C9, P9. destruct (isEmpty out_dir); auto.
  - rewrite E10. project. rewrite F9. split; vm_compute; discriminate.
  - eexists. reflexivity.
Qed.

(** X16.  [switchToNewProject] fails in exactly two cases: when stopping
    the batch fails, and when it is given images but no output directory,
    which trips the assertion in [resetThumbSequence]. *)
Theorem switchToNewProject_fails_iff (pages : ProjectPages.t)
    (out_dir project_file_path : QString) (project_reader : option ProjectReader)
    (s : ProjectLifecycle.t) :
  switchToNewProject env pages out_dir project_file_path project_reader s = None <->
  stopBatchProcessing env CLEAR_MAIN_AREA (window s) = None \/
  isEmpty out_dir = true /\ ProjectPages.numImages pages <> 0%nat.
Proof.
  split.
  - intros H.
    destruct (stopBatchProcessing env CLEAR_MAIN_AREA (window s)) as [w1|] eqn:St; [|auto].
    right. destruct (isEmpty out_dir) eqn:E.
    + split; [reflexivity|]. intros Z.
      destruct (switchToNewProject_total pages out_dir project_file_path project_reader s)
        as [s' K]; [rewrite St; discriminate | rewrite E; auto | congruence].
    + destruct (switchToNewProject_total pages out_dir project_file_path project_reader s)
        as [s' K]; [rewrite St; discriminate | rewrite E; discriminate | congruence].
  - intros [St | [E Z]].
    + unfold switchToNewProject. rewrite St. reflexivity.
    + destruct (switchToNewProject env pages out_dir project_file_path project_reader s)
        as [s'|] eqn:K; [|reflexivity].
      apply switchToNewProject_spec in K.
      destruct K as [_ [_ [_ [_ [_ [_ [_ [_ [_ [_ [_ [K _]]]]]]]]]]]].
      destruct (K E) as [K0 _]. contradiction.
Qed.

Lemma closeProjectWithoutSaving_spec s s' :
  closeProjectWithoutSaving env sur s = Some s' ->
  isProjectLoaded (window s') = false /\ actions s' = actions s /\
  m_interactiveQueue (window s') = [] /\ m_batchQueue (window s') = None.
Proof.
  unfold closeProjectWithoutSaving. intros H. apply switchToNewProject_spec in H.
  destruct H as [_ [A [_ [O [_ [_ [B [_ [_ [_ [_ [E _]]]]]]]]]]]].
  destruct (E eq_refl) as [_ Q]. unfold isProjectLoaded. rewrite O. auto.
Qed.

Section Closing.

Variable ans : Answers.

Lemma saveProjectTriggered_window s :
  window (saveProjectTriggered ans s) = window s.
Proof.
  unfold saveProjectTriggered, saveProjectAsTriggered, saveProjectWithFeedback.
  destruct (isEmpty (m_projectFile s)).
  - destruct (isEmpty (getSaveFileName ans)); [reflexivity|].
    destruct (negb (write ans _)); reflexivity.
  - destruct (negb (write ans _)); reflexivity.
Qed.

Lemma promptAndClose_verdict s r s' :
  promptAndClose env sur ans s = Some (r, s') ->
  (r = true -> isProjectLoaded (window s') = false) /\
  (r = false ->
   window s' = window s /\ m_projectFile s' = m_projectFile s /\
   promptProjectSave ans = CANCEL).
Proof.
  unfold promptAndClose. cbv zeta. intros H.
  destruct (promptProjectSave ans).
  - destruct (closeProjectWithoutSaving env sur _) as [s1|] eqn:C; [|discriminate].
    injection H as <- <-. apply closeProjectWithoutSaving_spec in C.
    split; [intros _; apply C | discriminate].
  - destruct (closeProjectWithoutSaving env sur _) as [s1|] eqn:C; [|discriminate].
    injection H as <- <-. apply closeProjectWithoutSaving_spec in C.
    split; [intros _; apply C | discriminate].
  - injection H as <- <-. split; [discriminate | auto].
Qed.

(** X17.  [closeProjectInteractive] keeps the promise of its comment in
    one direction only.  When it returns [true] no project is loaded any
    more.  When it returns [false] the window and the name of the project
    file are untouched, and either the user pressed Cancel in the save
    prompt or, for a project that has a file, the user pressed Save and the
    backup could not be renamed over the project file. *)
Theorem closeProjectInteractive_verdict (fuel : nat) (s s' : ProjectLifecycle.t) (r : bool) :
  closeProjectInteractive env sur ans fuel s = Some (r, s') ->
  (r = true -> isProjectLoaded (window s') = false) /\
  (r = false ->
   window s' = window s /\ m_projectFile s' = m_projectFile s /\
   isProjectLoaded (window s) = true /\
   (promptProjectSave ans = CANCEL \/
    promptProjectSave ans = SAVE /\ overwritingRename ans = false /\
    isEmpty (m_projectFile s) = false)).
Proof.
  unfold closeProjectInteractive. cbv zeta. intros H.
  destruct (isProjectLoaded (window s)) eqn:L; cbn [negb] in H.
  2:{ injection H as <- <-. split; [intros _; exact L | discriminate]. }
  destruct (isEmpty (m_projectFile s)) eqn:E.
  { apply promptAndClose_verdict in H. destruct H as [H1 H2].
    split; [exact H1|]. intros R. destruct (H2 R) as [W [P C]]. auto 6. }
  destruct (negb (write ans (backup_file_path sur (m_projectFile s)))).
  { apply promptAndClose_verdict in H. destruct H as [H1 H2].
    split; [exact H1|]. intros R. destruct (H2 R) as [W [P C]]. auto 6. }
  project_all_in H.
  destruct (compareFiles fuel _ _) as [same|]; [|discriminate].
  destruct same.
  { destruct (closeProjectWithoutSaving env sur _) as [s1|] eqn:C; [|discriminate].
    injection H as <- <-. apply closeProjectWithoutSaving_spec in C.
    split; [intros _; apply C | discriminate]. }
  destruct (promptProjectSave ans).
  - destruct (negb (overwritingRename ans)) eqn:O.
    + injection H as <- <-. split; [discriminate|]. intros _.
      destruct (overwritingRename ans); [discriminate|]. auto 8.
    + destruct (closeProjectWithoutSaving env sur _) as [s1|] eqn:C; [|discriminate].
      injection H as <- <-. apply closeProjectWithoutSaving_spec in C.
      split; [intros _; apply C | discriminate].
  - destruct (closeProjectWithoutSaving env sur _) as [s1|] eqn:C; [|discriminate].
    injection H as <- <-. apply closeProjectWithoutSaving_spec in C.
    split; [intros _; apply C | discriminate].
  - injection H as <- <-. split; [discriminate | auto 8].
Qed.

(** X18.  A project whose file and freshly written backup can both be
    opened and have the same length is closed without a prompt and without
    being saved, whatever the two files contain: the comparison that decides
    "the project hasn't really changed" looks at lengths only. *)
Theorem same_length_closes_without_asking (fuel : nat) (s : ProjectLifecycle.t) :
  isProjectLoaded (window s) = true ->
  isEmpty (m_projectFile s) = false ->
  write ans (backup_file_path sur (m_projectFile s)) = true ->
  canOpen (file ans (m_projectFile s)) = true ->
  canOpen (file ans (backup_file_path sur (m_projectFile s))) = true ->
  length (bytes (file ans (m_projectFile s)))
  = length (bytes (file ans (backup_file_path sur (m_projectFile s)))) ->
  (length (bytes (file ans (m_projectFile s))) < fuel)%nat ->
  closeProjectInteractive env sur ans fuel s
  = option_map (pair true)
      (closeProjectWithoutSaving env sur
         (log (RemoveFile (backup_file_path sur (m_projectFile s)))
            (log (CompareFiles (m_projectFile s) (backup_file_path sur (m_projectFile s)) true)
               (log (WriteProject (backup_file_path sur (m_projectFile s)) true) s)))).
Proof.
  intros L E W O1 O2 Len F.
  unfold closeProjectInteractive. rewrite L, E, W. cbn [negb]. cbv zeta. project_all.
  unfold compareFiles. rewrite O1, O2. cbn [negb].
  rewrite compareChunks_lengths by exact F.
  rewrite Len, Nat.eqb_refl. cbn [negb andb]. rewrite andb_false_r.
  destruct (closeProjectWithoutSaving env sur _); reflexivity.
Qed.

(** X19.  In a project that has no file yet, pressing Save in the prompt
    and then cancelling the file dialog, or a write that fails, does not
    stop the closing: the project is closed and nothing has been written. *)
Theorem unsaved_project_is_closed_after_save (fuel : nat) (s s' : ProjectLifecycle.t)
    (r : bool) :
  isProjectLoaded (window s) = true ->
  isEmpty (m_projectFile s) = true ->
  promptProjectSave ans = SAVE ->
  isEmpty (getSaveFileName ans) = true \/ (forall path, write ans path = false) ->
  closeProjectInteractive env sur ans fuel s = Some (r, s') ->
  r = true /\ isProjectLoaded (window s') = false /\
  forall path, In (WriteProject path true) (actions s') ->
               In (WriteProject path true) (actions s).
Proof.
  intros L E P Fail. unfold closeProjectInteractive. rewrite L, E. cbn [negb].
  unfold promptAndClose. cbv zeta. rewrite P. intros H.
  destruct (closeProjectWithoutSaving env sur _) as [s1|] eqn:C; [|discriminate].
  injection H as <- <-. apply closeProjectWithoutSaving_spec in C.
  destruct C as [C1 [C2 _]]. split; [reflexivity|]. split; [exact C1|].
  rewrite C2. clear C1 C2.
  unfold saveProjectTriggered, saveProjectAsTriggered, saveProjectWithFeedback.
  project_all. rewrite E. project_all.
  intros path. destruct Fail as [D | Wf].
  - rewrite D. project_all. rewrite <- app_assoc. intros K.
    apply in_app_or in K. destruct K as [K | [K | [K | []]]]; [exact K | discriminate..].
  - destruct (isEmpty (getSaveFileName ans)).
    + project_all. rewrite <- app_assoc. intros K.
      apply in_app_or in K. destruct K as [K | [K | [K | []]]]; [exact K | discriminate..].
    + rewrite Wf. project_all. rewrite <- !app_assoc. intros K.
      apply in_app_or in K.
      destruct K as [K | [K | [K | [K | [K | []]]]]]; [exact K | discriminate..].
Qed.

End Closing.

Lemma list_ascii_of_string_append (a b : QString) :
  String.list_ascii_of_string (String.append a b)
  = String.list_ascii_of_string a ++ String.list_ascii_of_string b.
Proof. induction a as [|c a IH]; cbn; [reflexivity | rewrite IH; reflexivity]. Qed.

Lemma chars_eqb_refl (l : list Ascii.ascii) : chars_eqb l l = true.
Proof.
  induction l as [|c l IH]; cbn; [reflexivity|]. rewrite Ascii.eqb_refl. exact IH.
Qed.

Lemma endsWith_append (f suf : QString) : endsWith (String.append f suf) suf = true.
Proof.
  unfold endsWith. cbv zeta. rewrite list_ascii_of_string_append, length_app.
  apply andb_true_iff. split; [apply Nat.leb_le; lia|].
  replace (length (String.list_ascii_of_string f)
           + length (String.list_ascii_of_string suf)
           - length (String.list_ascii_of_string suf))%nat
    with (length (String.list_ascii_of_string f) + 0)%nat by lia.
  rewrite skipn_app, skipn_all2 by lia.
  replace (length (String.list_ascii_of_string f) + 0
           - length (String.list_ascii_of_string f))%nat with 0%nat by lia.
  cbn [skipn app]. apply chars_eqb_refl.
Qed.

(** X20.  Whatever the user types into the file dialog, the name that
    "Save as" records for the project ends in [.ScanTailor], in some
    spelling of upper and lower case; a dialog that is cancelled and a
    write that fails leave the recorded name as it was.  The window is not
    touched. *)
Theorem saveProjectAsTriggered_records_a_project_name (ans : Answers)
    (s : ProjectLifecycle.t) :
  window (saveProjectAsTriggered ans s) = window s /\
  (m_projectFile (saveProjectAsTriggered ans s) = m_projectFile s \/
   write ans (m_projectFile (saveProjectAsTriggered ans s)) = true /\
   endsWith (m_projectFile (saveProjectAsTriggered ans s)) suffix = true).
Proof.
  unfold saveProjectAsTriggered, saveProjectWithFeedback. cbv zeta.
  destruct (isEmpty (getSaveFileName ans)); [auto|].
  destruct (endsWith (getSaveFileName ans) suffix) eqn:E; cbn [negb].
  - destruct (write ans (getSaveFileName ans)) eqn:W; cbn [negb]; project_all; auto.
  - destruct (write ans (String.append (getSaveFileName ans) suffix)) eqn:W;
      cbn [negb]; project_all; [|auto].
    split; [reflexivity|]. right. split; [exact W | apply endsWith_append].
Qed.

End Lifecycle.

(** A click on a thumbnail while the batch over pages B, C and A is
    running. *)
Lemma selection_by_the_user_stops_the_batch_witness :
  exists s',
    ProjectLifecycle.currentPageChanged Example.env ProjectScenario.sur Example.A
      ProjectScenario.click Example.batch_window = Some s' /\
    MainWindow.m_batchQueue s' = None.
Proof.
  destruct (ProjectLifecycle.currentPageChanged Example.env ProjectScenario.sur Example.A
              ProjectScenario.click Example.batch_window) as [s'|] eqn:E0;
    [|vm_compute in E0; discriminate].
  exists s'. split; [reflexivity|].
  destruct (selection_by_the_user_stops_the_batch Example.env ProjectScenario.sur Example.A
              ProjectScenario.click Example.batch_window s' E0) as [_ K].
  destruct (MainWindow.m_batchQueue Example.batch_window) as [bq|] eqn:B;
    [|vm_compute in B; discriminate].
  apply (K eq_refl bq eq_refl).
Defined.

(** A new project is opened while page B of the old one is being
    processed. *)
Lemma switchToNewProject_starts_afresh_witness :
  exists s',
    ProjectLifecycle.switchToNewProject Example.env
      (ProjectPages.mk [Example.A] [Example.A])
      (ProjectLifecycle.m_projectFile ProjectScenario.named_project)
      (ProjectLifecycle.m_projectFile ProjectScenario.named_project)
      None ProjectScenario.named_project = Some s' /\
    MainWindow.m_curFilter (ProjectLifecycle.window s') = 0 /\
    isCancelled (MainWindow.m_store (ProjectLifecycle.window s')) 0%nat = true.
Proof.
  destruct (ProjectLifecycle.switchToNewProject Example.env
              (ProjectPages.mk [Example.A] [Example.A])
              (ProjectLifecycle.m_projectFile ProjectScenario.named_project)
              (ProjectLifecycle.m_projectFile ProjectScenario.named_project)
              None ProjectScenario.named_project) as [s'|] eqn:E0;
    [|vm_compute in E0; discriminate].
  exists s'. split; [reflexivity|].
  destruct (switchToNewProject_starts_afresh Example.env _ _ _ _ _ _ E0)
    as [_ [_ [_ [_ [_ [C [_ [_ [_ [_ [_ [_ X]]]]]]]]]]]].
  split; [exact C|].
  apply (X (ProcessingTaskQueue.mkEntry Example.B 0%nat ProcessingTaskQueue.Processing)).
  - left. left. reflexivity.
  - vm_compute. lia.
Defined.

(** The user cancels the closing of the unsaved example project. *)
Lemma closeProjectInteractive_verdict_witness :
  exists s',
    ProjectLifecycle.closeProjectInteractive Example.env ProjectScenario.sur
      ProjectScenario.cancel 1 ProjectScenario.unnamed_project = Some (false, s') /\
    ProjectLifecycle.window s' = Example.window.
Proof.
  destruct (ProjectLifecycle.closeProjectInteractive Example.env ProjectScenario.sur
              ProjectScenario.cancel 1 ProjectScenario.unnamed_project)
    as [[r s']|] eqn:E0; [|vm_compute in E0; discriminate].
  assert (R : r = false) by (vm_compute in E0; congruence).
  subst r. exists s'. split; [reflexivity|].
  destruct (closeProjectInteractive_verdict Example.env ProjectScenario.sur
              ProjectScenario.cancel 1 ProjectScenario.unnamed_project s' false E0)
    as [_ K].
  destruct (K eq_refl) as [W _]. exact W.
Defined.

(** The saved project was edited in place: its file and the backup differ
    but are equally long, and the project is closed without a prompt. *)
Lemma same_length_closes_without_asking_witness :
  exists s',
    ProjectLifecycle.closeProjectInteractive Example.env ProjectScenario.sur
      ProjectScenario.edited_in_place 2 ProjectScenario.named_project = Some (true, s') /\
    ~ In ProjectLifecycle.PromptProjectSave (ProjectLifecycle.actions s').
Proof.
  rewrite (same_length_closes_without_asking Example.env ProjectScenario.sur
             ProjectScenario.edited_in_place 2 ProjectScenario.named_project);
    try reflexivity.
  - eexists. split; [vm_compute; reflexivity|].
    cbn. intros [K | [K | [K | []]]]; discriminate.
  - vm_compute. lia.
Defined.

(** The user presses Save for the unsaved example project and cancels the
    file dialog: the project is closed. *)
Lemma unsaved_project_is_closed_after_save_witness :
  exists s',
    ProjectLifecycle.closeProjectInteractive Example.env ProjectScenario.sur
      ProjectScenario.save_then_cancel 1 ProjectScenario.unnamed_project = Some (true, s') /\
    MainWindow.isProjectLoaded (ProjectLifecycle.window s') = false.
Proof.
  destruct (ProjectLifecycle.closeProjectInteractive Example.env ProjectScenario.sur
              ProjectScenario.save_then_cancel 1 ProjectScenario.unnamed_project)
    as [[r s']|] eqn:E0; [|vm_compute in E0; discriminate].
  destruct (unsaved_project_is_closed_after_save Example.env ProjectScenario.sur
              ProjectScenario.save_then_cancel 1 ProjectScenario.unnamed_project s' r)
    as [R [L _]].
  - reflexivity.
  - reflexivity.
  - reflexivity.
  - left. reflexivity.
  - exact E0.
  - subst r. exists s'. split; [reflexivity | exact L].
Defined.

(* ------------------------------------------------------------------ *)
(** ** Delivering a result *)

Section Delivery.

Import ProcessingTaskQueue MainWindow.

Variable env : Collaborators.

Lemma Stage_eqb_refl a : Stage_eqb a a = true.
Proof. destruct a; reflexivity. Qed.

Lemma well_staged_frame s s' :
  same_project s s' -> m_curFilter s' = m_curFilter s -> well_staged s -> well_staged s'.
Proof.
  intros [P [C _]] F [V W]. unfold well_staged. rewrite F, P, C. auto.
Qed.

Lemma well_staged_selection s s' : selection_step s s' -> well_staged s -> well_staged s'.
Proof. intros [ts [tr ->]] W. exact W. Qed.

Lemma well_staged_request s s' : request_step s s' -> well_staged s -> well_staged s'.
Proof. intros [st [pool [iq [tr ->]]]] W. exact W. Qed.

Lemma stage_request s s' : request_step s s' -> m_curFilter s' = m_curFilter s.
Proof. intros [st [pool [iq [tr ->]]]]. reflexivity. Qed.

Lemma stage_selection s s' : selection_step s s' -> m_curFilter s' = m_curFilter s.
Proof. intros [ts [tr ->]]. reflexivity. Qed.

Lemma stage_goFirstPage s s' : goFirstPage env s = Some s' -> m_curFilter s' = m_curFilter s.
Proof.
  unfold goFirstPage. intros H.
  destruct (_ || _); [injection H as <-; reflexivity|].
  destruct (negb _); [|injection H as <-; reflexivity].
  unfold goToPage in H. apply (request_updateMainArea env), stage_request in H.
  rewrite H. apply stage_selection, selection_setSelection.
Qed.

(** [stopBatchProcessing] returns on a window that can reset its thumbnail
    sequence and load a page. *)
Lemma stopBatchProcessing_returns area s :
  well_staged s -> exists s', stopBatchProcessing env area s = Some s'.
Proof.
  intros W. unfold stopBatchProcessing.
  destruct (m_batchQueue s) as [bq|] eqn:B; [|eexists; reflexivity].
  match goal with
  | |- context [cancelAndClear (m_store ?x) bq] =>
      assert (W1 : well_staged x)
        by (destruct (negb _);
            [exact (well_staged_selection _ _ (selection_setSelection _ _) W) | exact W]);
      set (s1 := x) in *; clearbody s1
  end.
  unfold cancelAndClear. cbv zeta.
  match goal with
  | |- context [set_batchQueue None ?x] =>
      assert (W2 : well_staged (set_batchQueue None x)) by exact W1;
      set (s2 := set_batchQueue None x) in *; clearbody s2
  end.
  assert (R : forall s3, well_staged s3 ->
                exists s', resetThumbSequence env (default_selection_action env) s3 = Some s').
  { intros s3 [V3 C3].
    destruct (resetThumbSequence_outcome env (default_selection_action env) s3) as [_ Ok].
    destruct (Ok V3 C3) as [s' [E _]]. exists s'. exact E. }
  destruct area.
  - destruct (updateMainArea_total env s2 (proj2 W2) (proj1 W2)) as [s3 U]. rewrite U.
    apply R. eapply well_staged_request; [apply (request_updateMainArea env); exact U | exact W2].
  - apply R. exact W2.
Qed.

Lemma goFirstPage_returns s : well_staged s -> exists s', goFirstPage env s = Some s'.
Proof.
  intros W. unfold goFirstPage.
  destruct (_ || _); [eexists; reflexivity|].
  destruct (negb _); [|eexists; reflexivity].
  unfold goToPage.
  match goal with
  | |- context [updateMainArea env ?x] =>
      assert (W1 : well_staged x)
        by exact (well_staged_selection _ _ (selection_setSelection _ _) W);
      apply (updateMainArea_total env x (proj2 W1) (proj1 W1))
  end.
Qed.

(** The handler of the stage list returns when the selected row is a stage
    of the sequence and the project has a thumbnail cache or no image. *)
Lemma filterSelectionChanged_returns top rest s :
  fixOrientationFilterIdx <= top <= outputFilterIdx ->
  m_thumbnailCache s = true \/ ProjectPages.numImages (m_pages s) = 0%nat ->
  exists s', filterSelectionChanged env (top :: rest) s = Some s'.
Proof.
  intros V C. rewrite filterSelectionChanged_unfold.
  destruct (negb _); [eexists; reflexivity|]. cbv zeta.
  match goal with
  | |- context [set_curFilter top ?x] =>
      assert (F1 : m_thumbnailCache x = m_thumbnailCache s /\ m_pages x = m_pages s)
        by (destruct (m_batchQueue (interactive_cancelAndClear s)); cbn; auto);
      set (s1 := x) in *; clearbody s1
  end.
  destruct F1 as [F1 F2]. rewrite <- F1, <- F2 in C. clear F1 F2.
  destruct s1 as [st pg pool iq bq ts cache cbp pop sel cf ign dbg out tr].
  project. cbn [m_thumbnailCache m_pages] in C.
  match goal with
  | |- context [resetThumbSequence env _ ?x] =>
      assert (W4 : well_staged x)
        by (destruct (_ && _), (_ && _), cbp, pop; split; project; assumption);
      set (s4 := x) in *; clearbody s4
  end.
  destruct (resetThumbSequence_outcome env ThumbnailSequence.KEEP_SELECTION s4) as [_ Ok].
  destruct (Ok (proj1 W4) (proj2 W4)) as [s5 [E _]]. rewrite E.
  apply selection_resetThumbSequence in E.
  pose proof (well_staged_selection _ _ E W4) as W5.
  apply (updateMainArea_total env s5 (proj2 W5) (proj1 W5)).
Qed.

Lemma routine_batch_event e : routine e = true -> batch_event e = true.
Proof. unfold batch_event. intros ->. reflexivity. Qed.

Lemma batch_event_not_SelectRow e : batch_event e = true -> not_SelectRow e = true.
Proof. destruct e; auto; discriminate. Qed.

Lemma batch_event_not_ProcessingFinished e :
  batch_event e = true -> not_ProcessingFinished e = true.
Proof. destruct e; auto; discriminate. Qed.

Lemma quiet_batch_event s s' : quiet_step s s' -> emits batch_event s s'.
Proof. intros [E _]. eapply emits_weaken; [apply routine_batch_event | exact E]. Qed.

(** What the completion callback does during a batch for a task that is
    not cancelled. *)
Lemma filterResult_in_batch fuel tsk result s s' bq :
  m_batchQueue s = Some bq ->
  isCancelled (m_store s) tsk = false ->
  filterResult env fuel tsk result s = Some s' ->
  m_curFilter s' = m_curFilter s /\
  (exists after,
     trace s' = trace s ++ [ProcessingFinished InteractiveQueue tsk;
                            ProcessingFinished BatchQueue tsk;
                            UpdateUI result] ++ after /\
     forallb batch_event after = true) /\
  match processingFinished tsk bq with
  | [] => m_batchQueue s' = None /\ In Alert (trace s')
  | _ :: _ =>
      m_interactiveQueue s' = processingFinished tsk (m_interactiveQueue s) /\
      exists bq', m_batchQueue s' = Some bq' /\
                  contents bq' = contents (processingFinished tsk bq)
  end.
Proof.
  intros B C. rewrite filterResult_unfold. cbv zeta.
  change (m_store (finished tsk s)) with (m_store s). rewrite C.
  set (s2 := emit (UpdateUI result) (finished tsk s)).
  assert (B2 : m_batchQueue s2 = Some (processingFinished tsk bq))
    by (subst s2; unfold finished; project; rewrite B; reflexivity).
  assert (T2 : trace s2 = trace s ++ [ProcessingFinished InteractiveQueue tsk;
                                      ProcessingFinished BatchQueue tsk;
                                      UpdateUI result]).
  { subst s2. unfold finished. project. rewrite B, <- app_assoc. reflexivity. }
  assert (F2 : m_curFilter s2 = m_curFilter s) by reflexivity.
  assert (Q2 : m_interactiveQueue s2 = processingFinished tsk (m_interactiveQueue s))
    by reflexivity.
  assert (R : isBatchProcessingInProgress (finished tsk s) = true).
  { unfold isBatchProcessingInProgress, finished. project. rewrite B. reflexivity. }
  rewrite R. cbn [negb]. fold s2. clearbody s2. rewrite B2. intros H.
  assert (Fin : forall l,
            trace s' = trace s2 ++ l -> forallb batch_event l = true ->
            exists after,
              trace s' = trace s ++ [ProcessingFinished InteractiveQueue tsk;
                                     ProcessingFinished BatchQueue tsk;
                                     UpdateUI result] ++ after /\
              forallb batch_event after = true).
  { intros l E Fl. exists l. rewrite E, T2, <- app_assoc. auto. }
  destruct (processingFinished tsk bq) as [|e0 rest] eqn:PF; cbn [allProcessed] in H.
  - destruct (stopBatchProcessing env (default_main_area env) s2) as [s3|] eqn:St;
      [|discriminate].
    pose proof (stopBatchProcessing_none env _ _ _ St) as B3.
    pose proof (quiet_batch_event _ _ (quiet_stopBatchProcessing env _ _ _ St)) as E3.
    apply stopBatchProcessing_orderly in St. destruct St as [_ [F3 _]].
    assert (E4 : emits batch_event s2 (emit Alert s3)).
    { eapply emits_trans; [exact E3 | apply emits_emit; reflexivity]. }
    set (s4 := emit Alert s3) in *.
    assert (B4 : m_batchQueue s4 = None) by exact B3.
    assert (F4 : m_curFilter s4 = m_curFilter s3) by reflexivity.
    assert (A4 : In Alert (trace s4))
      by (subst s4; project; apply in_or_app; right; left; reflexivity).
    clearbody s4.
    destruct (PageId.eqb _ _).
    + pose proof (batchQueue_goFirstPage env _ _ H) as B5.
      pose proof (quiet_goFirstPage env _ _ H) as Q5.
      pose proof (stage_goFirstPage _ _ H) as F5.
      destruct Q5 as [[l5 [T5 R5]] _].
      destruct (emits_trans _ _ _ _ E4 (quiet_batch_event _ _ (quiet_goFirstPage env _ _ H)))
        as [l [El Fl]].
      split; [congruence|]. split; [exact (Fin l El Fl)|].
      split; [congruence|]. rewrite T5. apply in_or_app. left. exact A4.
    + injection H as <-. destruct E4 as [l [El Fl]].
      split; [congruence|]. split; [exact (Fin l El Fl)|]. auto.
  - destruct (refillLoop fuel (e0 :: rest) s2) as [[q' s3]|] eqn:L; [|discriminate].
    pose proof L as Q3. apply quiet_refillLoop in Q3. destruct Q3 as [_ Q3].
    apply refillLoop_result in L. destruct L as [[l ->] Ec].
    destruct (submitAll_frame l s2) as [F1 [G1 _]].
    cbn [fst snd] in H. injection H as <-.
    set (s4 := set_batchQueue (Some q') (submitAll l s2)) in *.
    assert (E4 : emits batch_event s2 s4).
    { eapply emits_trans; [exact (quiet_batch_event _ _ Q3)|].
      apply emits_same_trace. reflexivity. }
    assert (Q4 : m_interactiveQueue s4 = m_interactiveQueue s2) by (subst s4; project; exact G1).
    assert (B4 : m_batchQueue s4 = Some q') by reflexivity.
    assert (F4 : m_curFilter s4 = m_curFilter s2)
      by (subst s4; rewrite submitAll_eq; reflexivity).
    clearbody s4.
    match goal with
    | |- m_curFilter ?x = _ /\ _ =>
        assert (K : selection_step s4 x)
          by (destruct (negb _); [apply selection_setSelection | apply selection_refl]);
        assert (E5 : emits batch_event s4 x)
          by (destruct (negb _);
              [apply quiet_batch_event, quiet_setSelection | apply emits_same_trace; reflexivity]);
        set (s5 := x) in *; clearbody s5
    end.
    destruct (emits_trans _ _ _ _ E4 E5) as [l5 [El Fl]].
    split; [rewrite (stage_selection _ _ K); congruence|].
    split; [exact (Fin l5 El Fl)|].
    destruct K as [ts [tr ->]]. project. split; [congruence|].
    exists q'. auto.
Qed.

(** Outside a batch, a result of the selected stage, or of no stage, is
    delivered and nothing else happens. *)
Lemma filterResult_plain fuel tsk result s :
  m_batchQueue s = None ->
  isCancelled (m_store s) tsk = false ->
  (forall f, filter result = Some f -> filterAt (m_curFilter s) = Some f) ->
  filterResult env fuel tsk result s = Some (emit (UpdateUI result) (finished tsk s)).
Proof.
  intros B C D. rewrite filterResult_unfold. cbv zeta.
  change (m_store (finished tsk s)) with (m_store s). rewrite C.
  assert (R : isBatchProcessingInProgress (finished tsk s) = false).
  { unfold isBatchProcessingInProgress, finished. project. rewrite B. reflexivity. }
  rewrite R. cbn [negb].
  assert (B2 : m_batchQueue (emit (UpdateUI result) (finished tsk s)) = None)
    by (unfold finished; project; rewrite B; reflexivity).
  destruct (filter result) as [f|]; [|rewrite B2; reflexivity].
  change (m_curFilter (finished tsk s)) with (m_curFilter s).
  rewrite (D f eq_refl), Stage_eqb_refl. cbn [negb]. rewrite B2. reflexivity.
Qed.

(** Outside a batch, a result of another stage than the selected one makes
    that stage the selected one and selects its row, whatever the guard. *)
Lemma filterResult_redirects fuel tsk result s f s' :
  m_batchQueue s = None ->
  isCancelled (m_store s) tsk = false ->
  filter result = Some f ->
  filterAt (m_curFilter s) <> Some f ->
  filterResult env fuel tsk result s = Some s' ->
  m_curFilter s' = findFilter f /\
  exists middle,
    trace s' = trace s ++ [ProcessingFinished InteractiveQueue tsk; SelectRow (findFilter f)]
                 ++ middle ++ [UpdateUI result] /\
    forallb not_ProcessingFinished middle = true.
Proof.
  intros B C F D. rewrite filterResult_unfold. cbv zeta.
  change (m_store (finished tsk s)) with (m_store s). rewrite C.
  assert (R : isBatchProcessingInProgress (finished tsk s) = false).
  { unfold isBatchProcessingInProgress, finished. project. rewrite B. reflexivity. }
  rewrite R, F. cbn [negb].
  change (m_curFilter (finished tsk s)) with (m_curFilter s).
  rewrite (differs_from_selected _ _ D).
  assert (Hidx : (findFilter f <? 0) = false) by (destruct f; reflexivity).
  rewrite Hidx.
  match goal with
  | |- context [filterSelectionChanged env _ ?x] =>
      assert (TA : trace x = trace s ++ [ProcessingFinished InteractiveQueue tsk;
                                         SelectRow (findFilter f)])
        by (unfold finished; project; rewrite B, <- app_assoc; reflexivity);
      assert (FA : m_curFilter x = findFilter f) by reflexivity;
      assert (BA : m_batchQueue x = None) by (unfold finished; project; rewrite B; reflexivity);
      set (sA := x) in *; clearbody sA
  end.
  destruct (filterSelectionChanged env [findFilter f] sA) as [sB|] eqn:FS; [|discriminate].
  pose proof (filterSelectionChanged_no_batch env _ _ _ FS BA) as BB.
  pose proof (delivery_filterSelectionChanged env _ _ _ FS) as [[m [Tm Fm]] _].
  assert (FB : m_curFilter sB = findFilter f).
  { destruct (Z.eq_dec (m_ignoreSelectionChanges sA) 0) as [G | G].
    - destruct (filterSelectionChanged_spec env _ _ _ _ G FS) as [_ [_ [K _]]]. exact K.
    - rewrite filterSelectionChanged_suppressed in FS by exact G.
      injection FS as <-. exact FA. }
  project. rewrite BB. intros H. injection H as <-. project.
  split; [exact FB|]. exists m. rewrite Tm, TA, <- !app_assoc. auto.
Qed.

Lemma findFilter_valid f : fixOrientationFilterIdx <= findFilter f <= outputFilterIdx.
Proof. destruct f; split; vm_compute; discriminate. Qed.

Lemma filterResult_returns_on_redirect fuel tsk result s f :
  m_batchQueue s = None ->
  isCancelled (m_store s) tsk = false ->
  (m_ignoreSelectionChanges s = -1 ->
   m_thumbnailCache s = true \/ ProjectPages.numImages (m_pages s) = 0%nat) ->
  filter result = Some f ->
  filterAt (m_curFilter s) <> Some f ->
  exists s', filterResult env fuel tsk result s = Some s'.
Proof.
  intros B C D F A.
  destruct (Z.eq_dec (m_ignoreSelectionChanges s) (-1)) as [G | G].
  2:{ eexists. exact (filterResult_redirect env fuel tsk result s f B G C F A). }
  specialize (D G).
  rewrite filterResult_unfold. cbv zeta.
  change (m_store (finished tsk s)) with (m_store s). rewrite C.
  assert (R : isBatchProcessingInProgress (finished tsk s) = false).
  { unfold isBatchProcessingInProgress, finished. project. rewrite B. reflexivity. }
  rewrite R, F. cbn [negb].
  change (m_curFilter (finished tsk s)) with (m_curFilter s).
  rewrite (differs_from_selected _ _ A).
  assert (Hidx : (findFilter f <? 0) = false) by (destruct f; reflexivity).
  rewrite Hidx.
  match goal with
  | |- context [filterSelectionChanged env _ ?x] =>
      assert (DA : m_thumbnailCache x = true \/ ProjectPages.numImages (m_pages x) = 0%nat)
        by exact D;
      assert (BA : m_batchQueue x = None) by (unfold finished; project; rewrite B; reflexivity);
      set (sA := x) in *; clearbody sA
  end.
  destruct (filterSelectionChanged_returns (findFilter f) [] sA (findFilter_valid f) DA)
    as [sB FS].
  rewrite FS.
  pose proof (filterSelectionChanged_no_batch env _ _ _ FS BA) as BB.
  project. rewrite BB. eexists. reflexivity.
Qed.

(** The completion callback returns for a task that is not cancelled. *)
Lemma filterResult_returns fuel tsk result s :
  isCancelled (m_store s) tsk = false ->
  can_deliver fuel tsk s ->
  exists s', filterResult env fuel tsk result s = Some s'.
Proof.
  intros C D. unfold can_deliver in D.
  destruct (m_batchQueue s) as [bq|] eqn:B.
  - rewrite filterResult_unfold. cbv zeta.
    change (m_store (finished tsk s)) with (m_store s). rewrite C.
    set (s2 := emit (UpdateUI result) (finished tsk s)).
    assert (B2 : m_batchQueue s2 = Some (processingFinished tsk bq))
      by (subst s2; unfold finished; project; rewrite B; reflexivity).
    assert (W2 : well_staged s2 <-> well_staged s) by (split; intros W; exact W).
    assert (R : isBatchProcessingInProgress (finished tsk s) = true).
    { unfold isBatchProcessingInProgress, finished. project. rewrite B. reflexivity. }
    rewrite R. cbn [negb]. fold s2. clearbody s2. rewrite B2.
    destruct (processingFinished tsk bq) as [|e0 rest] eqn:PF; cbn [allProcessed].
    + apply W2 in D.
      destruct (stopBatchProcessing_returns (default_main_area env) s2 D) as [s3 St].
      rewrite St.
      assert (W3 : well_staged s3).
      { apply (well_staged_frame s2 s3);
          [eapply same_project_stopBatchProcessing; exact St | | exact D].
        apply stopBatchProcessing_orderly in St. apply St. }
      destruct (PageId.eqb _ _); [|eexists; reflexivity].
      apply goFirstPage_returns. exact W3.
    + destruct (refillLoop_spec fuel (e0 :: rest) s2 D) as [q' [taken [E _]]].
      rewrite E. eexists. reflexivity.
  - destruct (filter result) as [f|] eqn:F.
    2:{ eexists. apply filterResult_plain; [exact B | exact C |].
        intros f K. rewrite F in K. discriminate. }
    destruct (filterAt (m_curFilter s)) as [g|] eqn:A.
    + destruct (Stage_eqb f g) eqn:E.
      { apply Stage_eqb_eq in E. subst g. eexists.
        apply filterResult_plain; [exact B | exact C |].
        intros f' K. rewrite F in K. injection K as <-. exact A. }
      apply (filterResult_returns_on_redirect fuel tsk result s f B C D F).
      rewrite A. intros K. injection K as <-.
      rewrite Stage_eqb_refl in E. discriminate.
    + apply (filterResult_returns_on_redirect fuel tsk result s f B C D F).
      rewrite A. discriminate.
Qed.

Lemma forallb_weaken {A} (P Q : A -> bool) (l : list A) :
  (forall x, P x = true -> Q x = true) -> forallb P l = true -> forallb Q l = true.
Proof. intros W H. rewrite forallb_forall in *. auto. Qed.

(** A result calls for a redirect, or it does not. *)
Lemma redirect_or_not (result : FilterResult) (cur : Z) :
  (exists f, filter result = Some f /\ filterAt cur <> Some f) \/
  (forall f, filter result = Some f -> filterAt cur = Some f).
Proof.
  destruct (filter result) as [f|]; [|right; intros f K; discriminate].
  destruct (filterAt cur) as [g|] eqn:A.
  - destruct (Stage_eqb f g) eqn:E.
    + apply Stage_eqb_eq in E. subst g. right. intros f' K. injection K as <-. reflexivity.
    + left. exists f. split; [reflexivity|]. intros K. injection K as <-.
      rewrite Stage_eqb_refl in E. discriminate.
  - left. exists f. split; [reflexivity | discriminate].
Qed.

(** C5.  The completion callback first reports the task as finished to the
    interactive queue and, when there is one, to the batch queue, whether or
    not the task was cancelled: whenever it returns, these reports open what
    it has added to the trace, and it reports no task as finished after
    them.  For a cancelled task it returns at once: the queues are those
    after [processingFinished], and there is no UI update, no change of the
    selected stage, nothing handed to the pool.  For a task that is not
    cancelled it returns as well (given [can_deliver]: fuel for the refill
    loop, and no assertion tripped where a page is loaded), the result is
    delivered after the bookkeeping, and the queues are those after
    [processingFinished]: outside a batch the interactive queue (with the
    handler of the stage list suppressed, as it is unless the guard stands
    at -1), during a batch the interactive queue and the entries of the
    batch queue, until the last task of the batch ends it. *)
Theorem filterResult_finishes_then_checks_cancellation (fuel : nat)
    (tsk : BackgroundTaskPtr) (result : FilterResult) (s : MainWindow.t) :
  let bookkeeping :=
    ProcessingFinished InteractiveQueue tsk
    :: match m_batchQueue s with
       | Some _ => [ProcessingFinished BatchQueue tsk]
       | None => []
       end in
  (forall s', filterResult env fuel tsk result s = Some s' ->
     exists rest,
       trace s' = trace s ++ bookkeeping ++ rest /\
       forallb not_ProcessingFinished rest = true) /\
  (isCancelled (m_store s) tsk = true ->
   exists s',
     filterResult env fuel tsk result s = Some s' /\
     trace s' = trace s ++ bookkeeping /\
     m_interactiveQueue s' = processingFinished tsk (m_interactiveQueue s) /\
     m_batchQueue s' = option_map (processingFinished tsk) (m_batchQueue s) /\
     m_curFilter s' = m_curFilter s /\
     m_thumbSequence s' = m_thumbSequence s /\
     m_workerThreadPool s' = m_workerThreadPool s /\
     m_store s' = m_store s) /\
  (isCancelled (m_store s) tsk = false ->
   can_deliver fuel tsk s ->
   exists s' before after,
     filterResult env fuel tsk result s = Some s' /\
     trace s' = trace s ++ bookkeeping ++ before ++ UpdateUI result :: after /\
     (m_batchQueue s = None -> m_ignoreSelectionChanges s <> -1 ->
      m_interactiveQueue s' = processingFinished tsk (m_interactiveQueue s) /\
      m_batchQueue s' = None /\
      m_store s' = m_store s /\ m_workerThreadPool s' = m_workerThreadPool s) /\
     (forall bq, m_batchQueue s = Some bq ->
        match processingFinished tsk bq with
        | [] => m_batchQueue s' = None
        | _ :: _ =>
            m_interactiveQueue s' = processingFinished tsk (m_interactiveQueue s) /\
            exists bq', m_batchQueue s' = Some bq' /\
                        contents bq' = contents (processingFinished tsk bq)
        end)).
Proof.
  cbv zeta. split; [|split].
  - intros s' H. apply filterResult_delivery in H. destruct H as [[rest [E F]] _].
    exists rest. rewrite E. cbn [finished trace]. rewrite <- app_assoc. auto.
  - intros C. exists (finished tsk s). split; [apply filterResult_cancelled; exact C|].
    cbn. auto 10.
  - intros C D. destruct (filterResult_returns fuel tsk result s C D) as [s' H].
    destruct (m_batchQueue s) as [bq|] eqn:B.
    + destruct (filterResult_in_batch _ _ _ _ _ _ B C H) as [_ [[after [T _]] Q]].
      exists s', [], after. split; [exact H|]. split; [exact T|].
      split; [intros; discriminate|].
      intros bq0 E. injection E as <-.
      destruct (processingFinished tsk bq); [apply Q | exact Q].
    + destruct (redirect_or_not result (m_curFilter s)) as [[f [F A]] | P].
      * destruct (filterResult_redirects _ _ _ _ _ _ B C F A H) as [_ [m [T _]]].
        exists s', (SelectRow (findFilter f) :: m), []. split; [exact H|].
        split; [rewrite T; reflexivity|]. split; [|intros; discriminate].
        intros _ G. rewrite (filterResult_redirect env fuel tsk result s f B G C F A) in H.
        injection H as <-. project. auto.
      * rewrite (filterResult_plain fuel tsk result s B C P) in H. injection H as <-.
        exists (emit (UpdateUI result) (finished tsk s)), [], [].
        split; [apply filterResult_plain; assumption|].
        split; [unfold finished; project; rewrite B, <- app_assoc; reflexivity|].
        split; [|intros; discriminate].
        intros _ _. unfold finished. project. rewrite B. auto.
Qed.

(** C8, as the code has it.  A delivered result (of a task that is not
    cancelled) whose stage is not the selected one.  Outside batch
    processing the callback makes that stage the selected one and selects
    its row, whatever the guard [m_ignoreSelectionChanges]; it returns
    (given [can_deliver]), and with the handler of the stage list
    suppressed, as it is unless the guard stands at -1, it does nothing
    else before the result updates the UI.  During batch processing the
    callback returns as well (given [can_deliver]) and there is no
    redirect: the selected stage stays as it is and no row is selected. *)
Theorem focus_redirected_outside_batch_only (fuel : nat) (tsk : BackgroundTaskPtr)
    (result : FilterResult) (s : MainWindow.t) (f : Stage) :
  isCancelled (m_store s) tsk = false ->
  filter result = Some f ->
  filterAt (m_curFilter s) <> Some f ->
  (m_batchQueue s = None ->
   redirects_focus env fuel tsk result s /\
   (can_deliver fuel tsk s ->
    exists s', filterResult env fuel tsk result s = Some s' /\
               m_curFilter s' = findFilter f) /\
   (m_ignoreSelectionChanges s <> -1 ->
    exists s',
      filterResult env fuel tsk result s = Some s' /\
      m_curFilter s' = findFilter f /\
      m_ignoreSelectionChanges s' = m_ignoreSelectionChanges s /\
      trace s' = trace s ++ [ProcessingFinished InteractiveQueue tsk;
                             SelectRow (findFilter f);
                             UpdateUI result])) /\
  (forall bq, m_batchQueue s = Some bq ->
   (can_deliver fuel tsk s ->
    exists s', filterResult env fuel tsk result s = Some s' /\
               m_curFilter s' = m_curFilter s) /\
   (forall s', filterResult env fuel tsk result s = Some s' ->
      m_curFilter s' = m_curFilter s /\
      exists rest, trace s' = trace s ++ rest /\ forallb not_SelectRow rest = true)).
Proof.
  intros C F A. split.
  - intros B. split; [|split].
    + intros f0 s' _ F0 A0 H.
      destruct (filterResult_redirects _ _ _ _ _ _ B C F0 A0 H) as [K [m [T _]]].
      split; [exact K|].
      exists [ProcessingFinished InteractiveQueue tsk], (m ++ [UpdateUI result]).
      rewrite T. reflexivity.
    + intros D. destruct (filterResult_returns fuel tsk result s C D) as [s' H].
      exists s'. split; [exact H|].
      apply (filterResult_redirects _ _ _ _ _ _ B C F A H).
    + intros G. eexists.
      split; [exact (filterResult_redirect env fuel tsk result s f B G C F A)|].
      project. auto.
  - intros bq B.
    assert (K : forall s', filterResult env fuel tsk result s = Some s' ->
              m_curFilter s' = m_curFilter s /\
              exists rest, trace s' = trace s ++ rest /\ forallb not_SelectRow rest = true).
    { intros s' H.
      destruct (filterResult_in_batch _ _ _ _ _ _ B C H) as [K [[after [T Fa]] _]].
      split; [exact K|]. eexists. split; [exact T|].
      cbn [app forallb not_SelectRow is_SelectRow negb andb].
      exact (forallb_weaken _ _ _ batch_event_not_SelectRow Fa). }
    split; [|exact K].
    intros D. destruct (filterResult_returns fuel tsk result s C D) as [s' H].
    exists s'. split; [exact H | apply K; exact H].
Qed.

(** X10.  The result of a task that is not cancelled, arriving during a
    batch.  When the task's entry was the last one of the batch queue, the
    callback returns on a window that can reset its thumbnail sequence and
    load a page: the batch ends and the user is alerted.  Otherwise it
    returns when the refill loop has fuel for the pending entries: the batch
    goes on and the queue has lost the finished entry and nothing else.
    Whenever it returns, one of the two has happened. *)
Theorem batch_ends_with_its_last_entry (fuel : nat) (tsk : BackgroundTaskPtr)
    (result : FilterResult) (s : MainWindow.t) (bq : ProcessingTaskQueue.t) :
  m_batchQueue s = Some bq ->
  isCancelled (m_store s) tsk = false ->
  (processingFinished tsk bq = [] -> well_staged s ->
   exists s',
     filterResult env fuel tsk result s = Some s' /\
     m_batchQueue s' = None /\ In Alert (trace s')) /\
  (processingFinished tsk bq <> [] ->
   (length (pending (processingFinished tsk bq)) < fuel)%nat ->
   exists s' bq',
     filterResult env fuel tsk result s = Some s' /\
     m_batchQueue s' = Some bq' /\
     contents bq' = contents (processingFinished tsk bq)) /\
  (forall s', filterResult env fuel tsk result s = Some s' ->
     processingFinished tsk bq = [] /\ m_batchQueue s' = None /\ In Alert (trace s')
     \/
     processingFinished tsk bq <> [] /\
     exists bq', m_batchQueue s' = Some bq' /\
                 contents bq' = contents (processingFinished tsk bq)).
Proof.
  intros B C. split; [|split].
  - intros PF W.
    destruct (filterResult_returns fuel tsk result s C) as [s' H].
    { unfold can_deliver. rewrite B, PF. exact W. }
    exists s'. split; [exact H|].
    destruct (filterResult_in_batch _ _ _ _ _ _ B C H) as [_ [_ Q]].
    rewrite PF in Q. exact Q.
  - intros PF Hf.
    destruct (filterResult_returns fuel tsk result s C) as [s' H].
    { unfold can_deliver. rewrite B.
      destruct (processingFinished tsk bq); [contradiction | exact Hf]. }
    destruct (filterResult_in_batch _ _ _ _ _ _ B C H) as [_ [_ Q]].
    destruct (processingFinished tsk bq) as [|e0 rest]; [contradiction|].
    destruct Q as [_ [bq' [B' Cq]]]. exists s', bq'. auto.
  - intros s' H.
    destruct (filterResult_in_batch _ _ _ _ _ _ B C H) as [_ [_ Q]].
    destruct (processingFinished tsk bq) as [|e0 rest].
    + left. split; [reflexivity | exact Q].
    + right. split; [discriminate|]. apply Q.
Qed.

End Delivery.

(** The task of page B reports during the batch over pages B, C and A: the
    result is delivered, and the batch queue is left with the entries of C
    and A. *)
Lemma filterResult_finishes_then_checks_cancellation_witness :
  exists s' bq',
    MainWindow.filterResult Example.env 4 0%nat Example.page_split_result
      Example.batch_window = Some s' /\
    In (MainWindow.UpdateUI Example.page_split_result) (MainWindow.trace s') /\
    MainWindow.m_batchQueue s' = Some bq' /\
    contents bq' = [(Example.C, 1%nat); (Example.A, 2%nat)].
Proof.
  destruct (filterResult_finishes_then_checks_cancellation Example.env 4 0%nat
              Example.page_split_result Example.batch_window) as [_ [_ K]].
  destruct K as [s' [before [after [E [T [_ Q]]]]]].
  - reflexivity.
  - vm_compute. lia.
  - specialize (Q [ProcessingTaskQueue.mkEntry Example.B 0%nat ProcessingTaskQueue.Processing;
                   ProcessingTaskQueue.mkEntry Example.C 1%nat ProcessingTaskQueue.Processing;
                   ProcessingTaskQueue.mkEntry Example.A 2%nat ProcessingTaskQueue.Pending]
                  eq_refl).
    destruct Q as [_ [bq' [B' Cq]]].
    exists s', bq'. split; [exact E|]. split; [|split; [exact B' | exact Cq]].
    rewrite T. apply in_or_app. right. apply in_or_app. right.
    apply in_or_app. right. left. reflexivity.
Defined.

(** The page-split stage reports a failure while the deskew stage is
    selected.  For the page being loaded, outside a batch: the page-split
    stage becomes the selected one.  For a page of the batch over B, C and
    A: the deskew stage stays selected. *)
Lemma focus_redirected_outside_batch_only_witness :
  (exists s',
     MainWindow.filterResult Example.env 1 0%nat Example.page_split_result
       Example.interactive_window = Some s' /\
     MainWindow.m_curFilter s' = pageSplitFilterIdx) /\
  (exists s',
     MainWindow.filterResult Example.env 4 0%nat Example.page_split_result
       Example.batch_window = Some s' /\
     MainWindow.m_curFilter s' = deskewFilterIdx).
Proof.
  split.
  - destruct (focus_redirected_outside_batch_only Example.env 1 0%nat
                Example.page_split_result Example.interactive_window PageSplit)
      as [K _].
    + reflexivity.
    + reflexivity.
    + vm_compute. discriminate.
    + destruct (K eq_refl) as [_ [_ R]].
      destruct R as [s' [E [F _]]]; [vm_compute; discriminate|].
      exists s'. split; [exact E | exact F].
  - destruct (focus_redirected_outside_batch_only Example.env 4 0%nat
                Example.page_split_result Example.batch_window PageSplit)
      as [_ K].
    + reflexivity.
    + reflexivity.
    + vm_compute. discriminate.
    + destruct (K [ProcessingTaskQueue.mkEntry Example.B 0%nat ProcessingTaskQueue.Processing;
                   ProcessingTaskQueue.mkEntry Example.C 1%nat ProcessingTaskQueue.Processing;
                   ProcessingTaskQueue.mkEntry Example.A 2%nat ProcessingTaskQueue.Pending]
                  eq_refl) as [R _].
      destruct R as [s' [E F]]; [vm_compute; lia|].
      exists s'. split; [exact E | exact F].
Defined.

(** The batch over the one page of a project ends when the task of that
    page reports; the batch over pages B, C and A goes on when the task of
    page B reports, with the entries of C and A. *)
Lemma batch_ends_with_its_last_entry_witness :
  (exists s',
     MainWindow.filterResult Example.env 4 0%nat (MainWindow.mkFilterResult (Some Deskew))
       Scenario.one_page_batch_window = Some s' /\
     MainWindow.m_batchQueue s' = None /\ In MainWindow.Alert (MainWindow.trace s')) /\
  (exists s' bq',
     MainWindow.filterResult Example.env 4 0%nat (MainWindow.mkFilterResult (Some Deskew))
       Example.batch_window = Some s' /\
     MainWindow.m_batchQueue s' = Some bq' /\
     contents bq' = [(Example.C, 1%nat); (Example.A, 2%nat)]).
Proof.
  split.
  - destruct (batch_ends_with_its_last_entry Example.env 4 0%nat
                (MainWindow.mkFilterResult (Some Deskew)) Scenario.one_page_batch_window
                [ProcessingTaskQueue.mkEntry Example.A 0%nat ProcessingTaskQueue.Processing]
                eq_refl eq_refl) as [K _].
    apply K; [reflexivity|].
    split; [split; vm_compute; discriminate | left; reflexivity].
  - destruct (batch_ends_with_its_last_entry Example.env 4 0%nat
                (MainWindow.mkFilterResult (Some Deskew)) Example.batch_window
                [ProcessingTaskQueue.mkEntry Example.B 0%nat ProcessingTaskQueue.Processing;
                 ProcessingTaskQueue.mkEntry Example.C 1%nat ProcessingTaskQueue.Processing;
                 ProcessingTaskQueue.mkEntry Example.A 2%nat ProcessingTaskQueue.Pending]
                eq_refl eq_refl) as [_ [K _]].
    apply K; [vm_compute; discriminate | vm_compute; lia].
Defined.

(* ------------------------------------------------------------------ *)
(** ** The queues and the tasks they name *)

Section Matching.

Import ProcessingTaskQueue MainWindow.

Variable env : Collaborators.

Lemma keeps_tasks_refl st : keeps_tasks st st.
Proof. intros p o H. exists o. auto. Qed.

Lemma keeps_tasks_trans st1 st2 st3 :
  keeps_tasks st1 st2 -> keeps_tasks st2 st3 -> keeps_tasks st1 st3.
Proof.
  intros K1 K2 p o H. destruct (K1 p o H) as [o1 [H1 E1]].
  destruct (K2 p o1 H1) as [o2 [H2 E2]]. exists o2. split; [exact H2 | congruence].
Qed.

Lemma keeps_tasks_cancel p st : keeps_tasks st (cancel p st).
Proof.
  revert p. induction st as [|x st IH]; intros p q o H; [destruct q; discriminate|].
  destruct p as [|p], q as [|q]; cbn in *.
  - injection H as <-. eexists. split; reflexivity.
  - exists o. auto.
  - exists o. auto.
  - apply IH. exact H.
Qed.

Lemma keeps_tasks_cancelAndClear st q : keeps_tasks st (fst (cancelAndClear st q)).
Proof.
  unfold cancelAndClear. cbn [fst]. revert st.
  induction q as [|e q IH]; intros st; cbn [fold_left]; [apply keeps_tasks_refl|].
  eapply keeps_tasks_trans; [apply keeps_tasks_cancel | apply IH].
Qed.

Lemma keeps_tasks_app st new : keeps_tasks st (st ++ new).
Proof.
  intros p o H. exists o. split; [|reflexivity].
  rewrite nth_error_app1; [exact H|]. apply nth_error_Some. congruence.
Qed.

Lemma task_for_kept st st' ty page p :
  keeps_tasks st st' -> task_for st ty page p -> task_for st' ty page p.
Proof.
  intros K [o [H [E1 E2]]]. destruct (K p o H) as [o' [H' E']].
  exists o'. rewrite E'. auto.
Qed.

Lemma queue_matches_kept st st' ty q :
  keeps_tasks st st' -> queue_matches st ty q -> queue_matches st' ty q.
Proof. intros K M e Hin. eapply task_for_kept; [exact K | apply M; exact Hin]. Qed.

Lemma queue_matches_nil st ty : queue_matches st ty [].
Proof. intros e []. Qed.

Lemma queue_matches_contents st ty q q' :
  contents q' = contents q -> queue_matches st ty q -> queue_matches st ty q'.
Proof.
  intros C M e Hin.
  assert (I : In (pageInfo e, task e) (contents q')).
  { unfold contents. apply in_map_iff. exists e. auto. }
  rewrite C in I. unfold contents in I. apply in_map_iff in I.
  destruct I as [e0 [E I]]. injection E as E1 E2. rewrite <- E1, <- E2. apply M. exact I.
Qed.

Lemma queue_matches_finished st ty tsk q :
  queue_matches st ty q -> queue_matches st ty (processingFinished tsk q).
Proof.
  intros M e Hin. unfold processingFinished in Hin. apply filter_In in Hin. apply M, Hin.
Qed.

Lemma createCompositeTask_for page (S : Z) batch debug c :
  snd (createCompositeTask page S batch debug) = Some c ->
  lf_page c = page /\
  lf_type c = (if batch then BackgroundTask.BATCH else BackgroundTask.INTERACTIVE).
Proof.
  unfold createCompositeTask.
  split_on_comparisons S; cbv zeta; cbn [fst snd]; intros H; try discriminate;
    injection H as <-; split; reflexivity.
Qed.

Lemma queue_matches_add st ty page c q :
  lf_page c = page -> lf_type c = ty ->
  queue_matches st ty q ->
  queue_matches (st ++ [mkTaskObject c false]) ty (addProcessingTask page (length st) q).
Proof.
  intros E1 E2 M. unfold addProcessingTask.
  destruct (hasPage q (PageInfo.id page)).
  - eapply queue_matches_kept; [apply keeps_tasks_app | exact M].
  - intros e Hin. apply in_app_or in Hin. destruct Hin as [Hin | [<- | []]].
    + eapply task_for_kept; [apply keeps_tasks_app | apply M; exact Hin].
    + cbn [pageInfo task]. exists (mkTaskObject c false).
      rewrite nth_error_app2 by lia. rewrite Nat.sub_diag. auto.
Qed.

Lemma matching_refl s : matching_step s s.
Proof. split; [apply keeps_tasks_refl | auto]. Qed.

Lemma matching_trans s1 s2 s3 :
  matching_step s1 s2 -> matching_step s2 s3 -> matching_step s1 s3.
Proof. intros [K1 T1] [K2 T2]. split; [eapply keeps_tasks_trans; eassumption | auto]. Qed.

Lemma matching_same s s' :
  m_store s' = m_store s -> m_interactiveQueue s' = m_interactiveQueue s ->
  m_batchQueue s' = m_batchQueue s -> matching_step s s'.
Proof.
  intros E1 E2 E3. split.
  - rewrite E1. apply keeps_tasks_refl.
  - unfold entries_match_tasks. rewrite E1, E2, E3. auto.
Qed.

Lemma matching_selection s s' : selection_step s s' -> matching_step s s'.
Proof. intros [ts [tr ->]]. apply matching_same; reflexivity. Qed.

Lemma matching_interactive_cancelAndClear s : matching_step s (interactive_cancelAndClear s).
Proof.
  destruct (interactive_cancelAndClear_eq s) as [S1 [Q1 [_ [_ B1]]]].
  assert (K : keeps_tasks (m_store s) (m_store (interactive_cancelAndClear s)))
    by (rewrite S1; apply keeps_tasks_cancelAndClear).
  split; [exact K|].
  unfold entries_match_tasks. rewrite Q1, B1. intros [_ M].
  split; [apply queue_matches_nil|].
  destruct (m_batchQueue s); [|exact I]. eapply queue_matches_kept; eassumption.
Qed.

Lemma loadPageInteractive_matching page s s' :
  loadPageInteractive env page s = Some s' ->
  keeps_tasks (m_store s) (m_store s') /\ entries_match_tasks s'.
Proof.
  destruct s as [st pg pool iq bq ts cache cbp pop sel cf ign dbg out tr].
  unfold loadPageInteractive, isBatchProcessingInProgress, interactive_cancelAndClear,
    cancelAndClear, alloc, submitTask.
  project. intros H.
  destruct bq; [discriminate|].
  pose proof (keeps_tasks_cancelAndClear st iq) as K.
  unfold cancelAndClear in K. cbn [fst] in K.
  destruct (isOutputFilter cf && _).
  { injection H as <-. unfold entries_match_tasks. project. split; [exact K|].
    split; [apply queue_matches_nil | exact I]. }
  project_in H. destruct (filterAt cf); [|discriminate]. project_in H.
  destruct cache; cbn [negb] in H; [|discriminate].
  destruct (snd (createCompositeTask page cf false dbg)) as [c|] eqn:C; [|discriminate].
  apply createCompositeTask_for in C. destruct C as [C1 C2].
  cbv zeta in H. project_in H. cbn [fold_left] in H.
  unfold addProcessingTask in H. cbn [hasPage existsb app] in H.
  cbn [takeForProcessing isPending status pageInfo task] in H.
  injection H as <-. unfold entries_match_tasks. project. split.
  - eapply keeps_tasks_trans; [exact K | apply keeps_tasks_app].
  - split; [|exact I]. intros e [<- | []]. cbn [pageInfo task].
    exists (mkTaskObject c false).
    rewrite nth_error_app2 by lia. rewrite Nat.sub_diag. auto.
Qed.

Lemma updateMainArea_matching s s' : updateMainArea env s = Some s' -> matching_step s s'.
Proof.
  unfold updateMainArea. intros H.
  destruct (Nat.eqb _ 0); [injection H as <-; apply matching_refl|].
  destruct (isBatchProcessingInProgress s); [injection H as <-; apply matching_refl|].
  destruct (PageInfo.isNull _); [injection H as <-; apply matching_refl|].
  apply loadPageInteractive_matching in H. destruct H as [K M]. split; auto.
Qed.

Lemma goToPage_matching p s s' : goToPage env p s = Some s' -> matching_step s s'.
Proof.
  unfold goToPage. intros H. apply updateMainArea_matching in H.
  eapply matching_trans; [apply matching_selection, selection_setSelection | exact H].
Qed.

Lemma goFirstPage_matching s s' : goFirstPage env s = Some s' -> matching_step s s'.
Proof.
  unfold goFirstPage. intros H.
  destruct (_ || _); [injection H as <-; apply matching_refl|].
  destruct (negb _); [|injection H as <-; apply matching_refl].
  eapply goToPage_matching; eassumption.
Qed.

Lemma stopBatchProcessing_matching area s s' :
  stopBatchProcessing env area s = Some s' -> matching_step s s'.
Proof.
  unfold stopBatchProcessing. intros H.
  destruct (m_batchQueue s) as [bq|] eqn:B; [|injection H as <-; apply matching_refl].
  match type of H with
  | context [cancelAndClear (m_store ?x) bq] =>
      assert (K1 : matching_step s x)
        by (destruct (negb _);
            [apply matching_selection, selection_setSelection | apply matching_refl]);
      set (s1 := x) in *; clearbody s1
  end.
  pose proof (keeps_tasks_cancelAndClear (m_store s1) bq) as K.
  unfold cancelAndClear in H, K. cbv zeta in H. cbn [fst] in K.
  match type of H with
  | context [set_batchQueue None ?x] =>
      assert (K2 : matching_step s1 (set_batchQueue None x));
      [|set (s2 := set_batchQueue None x) in *; clearbody s2]
  end.
  { split; [exact K|]. unfold entries_match_tasks. project. intros [M _].
    split; [|exact I]. eapply queue_matches_kept; eassumption. }
  destruct area.
  - destruct (updateMainArea env s2) as [s3|] eqn:U; [|discriminate].
    apply updateMainArea_matching in U.
    apply selection_resetThumbSequence, matching_selection in H.
    eauto using matching_trans.
  - apply selection_resetThumbSequence, matching_selection in H.
    eauto using matching_trans.
Qed.

Lemma enqueueBatchWith_matching nextPage fuel cf dbg page st q st' q' :
  enqueueBatchWith nextPage fuel cf dbg page st q = Some (st', q') ->
  queue_matches st BackgroundTask.BATCH q -> queue_matches st' BackgroundTask.BATCH q'.
Proof.
  revert page st q. induction fuel as [|fuel IH]; intros page st q H M; [discriminate|].
  cbn [enqueueBatchWith] in H.
  destruct (PageInfo.isNull page); [injection H as <- <-; exact M|].
  destruct (snd (createCompositeTask page cf true dbg)) as [c|] eqn:C; [|discriminate].
  apply createCompositeTask_for in C. destruct C as [C1 C2].
  unfold alloc in H. eapply IH; [exact H|]. apply queue_matches_add; assumption.
Qed.

Lemma submitLoop_contents fuel tsk q s q' s' :
  submitLoop fuel tsk q s = Some (q', s') -> contents q' = contents q.
Proof.
  revert tsk q s. induction fuel as [|fuel IH]; intros tsk q s H; [discriminate|].
  cbn [submitLoop] in H. cbv zeta in H.
  destruct (negb (WorkerThreadPool.hasSpareCapacity (m_workerThreadPool (submitTask tsk s)))).
  - injection H as <- <-. reflexivity.
  - pose proof (takeForProcessing_contents q) as Pg.
    destruct (takeForProcessing q) as [[tsk'|] q1]; cbn [snd] in Pg.
    + apply IH in H. congruence.
    + injection H as <- <-. exact Pg.
Qed.

Lemma startBatchProcessing_matching fuel s s' :
  startBatchProcessing env fuel s = Some s' -> matching_step s s'.
Proof.
  unfold startBatchProcessing. intros H.
  destruct (_ || _); [injection H as <-; apply matching_refl|].
  pose proof (matching_interactive_cancelAndClear s) as [K1 _].
  assert (Q1 : m_interactiveQueue (interactive_cancelAndClear s) = [])
    by apply interactive_cancelAndClear_eq.
  set (s1 := interactive_cancelAndClear s) in *. clearbody s1.
  destruct (enqueueBatch fuel (m_thumbSequence s1) (m_curFilter s1) (m_debug s1)
              (ThumbnailSequence.selectionLeader (m_thumbSequence s1)) (m_store s1) [])
    as [[st' q0]|] eqn:E; [|discriminate].
  pose proof (enqueueBatchWith_matching _ _ _ _ _ _ _ _ _ E (queue_matches_nil _ _)) as M0.
  apply enqueueBatchWith_store in E. destruct E as [new ->].
  cbn [fst snd] in H.
  pose proof (takeForProcessing_contents q0) as Pg.
  destruct (takeForProcessing q0) as [taken q1]. cbn [snd] in Pg.
  match type of H with
  | context [set_batchQueue (Some q1) ?x] => set (s2 := set_batchQueue (Some q1) x) in *
  end.
  assert (S2 : m_store s2 = m_store s1 ++ new) by reflexivity.
  assert (Q2 : m_interactiveQueue s2 = []) by (subst s2; project; exact Q1).
  assert (B2 : m_batchQueue s2 = Some q1) by reflexivity.
  clearbody s2.
  assert (K2 : keeps_tasks (m_store s) (m_store s2)).
  { rewrite S2. eapply keeps_tasks_trans; [exact K1 | apply keeps_tasks_app]. }
  assert (M2 : entries_match_tasks s2).
  { unfold entries_match_tasks. rewrite Q2, B2, S2.
    split; [apply queue_matches_nil|]. eapply queue_matches_contents; eassumption. }
  clear K1 Q1 S2 M0 Pg.
  match type of H with
  | (match ?c with Some _ => _ | None => None end) = _ =>
      destruct c as [s3|] eqn:C; [|discriminate]
  end.
  assert (I3 : keeps_tasks (m_store s) (m_store s3) /\ entries_match_tasks s3).
  { destruct taken as [tsk|].
    - destruct (submitLoop fuel tsk q1 s2) as [[q' s2']|] eqn:L; [|discriminate].
      pose proof (submitLoop_contents _ _ _ _ _ _ L) as Pc.
      apply submitLoop_result in L. destruct L as [l ->].
      destruct (submitAll_frame l s2) as [F1 [F2 _]].
      injection C as <-. cbn [fst snd]. project. rewrite F1. split; [exact K2|].
      unfold entries_match_tasks. project. rewrite F1, F2, Q2.
      split; [apply queue_matches_nil|].
      eapply queue_matches_contents; [exact Pc|].
      destruct M2 as [_ M2]. rewrite B2 in M2. exact M2.
    - apply stopBatchProcessing_matching in C. destruct C as [K3 T3].
      split; [eapply keeps_tasks_trans; eassumption | auto]. }
  destruct I3 as [K3 M3].
  destruct (m_batchQueue s3) as [bq|]; [|discriminate].
  apply updateMainArea_matching in H.
  match type of H with
  | matching_step ?x _ =>
      assert (O : matching_step s3 x)
        by (destruct (negb _);
            [apply matching_selection, selection_setSelection | apply matching_refl])
  end.
  destruct (matching_trans _ _ _ O H) as [K5 T5].
  split; [eapply keeps_tasks_trans; eassumption | auto].
Qed.

Lemma filterSelectionChanged_matching selected s s' :
  filterSelectionChanged env selected s = Some s' -> matching_step s s'.
Proof.
  intros H.
  destruct (Z.eq_dec (m_ignoreSelectionChanges s) 0) as [G | G].
  2:{ rewrite filterSelectionChanged_suppressed in H by exact G.
      injection H as <-. apply matching_refl. }
  destruct selected as [|top rest].
  { rewrite filterSelectionChanged_unfold in H. rewrite G in H. injection H as <-.
    apply matching_refl. }
  rewrite filterSelectionChanged_unfold in H. rewrite G in H. cbn [Z.eqb negb] in H. cbv zeta in H.
  pose proof (matching_interactive_cancelAndClear s) as K1.
  set (s1 := interactive_cancelAndClear s) in *. clearbody s1.
  set (s2 := match m_batchQueue s1 with
             | Some bq =>
                 let (st, q) := cancelAndClear (m_store s1) bq in
                 set_batchQueue (Some q) (set_store st s1)
             | None => s1
             end) in *.
  assert (K2 : matching_step s1 s2).
  { subst s2. destruct (m_batchQueue s1) as [bq|] eqn:B; [|apply matching_refl].
    pose proof (keeps_tasks_cancelAndClear (m_store s1) bq) as K.
    unfold cancelAndClear in *. cbn [fst] in K. split; [exact K|].
    unfold entries_match_tasks. project. intros [M _].
    split; [eapply queue_matches_kept; eassumption | apply queue_matches_nil]. }
  clearbody s2.
  match type of H with
  | context [resetThumbSequence env _ ?x] =>
      assert (K4 : matching_step s2 x);
      [|set (s4 := x) in *; clearbody s4]
  end.
  { clear. destruct s2 as [? ? ? ? ? ? ? p1 p2 ? ? ? ? ? ?]. project.
    destruct (_ && _), (_ && _), p1, p2; project; apply matching_same; reflexivity. }
  destruct (resetThumbSequence env ThumbnailSequence.KEEP_SELECTION s4) as [s5|] eqn:R;
    [|discriminate].
  apply selection_resetThumbSequence, matching_selection in R.
  apply updateMainArea_matching in H.
  eauto 6 using matching_trans.
Qed.

Lemma matching_finished tsk s : matching_step s (finished tsk s).
Proof.
  split; [apply keeps_tasks_refl|].
  unfold entries_match_tasks, finished. project. intros [M1 M2]. split.
  - apply queue_matches_finished. exact M1.
  - destruct (m_batchQueue s); cbn [option_map]; [|exact I].
    apply queue_matches_finished. exact M2.
Qed.

Lemma filterResult_matching fuel tsk result s s' :
  filterResult env fuel tsk result s = Some s' -> matching_step s s'.
Proof.
  rewrite filterResult_unfold. cbv zeta.
  pose proof (matching_finished tsk s) as K0.
  set (s0 := finished tsk s) in *. clearbody s0.
  intros H.
  destruct (isCancelled (m_store s0) tsk); [injection H as <-; exact K0|].
  match type of H with
  | (match ?c with Some _ => _ | None => None end) = _ =>
      destruct c as [s1|] eqn:Mid; [|discriminate]
  end.
  assert (K1 : matching_step s0 s1).
  { destruct (negb (isBatchProcessingInProgress s0));
      [|injection Mid as <-; apply matching_refl].
    destruct (filter result) as [f|]; [|injection Mid as <-; apply matching_refl].
    destruct (match filterAt (m_curFilter s0) with
              | Some g => negb (Stage_eqb f g)
              | None => true
              end); [|injection Mid as <-; apply matching_refl].
    destruct (findFilter f <? 0); [discriminate|].
    match type of Mid with
    | context [filterSelectionChanged env _ ?x] =>
        assert (KA : matching_step s0 x) by (apply matching_same; reflexivity);
        set (sA := x) in *; clearbody sA
    end.
    destruct (filterSelectionChanged env [findFilter f] sA) as [sB|] eqn:FS; [|discriminate].
    apply filterSelectionChanged_matching in FS.
    injection Mid as <-.
    eapply matching_trans; [exact KA|]. eapply matching_trans; [exact FS|].
    apply matching_same; reflexivity. }
  set (s2 := emit (UpdateUI result) s1) in *.
  assert (K2 : matching_step s1 s2) by (apply matching_same; reflexivity).
  clearbody s2.
  assert (K : matching_step s s2) by eauto using matching_trans.
  clear K0 K1 K2 Mid.
  destruct (m_batchQueue s2) as [bq|] eqn:B2; [|injection H as <-; exact K].
  destruct (allProcessed bq).
  - destruct (stopBatchProcessing env (default_main_area env) s2) as [s3|] eqn:St;
      [|discriminate].
    apply stopBatchProcessing_matching in St.
    set (s4 := emit Alert s3) in *.
    assert (K4 : matching_step s3 s4) by (apply matching_same; reflexivity).
    clearbody s4.
    destruct (PageId.eqb _ _).
    + apply goFirstPage_matching in H. eauto 6 using matching_trans.
    + injection H as <-. eauto 6 using matching_trans.
  - destruct (refillLoop fuel bq s2) as [[q' s3]|] eqn:L; [|discriminate].
    apply refillLoop_result in L. destruct L as [[l ->] Pc].
    cbn [fst snd] in H. injection H as <-.
    destruct (submitAll_frame l s2) as [F1 [F2 _]].
    set (s4 := set_batchQueue (Some q') (submitAll l s2)) in *.
    assert (K4 : matching_step s2 s4).
    { split; [subst s4; project; rewrite F1; apply keeps_tasks_refl|].
      unfold entries_match_tasks. subst s4. project. rewrite F1, F2, B2.
      intros [M1 M2]. split; [exact M1|]. eapply queue_matches_contents; eassumption. }
    clearbody s4.
    match goal with
    | |- matching_step s ?x =>
        assert (K5 : selection_step s4 x)
          by (destruct (negb _); [apply selection_setSelection | apply selection_refl])
    end.
    apply matching_selection in K5. eauto 6 using matching_trans.
Qed.

(** X23.  In every window that can arise, each entry of the interactive
    queue names a task that [createCompositeTask] built for the entry's own
    page as an interactive task, and each entry of the batch queue a task
    built for the entry's own page as a batch task: a queue never holds a
    page under the task of another page, nor a task of the other kind. *)
Theorem queue_entries_name_their_own_tasks (s : MainWindow.t) :
  reachable env s -> entries_match_tasks s.
Proof.
  induction 1 as [s Hi Hb | s s' _ IH St].
  - unfold entries_match_tasks. rewrite Hi, Hb. split; [apply queue_matches_nil | exact I].
  - revert IH.
    destruct St as [selected s3 H | fuel s3 H | area s3 H | fuel tsk result s3 H
                   | s3 H | p s3 H | s3 H].
    + apply filterSelectionChanged_matching in H. apply H.
    + apply startBatchProcessing_matching in H. apply H.
    + apply stopBatchProcessing_matching in H. apply H.
    + apply filterResult_matching in H. apply H.
    + apply updateMainArea_matching in H. apply H.
    + apply goToPage_matching in H. apply H.
    + apply goFirstPage_matching in H. apply H.
Qed.

End Matching.

(** The batch over pages B, C and A of the example project. *)
Lemma queue_entries_name_their_own_tasks_witness :
  reachable Example.env Example.batch_window /\
  entries_match_tasks Example.batch_window.
Proof.
  assert (R : reachable Example.env Example.batch_window).
  { apply (reachable_step Example.env Example.window).
    - apply reachable_initial; reflexivity.
    - apply step_startBatchProcessing with (fuel := 4%nat). vm_compute. reflexivity. }
  split; [exact R|].
  apply (queue_entries_name_their_own_tasks Example.env Example.batch_window R).
Defined.
